(** * monty.json: a shallow embedding of the object <-> JSON codec

    The development follows [src/monty/json.py].  Python values are a
    first-order universe [PyVal]; an exception is a value of [exn] carried
    by the error monad [result]; everything the module obtains from the
    interpreter or from an optional third-party package (imports, class
    objects, library constructors, the file system) is a field of the
    record [Runtime], passed explicitly.  Process-wide state
    ([MSONable.REDIRECT]) is an explicit argument of the decoder. *)

From stdpp Require Import gmap strings list pretty.
From Stdlib Require Import ZArith Lia Ascii String.
From Stdlib Require OrderedTypeEx.

Open Scope string_scope.
Open Scope Z_scope.

#[local] Set Warnings "-clear-no-such-hyp".

(** ** Exceptions and the error monad *)

Inductive exn_class :=
| OSError               (* FileNotFoundError, PermissionError, ... *)
| ImportError           (* ModuleNotFoundError *)
| AttributeError
| TypeError
| ValueError
| KeyError
| NotImplementedError
| RecursionError
| ParseError.           (* the YAML / JSON parser's own failure *)

Record exn := Exn { exn_cls : exn_class; exn_msg : string }.

Inductive result (A : Type) :=
| Ok (a : A)
| Raise (e : exn).
Arguments Ok {A} a.
Arguments Raise {A} e.

#[global] Instance exn_class_eq_dec : EqDecision exn_class.
Proof. solve_decision. Defined.

#[global] Instance result_ret : MRet result := fun A a => Ok a.
#[global] Instance result_bind : MBind result :=
  fun A B f r => match r with Ok a => f a | Raise e => Raise e end.
#[global] Instance result_fmap : FMap result :=
  fun A B f r => match r with Ok a => Ok (f a) | Raise e => Raise e end.

Definition raise {A} (c : exn_class) (msg : string) : result A :=
  Raise (Exn c msg).

(** [try: r  except (c1, c2, ...): handler] *)
Definition try_except {A} (r : result A) (caught : list exn_class)
    (handler : result A) : result A :=
  match r with
  | Ok a => Ok a
  | Raise e => if bool_decide (exn_cls e ∈ caught) then handler else Raise e
  end.

Arguments try_except : simpl never.

Definition is_ok {A} (r : result A) : bool :=
  match r with Ok _ => true | Raise _ => false end.

(** Sequencing the elements of a comprehension, left to right. *)
Fixpoint sequence {A} (rs : list (result A)) : result (list A) :=
  match rs with
  | [] => Ok []
  | r :: rs' => a ← r; as' ← sequence rs'; Ok (a :: as')
  end.

(** ** Strings *)

Definition dot : ascii := "."%char.

(** [s.split(".")]: never empty; ["a.b.c"] gives [["a"; "b"; "c"]]. *)
Fixpoint split_dot (s : string) : list string :=
  match s with
  | EmptyString => [EmptyString]
  | String c s' =>
      if Ascii.eqb c dot then EmptyString :: split_dot s'
      else match split_dot s' with
           | [] => [String c EmptyString]
           | w :: ws => String c w :: ws
           end
  end.

(** [".".join(parts)] *)
Fixpoint join_dot (parts : list string) : string :=
  match parts with
  | [] => EmptyString
  | [p] => p
  | p :: ps => p ++ String dot (join_dot ps)
  end.

(** [xs[-1]] and [xs[:-1]] *)
Definition last_part (xs : list string) : string := List.last xs EmptyString.
Definition init_parts (xs : list string) : list string := List.removelast xs.

(** [needle in s] for strings *)
Fixpoint contains (needle s : string) : bool :=
  String.prefix needle s ||
  match s with
  | EmptyString => false
  | String _ s' => contains needle s'
  end.

(** ** The redirect table

    [MSONable.REDIRECT]: module -> class -> {"@module": m, "@class": c}. *)

Record redirect_entry := Redirect { new_module : string; new_class : string }.

Abbreviation redirect_table := (gmap string (gmap string redirect_entry)).

(** What [yaml.load] hands back. *)
Inductive yaml_doc :=
| YMapping (items : list (string * string))   (* flat text -> text mapping *)
| YOther.                                     (* scalar, sequence, None: no [.items()] *)

(** The file system and the YAML reader as the loader sees them. *)
Record LoaderEnv := {
  open_read : string -> result string;   (* [open(path)]; [Raise OSError] when it cannot *)
  yaml_imported : bool;                  (* [YAML is not None] *)
  yaml_load : string -> result yaml_doc  (* [YAML().load(f)] *)
}.

(** The body of the [try] block: open, build the reader, parse. *)
Definition read_redirect_file (env : LoaderEnv) (redirect_file : string)
    : result yaml_doc :=
  f ← open_read env redirect_file;
  if yaml_imported env then yaml_load env f
  else raise TypeError "'NoneType' object is not callable".

(** [redirect_dict[old_module][old_class] = {...}] on a [defaultdict(dict)] *)
Definition redirect_set (t : redirect_table) (m c : string)
    (e : redirect_entry) : redirect_table :=
  <[m := <[c := e]> (default ∅ (t !! m))]> t.

Definition redirect_step (t : redirect_table) (kv : string * string)
    : redirect_table :=
  let '(old_path, new_path) := kv in
  let old_class := last_part (split_dot old_path) in
  let old_module := join_dot (init_parts (split_dot old_path)) in
  let new_class := last_part (split_dot new_path) in
  let new_module := join_dot (init_parts (split_dot new_path)) in
  redirect_set t old_module old_class (Redirect new_module new_class).

Definition _load_redirect (env : LoaderEnv) (redirect_file : string)
    : result redirect_table :=
  match
    try_except
      (Some <$> read_redirect_file env redirect_file)
      [OSError]
      (Ok None)
  with
  | Raise e => Raise e
  | Ok None => Ok ∅                     (* "Just use an empty redirect dict" *)
  | Ok (Some YOther) => raise AttributeError "object has no attribute 'items'"
  | Ok (Some (YMapping d)) => Ok (foldl redirect_step ∅ d)
  end.

(** [MSONable.REDIRECT.get(modname, {}).get(classname)] for text keys *)
Definition redirect_get (t : redirect_table) (m c : string)
    : option redirect_entry :=
  default ∅ (t !! m) !! c.

(** ** Timestamps

    [datetime.datetime] as its fields; [tz_minutes] is the UTC offset of an
    aware value, [None] for a naive one. *)

Record datetime := Datetime {
  year : N; month : N; day : N;
  hour : N; minute : N; second : N; microsecond : N;
  tz_minutes : option Z
}.

Definition is_leap (y : N) : bool :=
  ((y mod 4 =? 0) && negb (y mod 100 =? 0) || (y mod 400 =? 0))%N.

Definition days_in_month (y m : N) : N :=
  (if m =? 2 then (if is_leap y then 29 else 28)
   else if (m =? 4) || (m =? 6) || (m =? 9) || (m =? 11) then 30
   else 31)%N.

(** What the [datetime] constructor accepts. *)
Definition valid_datetime (dt : datetime) : bool :=
  ((1 <=? year dt) && (year dt <=? 9999) &&
   (1 <=? month dt) && (month dt <=? 12) &&
   (1 <=? day dt) && (day dt <=? days_in_month (year dt) (month dt)) &&
   (hour dt <? 24) && (minute dt <? 60) && (second dt <? 60) &&
   (microsecond dt <? 1000000))%N &&
  match tz_minutes dt with
  | None => true
  | Some off => (-1440 <? off) && (off <? 1440)
  end.

Definition digit_char (d : N) : ascii := ascii_of_N (48 + d).

(** [n] on exactly [w] decimal digits, zero padded: ["%0wd" % n] for [n < 10^w]. *)
Fixpoint pad (w : nat) (n : N) : string :=
  match w with
  | O => EmptyString
  | S w' => String (digit_char ((n / 10 ^ N.of_nat w') mod 10)) (pad w' n)
  end.

Definition tz_str (off : Z) : string :=
  let a := Z.to_N (Z.abs off) in
  (if off <? 0 then "-" else "+") ++ pad 2 (a / 60) ++ ":" ++ pad 2 (a mod 60).

(** [str(o)] for a datetime: [isoformat(sep=" ")]. *)
Definition datetime_str (dt : datetime) : string :=
  pad 4 (year dt) ++ "-" ++ pad 2 (month dt) ++ "-" ++ pad 2 (day dt) ++ " " ++
  pad 2 (hour dt) ++ ":" ++ pad 2 (minute dt) ++ ":" ++ pad 2 (second dt) ++
  (if (microsecond dt =? 0)%N then "" else "." ++ pad 6 (microsecond dt)) ++
  match tz_minutes dt with None => "" | Some off => tz_str off end.

(** *** [datetime.strptime] for the two formats the decoder uses

    A format directive is a regular expression of alternatives tried in
    order at the current position; a separator follows every field but
    the last, so the first alternative that matches is the one kept.

    The reader below is for text within ASCII, where [\d] is one of the
    ten digits and [\s] one of the ten blanks (tab to carriage return,
    the four separators 28 to 31, and the space).  Other text is left to
    the interpreter: see [rt_strptime]. *)

Definition digit_of (c : ascii) : option N :=
  let n := N_of_ascii c in
  if ((48 <=? n) && (n <=? 57))%N then Some (n - 48)%N else None.

Definition is_space (c : ascii) : bool :=
  let n := N_of_ascii c in
  ((n =? 32) || ((9 <=? n) && (n <=? 13)) || ((28 <=? n) && (n <=? 31)))%N.

Definition parser (A : Type) := string -> option (A * string).

Definition pbind {A B} (p : parser A) (k : A -> parser B) : parser B :=
  fun s => match p s with Some (a, s') => k a s' | None => None end.

Definition pret {A} (a : A) : parser A := fun s => Some (a, s).

Notation "'parse' x <- p ; k" := (pbind p (fun x => k))
  (at level 10, x name, p at level 100, k at level 200, only parsing).
Notation "'expect' p ; k" := (pbind p (fun _ => k))
  (at level 10, p at level 100, k at level 200, only parsing).

(** a literal character of the format *)
Definition lit (c : ascii) : parser unit := fun s =>
  match s with
  | String c' s' => if Ascii.eqb c c' then Some (tt, s') else None
  | EmptyString => None
  end.

(** white space in the format: [\s+] *)
Fixpoint skip_spaces (s : string) : string :=
  match s with
  | String c s' => if is_space c then skip_spaces s' else s
  | EmptyString => s
  end.

Definition spaces1 : parser unit := fun s =>
  match s with
  | String c s' => if is_space c then Some (tt, skip_spaces s') else None
  | EmptyString => None
  end.

(** [%Y]: [\d\d\d\d] *)
Definition p_year : parser N := fun s =>
  match s with
  | String a (String b (String c (String d s'))) =>
      match digit_of a, digit_of b, digit_of c, digit_of d with
      | Some a, Some b, Some c, Some d =>
          Some (a * 1000 + b * 100 + c * 10 + d, s')%N
      | _, _, _, _ => None
      end
  | _ => None
  end.

(** A field of one or two digits: the two-digit alternatives ([two a b]
    decides them) come before the one-digit alternative ([one a]). *)
Definition p_field (two : N -> N -> bool) (one : N -> bool)
    : parser N := fun s =>
  let single :=
    match s with
    | String a s' =>
        match digit_of a with
        | Some a => if one a then Some (a, s') else None
        | None => None
        end
    | EmptyString => None
    end in
  match s with
  | String a (String b s') =>
      match digit_of a, digit_of b with
      | Some a, Some b => if two a b then Some (a * 10 + b, s')%N else single
      | _, _ => single
      end
  | _ => single
  end.

(** [%m]: [1[0-2]|0[1-9]|[1-9]] *)
Definition p_month : parser N :=
  p_field (fun a b => ((a =? 1) && (b <=? 2) || (a =? 0) && (1 <=? b))%N)
          (fun a => (1 <=? a)%N).

(** [%d]: [3[01]|[12]\d|0[1-9]|[1-9]| [1-9]] *)
Definition p_day : parser N := fun s =>
  match
    p_field (fun a b => ((a =? 3) && (b <=? 1) || (1 <=? a) && (a <=? 2)
                         || (a =? 0) && (1 <=? b))%N)
            (fun a => (1 <=? a)%N) s
  with
  | Some r => Some r
  | None =>
      match s with
      | String c (String a s') =>
          match digit_of a with
          | Some a => if Ascii.eqb c " " && (1 <=? a)%N then Some (a, s') else None
          | None => None
          end
      | _ => None
      end
  end.

(** [%H]: [2[0-3]|[0-1]\d|\d] *)
Definition p_hour : parser N :=
  p_field (fun a b => ((a =? 2) && (b <=? 3) || (a <=? 1))%N) (fun _ => true).

(** [%M]: [[0-5]\d|\d] *)
Definition p_minute : parser N :=
  p_field (fun a _ => (a <=? 5)%N) (fun _ => true).

(** [%S]: [6[01]|[0-5]\d|\d] *)
Definition p_second : parser N :=
  p_field (fun a b => ((a =? 6) && (b <=? 1) || (a <=? 5))%N) (fun _ => true).

(** [%f]: [[0-9]{1,6}], scaled to microseconds *)
Fixpoint p_fraction_from (w : nat) (acc : N) (s : string) : N * string :=
  match w with
  | O => (acc, s)
  | S w' =>
      match s with
      | String c s' =>
          match digit_of c with
          | Some d => p_fraction_from w' (acc + d * 10 ^ N.of_nat w')%N s'
          | None => (acc, s)
          end
      | EmptyString => (acc, s)
      end
  end.

Definition p_fraction : parser N := fun s =>
  match s with
  | String c _ =>
      match digit_of c with
      | Some _ => Some (p_fraction_from 6 0%N s)
      | None => None
      end
  | EmptyString => None
  end.

(** ["%Y-%m-%d %H:%M:%S"], the prefix both formats share *)
Definition p_date_time : parser datetime :=
  parse y <- p_year; expect lit "-"; parse m <- p_month; expect lit "-";
  parse d <- p_day; expect spaces1;
  parse H <- p_hour; expect lit ":"; parse M <- p_minute; expect lit ":";
  parse S <- p_second;
  pret (Datetime y m d H M S 0 None).

Inductive strptime_format :=
| FMT_FRACTION      (* "%Y-%m-%d %H:%M:%S.%f" *)
| FMT_SECONDS.      (* "%Y-%m-%d %H:%M:%S" *)

Definition p_format (fmt : strptime_format) : parser datetime :=
  match fmt with
  | FMT_SECONDS => p_date_time
  | FMT_FRACTION =>
      parse dt <- p_date_time; expect lit "."; parse f <- p_fraction;
      pret (Datetime (year dt) (month dt) (day dt) (hour dt) (minute dt)
              (second dt) f None)
  end.

(** [datetime.datetime.strptime(s, fmt)] *)
Definition strptime (s : string) (fmt : strptime_format) : result datetime :=
  match p_format fmt s with
  | None => raise ValueError "time data does not match format"
  | Some (dt, EmptyString) =>
      if valid_datetime dt then Ok dt
      else raise ValueError "value out of range"
  | Some (_, String c rest) =>
      raise ValueError ("unconverted data remains: " ++ String c rest)
  end.

(** every character of [s] is within ASCII *)
Fixpoint is_ascii (s : string) : bool :=
  match s with
  | EmptyString => true
  | String c s' => (N_of_ascii c <? 128)%N && is_ascii s'
  end.

(** ** Python values

    A float is carried by its [repr] (the text [json] writes for it); no
    arithmetic is done on it here.  A dictionary is its item list in
    insertion order.  An instance of any other class is a [VObj]: its type
    ([PyType]), the text [str(o)] yields, its data attributes, and the
    results of the argument-free methods and properties this module calls
    on it ([tolist], [dict], [to_json], an overriding [as_dict], ...). *)

Record pyfloat := PyFloat { float_repr : string }.

Inductive dkey :=
| KStr (s : string)
| KInt (z : Z).

Record PyType := {
  ty_module : string;               (* [o.__class__.__module__] *)
  ty_name : string;                 (* [o.__class__.__name__] *)
  ty_mro : list string;             (* ["module.name"] of each class of [type(o).mro()] *)
  ty_callable : bool;               (* [callable(o)] *)
  ty_dataclass : bool;              (* [dataclasses.is_dataclass(o)] *)
  ty_init_args : list string;       (* [getfullargspec(__init__).args] *)
  ty_init_kwonly : list string;     (* [.kwonlyargs] *)
  ty_init_varargs : option string   (* [.varargs] *)
}.

#[local] Set Warnings "-register-all".

Inductive PyVal :=
| VNone
| VBool (b : bool)
| VInt (z : Z)
| VFloat (f : pyfloat)
| VComplex (re im : pyfloat)
| VStr (s : string)
| VBytes (s : string)
| VList (xs : list PyVal)
| VTuple (xs : list PyVal)
| VDict (items : list (dkey * PyVal))
| VModule (name : string)
| VClass (module qualname : string)
| VObj (ty : PyType) (text : string)
       (attrs : list (string * PyVal))
       (methods : list (string * result PyVal)).

Abbreviation pydict := (list (dkey * PyVal)).

#[global] Instance dkey_eq_dec : EqDecision dkey.
Proof. solve_decision. Defined.

(** *** Dictionaries *)

Fixpoint dict_get {A} (k : dkey) (d : list (dkey * A)) : option A :=
  match d with
  | [] => None
  | (k', v) :: d' => if decide (k = k') then Some v else dict_get k d'
  end.

Definition dict_has (k : dkey) (d : pydict) : bool :=
  bool_decide (is_Some (dict_get k d)).

(** [d[k] = v]: an existing key keeps its place *)
Fixpoint dict_set (k : dkey) (v : PyVal) (d : pydict) : pydict :=
  match d with
  | [] => [(k, v)]
  | (k', v') :: d' =>
      if decide (k = k') then (k, v) :: d' else (k', v') :: dict_set k v d'
  end.

(** [d.update(e)] *)
Definition dict_update (d e : pydict) : pydict :=
  foldl (fun acc kv => dict_set kv.1 kv.2 acc) d e.

(** a dict display or comprehension: later items win *)
Definition dict_of_items (items : pydict) : pydict := dict_update [] items.

(** [d[k]] *)
Definition dict_item (k : string) (d : pydict) : result PyVal :=
  match dict_get (KStr k) d with
  | Some v => Ok v
  | None => raise KeyError k
  end.

(** the mapping behind [**m]: every key must be text *)
Fixpoint keyword_items (d : pydict) : option pydict :=
  match d with
  | [] => Some []
  | (KStr k, v) :: d' => cons (KStr k, v) <$> keyword_items d'
  | (KInt _, _) :: _ => None
  end.

(** attribute tables *)
Fixpoint assoc {A} (k : string) (l : list (string * A)) : option A :=
  match l with
  | [] => None
  | (k', v) :: l' => if String.eqb k k' then Some v else assoc k l'
  end.

(** *** Types and truth *)

Definition mro_of (v : PyVal) : option (list string) :=
  match v with
  | VNone => Some ["builtins.NoneType"; "builtins.object"]
  | VBool _ => Some ["builtins.bool"; "builtins.int"; "builtins.object"]
  | VInt _ => Some ["builtins.int"; "builtins.object"]
  | VFloat _ => Some ["builtins.float"; "builtins.object"]
  | VComplex _ _ => Some ["builtins.complex"; "builtins.object"]
  | VStr _ => Some ["builtins.str"; "builtins.object"]
  | VBytes _ => Some ["builtins.bytes"; "builtins.object"]
  | VList _ => Some ["builtins.list"; "builtins.object"]
  | VTuple _ => Some ["builtins.tuple"; "builtins.object"]
  | VDict _ => Some ["builtins.dict"; "builtins.object"]
  | VModule _ => Some ["builtins.module"; "builtins.object"]
  | VClass _ _ => None               (* [type(obj).mro()] raises TypeError *)
  | VObj ty _ _ _ => Some (ty_mro ty)
  end.

(** [_check_type(obj, type_str)] *)
Definition _check_type (obj : PyVal) (type_str : list string) : bool :=
  match mro_of obj with
  | None => false
  | Some mro =>
      existsb (fun o => existsb (fun ts => String.eqb o ts) type_str) mro
  end.

(** [isinstance(obj, cls)], the class given by its qualified name.  A class
    object is an instance of [type]. *)
Definition isinstance (obj : PyVal) (cls : string) : bool :=
  match mro_of obj with
  | None => bool_decide (cls ∈ ["builtins.type"; "builtins.object"])
  | Some mro => bool_decide (cls ∈ mro)
  end.

Definition DATETIME := "datetime.datetime".
Definition UUID := "uuid.UUID".
Definition PATH := "pathlib.Path".
Definition TENSOR := "torch.Tensor".
Definition NDARRAY := "numpy.ndarray".
Definition NPGENERIC := "numpy.generic".
Definition OBJECTID := "bson.objectid.ObjectId".
Definition MSONABLE := "monty.json.MSONable".
Definition BASEMODEL := "pydantic.main.BaseModel".
Definition ENUM := "enum.Enum".
Definition BUILTIN_FUNCTION := "builtins.builtin_function_or_method".

(** [callable(o)] *)
Definition callable (o : PyVal) : bool :=
  match o with
  | VClass _ _ => true
  | VObj ty _ _ _ => ty_callable ty
  | _ => false
  end.

(** [dataclasses.is_dataclass(o)] *)
Definition is_dataclass (o : PyVal) : bool :=
  match o with
  | VObj ty _ _ _ => ty_dataclass ty
  | _ => false
  end.

(** [bool(v)] *)
Definition truthy (v : PyVal) : bool :=
  match v with
  | VNone => false
  | VBool b => b
  | VInt z => negb (z =? 0)
  | VFloat f => negb (String.eqb (float_repr f) "0.0" || String.eqb (float_repr f) "-0.0")
  | VStr s => negb (String.eqb s "")
  | VBytes s => negb (String.eqb s "")
  | VList xs | VTuple xs => negb (bool_decide (xs = []))
  | VDict d => negb (bool_decide (d = []))
  | _ => true
  end.

(** ** The interpreter and the optional packages

    What the module reaches through imports: whether each optional package
    was importable, module and class objects, and the constructors of the
    third-party value types. *)

(** how a class answers [hasattr(cls_, "from_dict")] *)
Inductive from_dict_kind :=
| NoFromDict
| MSONableFromDict                                  (* inherited [MSONable.from_dict] *)
| CustomFromDict (f : pydict -> result PyVal).      (* the class's own *)

Record ClassInfo := {
  ci_is_class : bool;                        (* else [issubclass] raises TypeError *)
  ci_from_dict : from_dict_kind;
  ci_is_enum : bool;                         (* [issubclass(cls_, Enum)] *)
  ci_is_pydantic : bool;                     (* [issubclass(cls_, pydantic.BaseModel)] *)
  ci_is_msonable : bool;                     (* [issubclass(cls_, MSONable)] *)
  ci_is_dataclass : bool;                    (* [dataclasses.is_dataclass(cls_)] *)
  ci_by_value : PyVal -> result PyVal;       (* [cls_(v)] *)
  ci_construct : pydict -> result PyVal      (* [cls_( **kwargs )] *)
}.

Record Runtime := {
  np_imported : bool;                        (* [np is not None] *)
  torch_imported : bool;
  bson_imported : bool;
  pydantic_imported : bool;
  dataclasses_imported : bool;
  orjson_imported : bool;
  rt_str : PyVal -> string;                  (* [str(v)] where the value does not fix it *)
  rt_version : string -> result PyVal;       (* [import_module(name).__version__] *)
  rt_import : string -> list PyVal -> result PyVal;
                                             (* [__import__(name, globals(), locals(), fromlist, 0)] *)
  rt_getattr : PyVal -> string -> option PyVal;  (* attribute of a module or class object *)
  rt_class : PyVal -> ClassInfo;             (* what [getattr(mod, classname)] offers *)
  rt_uuid : PyVal -> result PyVal;           (* [UUID(x)] *)
  rt_path : PyVal -> result PyVal;           (* [Path(x)] *)
  rt_objectid : PyVal -> result PyVal;       (* [bson.objectid.ObjectId(x)] *)
  rt_np_array : PyVal -> PyVal -> result PyVal;      (* [np.array(data, dtype=dtype)] *)
  rt_np_complex : PyVal -> PyVal -> result PyVal;    (* [np.array(r) + np.array(i) * 1j] *)
  rt_torch_tensor : PyVal -> PyVal -> result PyVal;  (* [torch.tensor(data).type(dtype)] *)
  rt_dataframe : PyVal -> result PyVal;      (* [pd.DataFrame(data)] *)
  rt_series : PyVal -> result PyVal;         (* [pd.Series(data)] *)
  rt_pandas_imported : bool;                 (* [import pandas as pd] succeeds *)
  rt_strptime : string -> strptime_format -> result datetime;
                                             (* [datetime.strptime] on text outside ASCII *)
  rt_json_loads : string -> result PyVal;    (* [json.loads(s)] *)
  rt_orjson_loads : string -> result PyVal;  (* [orjson.loads(s)] *)
  rt_json_dumps : PyVal -> result string;    (* [json.dumps(v)] *)
  rt_sha1 : string -> string                 (* [sha1(s.encode("utf-8"))] *)
}.

(** [str(v)] *)
Definition py_str (rt : Runtime) (v : PyVal) : string :=
  match v with
  | VNone => "None"
  | VBool true => "True"
  | VBool false => "False"
  | VInt z => pretty z
  | VFloat f => float_repr f
  | VStr s => s
  | VObj _ text _ _ => text
  | _ => rt_str rt v
  end.

Definition key_str (k : dkey) : string :=
  match k with
  | KStr s => s
  | KInt z => pretty z
  end.

(** [o.m()] for an argument-free method or property recorded on the object *)
Definition call_method (o : PyVal) (m : string) : result PyVal :=
  match o with
  | VObj _ _ _ methods =>
      match assoc m methods with
      | Some r => r
      | None => raise AttributeError m
      end
  | _ => raise AttributeError m
  end.

(** [getattr(o, name)].  A class object answers for its own name; an
    instance without [__module__] of its own finds its class's. *)
Definition getattr (o : PyVal) (name : string) : result PyVal :=
  match o with
  | VObj ty _ attrs _ =>
      match assoc name attrs with
      | Some v => Ok v
      | None =>
          if String.eqb name "__module__" then Ok (VStr (ty_module ty))
          else raise AttributeError name
      end
  | VClass m q =>
      if String.eqb name "__module__" then Ok (VStr m)
      else if String.eqb name "__qualname__" then Ok (VStr q)
      else if String.eqb name "__name__" then Ok (VStr (last_part (split_dot q)))
      else raise AttributeError name
  | _ => raise AttributeError name
  end.

(** [getattr(o, name, default)] *)
Definition getattr_default (o : PyVal) (name : string) (dflt : PyVal) : PyVal :=
  match getattr o name with
  | Ok v => v
  | Raise _ => dflt
  end.

(** [o.__class__.__module__] and [o.__class__.__name__] *)
Definition class_module (o : PyVal) : string :=
  match o with
  | VObj ty _ _ _ => ty_module ty
  | _ => "builtins"
  end.

Definition class_name (o : PyVal) : string :=
  match o with
  | VNone => "NoneType"
  | VBool _ => "bool"
  | VInt _ => "int"
  | VFloat _ => "float"
  | VComplex _ _ => "complex"
  | VStr _ => "str"
  | VBytes _ => "bytes"
  | VList _ => "list"
  | VTuple _ => "tuple"
  | VDict _ => "dict"
  | VModule _ => "module"
  | VClass _ _ => "type"
  | VObj ty _ _ _ => ty_name ty
  end.

(** [hasattr(o, "as_dict")] *)
Definition has_as_dict (o : PyVal) : bool :=
  match o with
  | VObj _ _ _ methods =>
      bool_decide (is_Some (assoc "as_dict" methods)) || isinstance o MSONABLE
  | _ => false
  end.

(** ** [MSONable.as_dict] *)

Definition NOT_DERIVABLE : string :=
  "Unable to automatically determine as_dict format from class. MSONAble requires all args to be present as either self.argname or self._argname, and kwargs to be present under a self.kwargs variable to automatically determine the dict format. Alternatively, you can implement both as_dict and from_dict.".

(** The [@version] entry: the top-level package's [__version__], or [None]. *)
Definition version_tag (rt : Runtime) (module : string) : result PyVal :=
  try_except
    (v ← rt_version rt (hd "" (split_dot module)); Ok (VStr (py_str rt v)))
    [AttributeError; ImportError]
    (Ok VNone).

(** The loop over [spec.args + spec.kwonlyargs].  [derived] holds, for every
    attribute of [self], [recursive_as_dict] of its value. *)
Fixpoint derive_args (derived : list (string * result PyVal))
    (params : list string) (d : pydict) : result pydict :=
  match params with
  | [] => Ok d
  | c :: params' =>
      if String.eqb c "self" then derive_args derived params' d
      else
        match assoc c derived with
        | Some a => v ← a; derive_args derived params' (dict_set (KStr c) v d)
        | None =>
            match assoc ("_" ++ c) derived with
            | Some a => v ← a; derive_args derived params' (dict_set (KStr c) v d)
            | None => raise NotImplementedError NOT_DERIVABLE
            end
        end
  end.

(** [d.update( **m )] when the attribute [name] exists *)
Definition update_from_bag (attrs : list (string * PyVal)) (name : string)
    (d : pydict) : result pydict :=
  match assoc name attrs with
  | None => Ok d
  | Some (VDict m) =>
      match keyword_items m with
      | Some items => Ok (dict_update d items)
      | None => raise TypeError "keywords must be strings"
      end
  | Some _ => raise TypeError "argument after ** must be a mapping"
  end.

Definition is_none (v : PyVal) : bool :=
  match v with VNone => true | _ => false end.

Definition is_class (v : PyVal) : bool :=
  match v with VClass _ _ => true | _ => false end.

Definition as_dict_body (rt : Runtime) (ty : PyType)
    (attrs : list (string * PyVal)) (derived : list (string * result PyVal))
    : result PyVal :=
  version ← version_tag rt (ty_module ty);
  let d := [(KStr "@module", VStr (ty_module ty));
            (KStr "@class", VStr (ty_name ty));
            (KStr "@version", version)] in
  d ← derive_args derived (ty_init_args ty ++ ty_init_kwonly ty) d;
  d ← update_from_bag attrs "kwargs" d;
  let d :=
    match ty_init_varargs ty with
    | Some va =>
        match assoc va attrs with
        | Some v => if is_none v then d else dict_set (KStr va) v d
        | None => d
        end
    | None => d
    end in
  d ← update_from_bag attrs "_kwargs" d;
  d ← (if bool_decide (ENUM ∈ ty_mro ty)
       then match assoc "value" attrs with
            | Some v => Ok (dict_set (KStr "value") v d)
            | None => raise AttributeError "value"
            end
       else Ok d);
  Ok (VDict d).

(** the dataclass branch of [recursive_as_dict] *)
Definition dataclass_as_dict (ty : PyType)
    (methods : list (string * result PyVal)) : result PyVal :=
  match assoc "dataclasses.asdict" methods with
  | Some (Ok (VDict d)) =>
      Ok (VDict (dict_update d [(KStr "@module", VStr (ty_module ty));
                                (KStr "@class", VStr (ty_name ty))]))
  | Some (Ok _) => raise AttributeError "update"
  | Some (Raise e) => Raise e
  | None => raise TypeError "asdict() should be called on dataclass instances"
  end.

(** The nested helper of [as_dict].  For an object that inherits
    [MSONable.as_dict], [obj.as_dict()] is the derivation itself.  On a
    class or module object that has an [as_dict], the call is made without
    the instance the method expects; a dataclass class object passes
    [is_dataclass] and is refused by [dataclasses.asdict]. *)
Fixpoint recursive_as_dict (rt : Runtime) (obj : PyVal) {struct obj}
    : result PyVal :=
  match obj with
  | VList xs | VTuple xs => VList <$> sequence (map (recursive_as_dict rt) xs)
  | VDict d =>
      VDict <$> sequence (map (fun kv => pair kv.1 <$> recursive_as_dict rt kv.2) d)
  | VObj ty _ attrs methods =>
      match assoc "as_dict" methods with
      | Some r => r
      | None =>
          if isinstance obj MSONABLE then
            as_dict_body rt ty attrs
              (map (fun kv => (kv.1, recursive_as_dict rt kv.2)) attrs)
          else if dataclasses_imported rt && ty_dataclass ty then
            dataclass_as_dict ty methods
          else Ok obj
      end
  | VClass _ _ | VModule _ =>
      if bool_decide (is_Some (rt_getattr rt obj "as_dict")) then
        raise TypeError "as_dict() missing 1 required positional argument: 'self'"
      else if dataclasses_imported rt && is_class obj
              && ci_is_dataclass (rt_class rt obj) then
        raise TypeError "asdict() should be called on dataclass instances"
      else Ok obj
  | _ => Ok obj
  end.

(** [MSONable.as_dict(self)] *)
Definition as_dict (rt : Runtime) (self : PyVal) : result PyVal :=
  match self with
  | VObj ty _ attrs _ =>
      as_dict_body rt ty attrs
        (map (fun kv => (kv.1, recursive_as_dict rt kv.2)) attrs)
  | _ => raise AttributeError "__init__"
  end.

(** [o.as_dict()]: the object's own method if it defines one, else the
    inherited [MSONable.as_dict], else no such attribute. *)
Definition call_as_dict (rt : Runtime) (o : PyVal) : result PyVal :=
  match o with
  | VObj _ _ _ methods =>
      match assoc "as_dict" methods with
      | Some r => r
      | None =>
          if isinstance o MSONABLE then as_dict rt o
          else raise AttributeError "as_dict"
      end
  | _ => raise AttributeError "as_dict"
  end.

(** ** The encoder *)

Definition tagged (module cls : string) (payload : pydict) : PyVal :=
  VDict ((KStr "@module", VStr module) :: (KStr "@class", VStr cls) :: payload).

(** [_serialize_callable(o)].  [encoded_self] is [MontyEncoder().default]
    of the [__self__] attribute, when there is one. *)
Definition _serialize_callable (o : PyVal)
    (encoded_self : option (result PyVal)) : result PyVal :=
  let bound :=
    if isinstance o BUILTIN_FUNCTION then VNone
    else getattr_default o "__self__" VNone in
  bound ←
    (if is_none bound then Ok VNone
     else match encoded_self with
          | Some r =>
              try_except r [TypeError]
                (raise TypeError
                   "Only bound methods of classes or MSONable instances are supported.")
          | None => Ok VNone
          end);
  module ← getattr o "__module__";
  name ← getattr o "__name__";
  Ok (VDict [(KStr "@module", module);
             (KStr "@callable", getattr_default o "__qualname__" name);
             (KStr "@bound", bound)]).

(** [needle in v] where [v] must be text *)
Definition str_contains (needle : string) (v : PyVal) : result bool :=
  match v with
  | VStr s => Ok (contains needle s)
  | _ => raise TypeError "argument is not iterable"
  end.

Definition NOT_SERIALIZABLE (o : PyVal) : string :=
  "Object of type " ++ class_name o ++ " is not JSON serializable".

(** the tensor branch *)
Definition encode_tensor (o : PyVal) : result PyVal :=
  dtype ← call_method o "type";
  is_complex ← str_contains "Complex" dtype;
  data ← (if (is_complex : bool)
          then re ← call_method o "real.tolist";
               im ← call_method o "imag.tolist";
               Ok (VList [re; im])
          else call_method o "numpy.tolist");
  Ok (tagged "torch" "Tensor" [(KStr "dtype", dtype); (KStr "data", data)]).

(** the array branch *)
Definition encode_ndarray (rt : Runtime) (o : PyVal) : result PyVal :=
  dtype ← call_method o "dtype";
  let dtype := py_str rt dtype in
  data ← (if String.prefix "complex" dtype
          then re ← call_method o "real.tolist";
               im ← call_method o "imag.tolist";
               Ok (VList [re; im])
          else call_method o "tolist");
  Ok (tagged "numpy" "array" [(KStr "dtype", VStr dtype); (KStr "data", data)]).

(** the frame and column branches *)
Definition encode_pandas (cls : string) (o : PyVal) : result PyVal :=
  data ← call_method o "to_json";
  Ok (tagged "pandas" cls [(KStr "data", data)]).

(** The part of [default] after a base dict [d] was obtained: fill in the
    tags that are missing. *)
Definition add_tags (rt : Runtime) (o : PyVal) (d : PyVal) : result PyVal :=
  match d with
  | VDict d =>
      let d := if dict_has (KStr "@module") d then d
               else dict_set (KStr "@module") (VStr (class_module o)) d in
      let d := if dict_has (KStr "@class") d then d
               else dict_set (KStr "@class") (VStr (class_name o)) d in
      if dict_has (KStr "@version") d then Ok (VDict d)
      else
        version ← version_tag rt (class_module o);
        Ok (VDict (dict_set (KStr "@version") version d))
  | _ => raise TypeError "base form is not a mapping"
  end.

(** The body of the [try] block of [default]. *)
Definition encode_generic (rt : Runtime) (o : PyVal) : result PyVal :=
  d ← (if pydantic_imported rt && isinstance o BASEMODEL then
         call_method o "dict"
       else if dataclasses_imported rt && negb (isinstance o MSONABLE)
               && is_dataclass o then
         call_method o "dataclasses.asdict"
       else if has_as_dict o then
         call_as_dict rt o
       else if isinstance o ENUM then
         value ← getattr o "value"; Ok (VDict [(KStr "value", value)])
       else raise TypeError (NOT_SERIALIZABLE o));
  add_tags rt o d.

(** [MontyEncoder.default(o)], given the encoding of [o.__self__]. *)
Definition default_with (rt : Runtime) (o : PyVal)
    (encoded_self : option (result PyVal)) : result PyVal :=
  if isinstance o DATETIME then
    Ok (tagged "datetime" "datetime" [(KStr "string", VStr (py_str rt o))])
  else if isinstance o UUID then
    Ok (tagged "uuid" "UUID" [(KStr "string", VStr (py_str rt o))])
  else if isinstance o PATH then
    Ok (tagged "pathlib" "Path" [(KStr "string", VStr (py_str rt o))])
  else if torch_imported rt && isinstance o TENSOR then
    encode_tensor o
  else if np_imported rt && isinstance o NDARRAY then
    encode_ndarray rt o
  else if np_imported rt && isinstance o NPGENERIC then
    call_method o "item"
  else if _check_type o ["pandas.core.frame.DataFrame"] then
    encode_pandas "DataFrame" o
  else if _check_type o ["pandas.core.series.Series"] then
    encode_pandas "Series" o
  else if bson_imported rt && isinstance o OBJECTID then
    Ok (tagged "bson.objectid" "ObjectId" [(KStr "oid", VStr (py_str rt o))])
  else if callable o && negb (isinstance o MSONABLE) then
    _serialize_callable o encoded_self
  else
    try_except (encode_generic rt o) [AttributeError]
      (raise TypeError (NOT_SERIALIZABLE o)).

Module MontyEncoder.

(** [MontyEncoder().default(o)] *)
Fixpoint default (rt : Runtime) (o : PyVal) {struct o} : result PyVal :=
  default_with rt o
    match o with
    | VObj _ _ attrs _ =>
        assoc "__self__" (map (fun kv => (kv.1, default rt kv.2)) attrs)
    | _ => None
    end.

End MontyEncoder.

(** [MontyEncoder().default(getattr(o, "__self__"))], when [o] has one *)
Definition encoded_self (rt : Runtime) (o : PyVal) : option (result PyVal) :=
  match o with
  | VObj _ _ attrs _ => MontyEncoder.default rt <$> assoc "__self__" attrs
  | _ => None
  end.

(** ** The sanitizer *)

Record sanitize_options := {
  strict : bool;
  allow_bson : bool;
  enum_values : bool;
  recursive_msonable : bool
}.

Definition default_options : sanitize_options :=
  {| strict := false; allow_bson := false; enum_values := false;
     recursive_msonable := false |}.

Definition is_list_or_tuple (v : PyVal) : bool :=
  match v with VList _ | VTuple _ => true | _ => false end.
Definition is_dict (v : PyVal) : bool :=
  match v with VDict _ => true | _ => false end.
Definition is_int_or_float (v : PyVal) : bool :=
  match v with VBool _ | VInt _ | VFloat _ => true | _ => false end.
Definition is_bytes (v : PyVal) : bool :=
  match v with VBytes _ => true | _ => false end.
Definition is_str (v : PyVal) : bool :=
  match v with VStr _ => true | _ => false end.

Definition PANDAS_TYPES : list string :=
  ["pandas.core.series.Series"; "pandas.core.frame.DataFrame";
   "pandas.core.base.PandasObject"].

(** The body of [jsanitize].  The recursive calls are handed in:
    [elements] is [[jsanitize(i) for i in obj]], [array_elements] is
    [[jsanitize(i) for i in obj.tolist()]], [values] is
    [{str(k): jsanitize(v) for k, v in obj.items()}], and [again r] is
    [jsanitize] of a derived form [r]. *)
Definition jsanitize_body (rt : Runtime) (opts : sanitize_options)
    (obj : PyVal) (elements array_elements values : result PyVal)
    (again : result PyVal -> result PyVal) : result PyVal :=
  if isinstance obj ENUM then
    if enum_values opts then getattr obj "value"
    else if has_as_dict obj then call_as_dict rt obj
    else MontyEncoder.default rt obj
  else if allow_bson opts &&
          (isinstance obj DATETIME || is_bytes obj
           || bson_imported rt && isinstance obj OBJECTID) then
    Ok obj
  else if is_list_or_tuple obj then elements
  else if np_imported rt && isinstance obj NDARRAY then array_elements
  else if np_imported rt && isinstance obj NPGENERIC then call_method obj "item"
  else if _check_type obj PANDAS_TYPES then call_method obj "to_dict"
  else if is_dict obj then values
  else if is_int_or_float obj then Ok obj
  else if is_none obj then Ok VNone
  else if isinstance obj PATH || isinstance obj DATETIME then
    Ok (VStr (py_str rt obj))
  else
    let rest :=
      let rest :=
        if negb (strict opts) then Ok (VStr (py_str rt obj))
        else if is_str obj then Ok obj
        else if pydantic_imported rt && isinstance obj BASEMODEL then
          again (MontyEncoder.default rt obj)
        else again (call_as_dict rt obj) in
      if recursive_msonable opts then
        try_except (call_as_dict rt obj) [AttributeError] rest
      else rest in
    if callable obj && negb (isinstance obj MSONABLE) then
      try_except (_serialize_callable obj (encoded_self rt obj)) [TypeError] rest
    else rest.

(** [[f(i) for i in obj]] *)
Definition elements_of (f : PyVal -> result PyVal) (obj : PyVal) : result PyVal :=
  match obj with
  | VList xs | VTuple xs => VList <$> sequence (map f xs)
  | _ => raise TypeError "object is not iterable"
  end.

(** [[f(i) for i in obj.tolist()]] *)
Definition array_elements_of (f : PyVal -> result PyVal) (obj : PyVal)
    : result PyVal :=
  match obj with
  | VObj _ _ _ methods =>
      match
        assoc "tolist"
          (map (fun kv : string * result PyVal =>
                  (kv.1, match kv.2 with
                         | Ok v => if is_list_or_tuple v then f v
                                   else raise TypeError "object is not iterable"
                         | Raise e => Raise e
                         end)) methods)
      with
      | Some r => r
      | None => raise AttributeError "tolist"
      end
  | _ => raise AttributeError "tolist"
  end.

(** [{str(k): f(v) for k, v in obj.items()}] *)
Definition values_of (f : PyVal -> result PyVal) (obj : PyVal) : result PyVal :=
  match obj with
  | VDict d =>
      (fun items => VDict (dict_of_items items)) <$>
        sequence (map (fun kv : dkey * PyVal =>
                         pair (KStr (key_str kv.1)) <$> f kv.2) d)
  | _ => raise AttributeError "items"
  end.

(** [jsanitize(obj, strict, allow_bson, enum_values, recursive_msonable)].
    [depth] bounds the chain of derived forms ([as_dict] of [as_dict] of
    ...) that Python bounds by its recursion limit; containers are
    traversed structurally and use none of it. *)
Fixpoint jsanitize (depth : nat) (rt : Runtime) (opts : sanitize_options)
    (obj : PyVal) {struct depth} : result PyVal :=
  (fix go (obj : PyVal) {struct obj} : result PyVal :=
     jsanitize_body rt opts obj
       (elements_of go obj) (array_elements_of go obj) (values_of go obj)
       (fun r =>
          match depth with
          | O => raise RecursionError "maximum recursion depth exceeded"
          | S depth' => v ← r; jsanitize depth' rt opts v
          end)) obj.

(** ** The content hash: [MSONable.unsafe_hash] *)

(** [for x in items: flat_dict.update(f(x))] *)
Fixpoint update_each {A} (f : A -> result pydict) (items : list A)
    (flat_dict : pydict) : result pydict :=
  match items with
  | [] => Ok flat_dict
  | x :: items' => e ← f x; update_each f items' (dict_update flat_dict e)
  end.

(** the same loop over [enumerate(items)], counting from [num] *)
Fixpoint update_each_indexed {A} (f : nat -> A -> result pydict) (num : nat)
    (items : list A) (flat_dict : pydict) : result pydict :=
  match items with
  | [] => Ok flat_dict
  | x :: items' =>
      e ← f num x; update_each_indexed f (S num) items' (dict_update flat_dict e)
  end.

(** [separator.join([key, _key])] *)
Definition join_keys (key _key : dkey) : result dkey :=
  match key, _key with
  | KStr k, KStr _k => Ok (KStr (k ++ "." ++ _k))
  | _, _ => raise TypeError "sequence item: expected str instance"
  end.

(** The contribution of one item [(key, value)] of [obj] to [flat_dict]
    in [flatten(obj)]: what the loop body hands to [flat_dict.update], or
    the single entry it sets. *)
Fixpoint flatten_entry (key : dkey) (value : PyVal) {struct value}
    : result pydict :=
  match value with
  | VDict d =>
      inner ← update_each (fun kv : dkey * PyVal => flatten_entry kv.1 kv.2) d [];
      joined ← sequence (map (fun kv : dkey * PyVal =>
                                k ← join_keys key kv.1; Ok (k, kv.2)) inner);
      Ok (dict_of_items joined)
  | VList xs =>
      update_each_indexed
        (fun num item =>
           flatten_entry (KStr (key_str key ++ "." ++ pretty num)) item)
        O xs []
  | _ => Ok [(key, value)]
  end.

(** [flatten(obj)] *)
Definition flatten (obj : PyVal) : result pydict :=
  match obj with
  | VDict d => update_each (fun kv : dkey * PyVal => flatten_entry kv.1 kv.2) d []
  | _ => raise AttributeError "items"
  end.

(** text keys, or the comparison / membership test on the key fails *)
Fixpoint text_keys (d : pydict) : result (list (string * PyVal)) :=
  match d with
  | [] => Ok []
  | (KStr k, v) :: d' => cons (k, v) <$> text_keys d'
  | (KInt _, _) :: _ => raise TypeError "argument of type 'int' is not iterable"
  end.

(** [sorted(items, key=lambda x: x[0])]: stable insertion by key *)
Fixpoint insert_by_key (x : string * PyVal) (l : list (string * PyVal))
    : list (string * PyVal) :=
  match l with
  | [] => [x]
  | y :: l' =>
      if String.ltb x.1 y.1 then x :: y :: l' else y :: insert_by_key x l'
  end.

Definition sorted_by_key (l : list (string * PyVal)) : list (string * PyVal) :=
  foldl (fun acc x => insert_by_key x acc) [] l.

(** [[item for item in ordered_keys if "@" not in item[0]]] *)
Definition drop_tagged (l : list (string * PyVal)) : list (string * PyVal) :=
  List.filter (fun kv => negb (contains "@" kv.1)) l.

(** [ordered_keys] as it is handed to [OrderedDict] *)
Definition ordered_keys (depth : nat) (rt : Runtime) (self : PyVal)
    : result (list (string * PyVal)) :=
  d ← call_as_dict rt self;
  clean ← jsanitize depth rt default_options d;
  flat ← flatten clean;
  items ← text_keys flat;
  Ok (drop_tagged (sorted_by_key items)).

Definition unsafe_hash (depth : nat) (rt : Runtime) (self : PyVal)
    : result string :=
  keys ← ordered_keys depth rt self;
  text ← rt_json_dumps rt (VDict (map (fun kv => (KStr kv.1, kv.2)) keys));
  Ok (rt_sha1 rt text).

(** ** The decoder *)

(** [v == "literal"] *)
Definition eq_str (v : PyVal) (s : string) : bool :=
  match v with
  | VStr s' => String.eqb s' s
  | _ => false
  end.

(** a value used as a dictionary key must be hashable *)
Definition unhashable (v : PyVal) : bool :=
  match v with VList _ | VDict _ => true | _ => false end.

(** [MSONable.REDIRECT.get(modname, {}).get(classname)] *)
Definition redirect_lookup (redirect : redirect_table) (modname classname : PyVal)
    : result (option redirect_entry) :=
  if unhashable modname || unhashable classname then
    raise TypeError "unhashable type"
  else
    match modname, classname with
    | VStr m, VStr c => Ok (redirect_get redirect m c)
    | _, _ => Ok None
    end.

(** [{k: v for k, v in items if not k.startswith("@")}] *)
Fixpoint non_tag_items {A} (items : list (dkey * A)) : result (list (dkey * A)) :=
  match items with
  | [] => Ok []
  | (KInt _, _) :: _ => raise AttributeError "startswith"
  | (KStr k, v) :: items' =>
      rest ← non_tag_items items';
      Ok (if String.prefix "@" k then rest else (KStr k, v) :: rest)
  end.

(** evaluate the values of a comprehension, keeping the keys *)
Definition eval_items {K} (items : list (K * result PyVal))
    : result (list (K * PyVal)) :=
  sequence (map (fun kv => pair kv.1 <$> kv.2) items).

(** [json.loads] behind the optional fast tokenizer *)
Definition loads (rt : Runtime) (s : string) : result PyVal :=
  if orjson_imported rt then
    try_except (rt_orjson_loads rt s) [ParseError] (rt_json_loads rt s)
  else rt_json_loads rt s.

(** [for attr in objname: obj = getattr(obj, attr)] *)
Fixpoint attribute_walk (rt : Runtime) (obj : PyVal) (objname : list string)
    : result PyVal :=
  match objname with
  | [] => Ok obj
  | attr :: objname' =>
      match rt_getattr rt obj attr with
      | Some obj' => attribute_walk rt obj' objname'
      | None => raise AttributeError attr
      end
  end.

(** the characters of a text: a byte that is not a UTF-8 continuation
    byte starts a new one *)
Definition is_continuation (c : ascii) : bool :=
  let n := N_of_ascii c in ((128 <=? n) && (n <? 192))%N.

Fixpoint characters_from (cur : string) (s : string) : list string :=
  match s with
  | EmptyString => [cur]
  | String c s' =>
      if is_continuation c then characters_from (cur ++ String c "") s'
      else cur :: characters_from (String c "") s'
  end.

Definition characters (s : string) : list string :=
  match s with
  | EmptyString => []
  | String c s' => characters_from (String c "") s'
  end.

Definition bytes_of (s : string) : list PyVal :=
  map (fun c => VInt (Z.of_N (N_of_ascii c))) (list_ascii_of_string s).

Definition key_value (k : dkey) : PyVal :=
  match k with
  | KStr s => VStr s
  | KInt z => VInt z
  end.

(** [iter(v)]: the items a [for] loop or an argument unpacking draws from
    [v].  An instance of another class is iterated through its recorded
    [__iter__]. *)
Definition rows_of (v : PyVal) : result (list PyVal) :=
  match v with
  | VList xs | VTuple xs => Ok xs
  | VStr s => Ok (VStr <$> characters s)
  | VBytes s => Ok (bytes_of s)
  | VDict d => Ok (key_value <$> d.*1)
  | VObj _ _ _ methods =>
      match assoc "__iter__" methods with
      | Some r =>
          items ← r;
          match items with
          | VList xs | VTuple xs => Ok xs
          | _ => raise TypeError "iter() returned non-iterator"
          end
      | None => raise TypeError "object is not iterable"
      end
  | _ => raise TypeError "object is not iterable"
  end.

Fixpoint zip_pairs (res ims : list PyVal) : list (PyVal * PyVal) :=
  match res, ims with
  | r :: res', i :: ims' => (r, i) :: zip_pairs res' ims'
  | _, _ => []
  end.

(** [zip( *data )] followed by the unpacking [for r, i in ...] *)
Definition real_imag_pairs (data : PyVal) : result (list (PyVal * PyVal)) :=
  rows ← rows_of data;
  rows ← sequence (map rows_of rows);
  match rows with
  | [] => Ok []
  | [res; ims] => Ok (zip_pairs res ims)
  | _ =>
      if existsb (fun row : list PyVal => bool_decide (row = [])) rows then Ok []
      else raise ValueError "wrong number of values to unpack"
  end.

(** [[np.array(r) + np.array(i) * 1j for r, i in zip( *d["data"] )]] *)
Definition combine_complex (rt : Runtime) (data : PyVal) : result PyVal :=
  pairs ← real_imag_pairs data;
  VList <$> sequence (map (fun ri => rt_np_complex rt ri.1 ri.2) pairs).

(** where the first block of [process_decoded] leaves the node *)
Inductive identity :=
| Returned (obj : PyVal)                (* [return obj]: a callable was found *)
| Named (modname classname : PyVal).    (* carry on with these two *)

(** The block that reads the tags.  [processed] holds [process_decoded] of
    every value of [d]. *)
Definition read_identity (rt : Runtime) (redirect : redirect_table)
    (d : pydict) (processed : list (dkey * result PyVal)) : result identity :=
  if dict_has (KStr "@module") d && dict_has (KStr "@class") d then
    modname ← dict_item "@module" d;
    classname ← dict_item "@class" d;
    cls_redirect ← redirect_lookup redirect modname classname;
    match cls_redirect with
    | Some r => Ok (Named (VStr (new_module r)) (VStr (new_class r)))
    | None => Ok (Named modname classname)
    end
  else if dict_has (KStr "@module") d && dict_has (KStr "@callable") d then
    modname ← dict_item "@module" d;
    objname ← dict_item "@callable" d;
    start ←
      (if negb (is_none (default VNone (dict_get (KStr "@bound") d))) then
         obj ← default (raise KeyError "@bound") (dict_get (KStr "@bound") processed);
         match objname with
         | VStr n => Ok (obj, tail (split_dot n))
         | _ => raise AttributeError "split"
         end
       else
         obj ← match modname with
               | VStr m => rt_import rt m [objname]
               | _ => raise TypeError "__import__() argument 1 must be str"
               end;
         match objname with
         | VStr n => Ok (obj, split_dot n)
         | _ => raise AttributeError "split"
         end);
    try_except (Returned <$> attribute_walk rt start.1 start.2)
      [AttributeError]
      (Ok (Named modname VNone))
  else Ok (Named VNone VNone).

Definition BUILTIN_MODULES : list string :=
  ["bson.objectid"; "numpy"; "pandas"; "torch"].

(** [datetime.datetime.strptime(s, fmt)] on any text *)
Definition strptime_text (rt : Runtime) (s : string) (fmt : strptime_format)
    : result datetime :=
  if is_ascii s then strptime s fmt else rt_strptime rt s fmt.

(** [d["string"]] parsed with the two formats in turn *)
Definition decode_datetime (rt : Runtime) (d : pydict) : result datetime :=
  s ← dict_item "string" d;
  match s with
  | VStr s =>
      try_except (strptime_text rt s FMT_FRACTION) [ValueError]
        (strptime_text rt s FMT_SECONDS)
  | _ => raise TypeError "strptime() argument 1 must be str"
  end.

Definition datetime_type : PyType :=
  {| ty_module := "datetime"; ty_name := "datetime";
     ty_mro := ["datetime.datetime"; "datetime.date"; "builtins.object"];
     ty_callable := false; ty_dataclass := false;
     ty_init_args := []; ty_init_kwonly := []; ty_init_varargs := None |}.

(** the [datetime] instance with these fields *)
Definition mk_datetime (dt : datetime) : PyVal :=
  VObj datetime_type (datetime_str dt) [] [].

(** The class found by import: the four reconstructions, tried in order.
    [None] when none applies. *)
Definition construct (rt : Runtime) (cls_ : PyVal) (d : pydict)
    (processed : list (dkey * result PyVal)) : result (option PyVal) :=
  let ci := rt_class rt cls_ in
  data ← non_tag_items d;
  let decoded := fields ← non_tag_items processed; eval_items fields in
  match ci_from_dict ci with
  | CustomFromDict from_dict => Some <$> from_dict data
  | MSONableFromDict => kw ← decoded; Some <$> ci_construct ci kw
  | NoFromDict =>
      if negb (ci_is_class ci) then
        raise TypeError "issubclass() arg 1 must be a class"
      else if ci_is_enum ci then
        value ← dict_item "value" d; Some <$> ci_by_value ci value
      else if pydantic_imported rt && ci_is_pydantic ci then
        kw ← decoded; Some <$> ci_construct ci kw
      else if dataclasses_imported rt && negb (ci_is_msonable ci)
              && ci_is_dataclass ci then
        kw ← decoded; Some <$> ci_construct ci kw
      else Ok None
  end.

(** The block under [if classname:].  [decode s] is
    [MontyDecoder().decode(s)]. *)
Definition reconstruct (rt : Runtime) (d : pydict)
    (processed : list (dkey * result PyVal))
    (decode : string -> result PyVal)
    (modname classname : PyVal) : result (option PyVal) :=
  if truthy modname && negb (existsb (eq_str modname) BUILTIN_MODULES) then
    if eq_str modname "datetime" && eq_str classname "datetime" then
      dt ← decode_datetime rt d; Ok (Some (mk_datetime dt))
    else if eq_str modname "uuid" && eq_str classname "UUID" then
      s ← dict_item "string" d; Some <$> rt_uuid rt s
    else if eq_str modname "pathlib" && eq_str classname "Path" then
      s ← dict_item "string" d; Some <$> rt_path rt s
    else
      mod_ ← match modname with
             | VStr m => rt_import rt m [classname]
             | _ => raise TypeError "__import__() argument 1 must be str"
             end;
      match classname with
      | VStr c =>
          match rt_getattr rt mod_ c with
          | Some cls_ => construct rt cls_ d processed
          | None => Ok None
          end
      | _ => raise TypeError "attribute name must be string"
      end
  else if torch_imported rt && eq_str modname "torch"
          && eq_str classname "Tensor" then
    dtype ← dict_item "dtype" d;
    is_complex ← str_contains "Complex" dtype;
    if (is_complex : bool) then
      data ← dict_item "data" d;
      rows ← combine_complex rt data;
      Some <$> rt_torch_tensor rt rows dtype
    else
      data ← dict_item "data" d;
      Some <$> rt_torch_tensor rt data dtype
  else if np_imported rt && eq_str modname "numpy"
          && eq_str classname "array" then
    dtype ← dict_item "dtype" d;
    match dtype with
    | VStr t =>
        if String.prefix "complex" t then
          data ← dict_item "data" d;
          rows ← combine_complex rt data;
          Some <$> rt_np_array rt rows dtype
        else
          data ← dict_item "data" d;
          Some <$> rt_np_array rt data dtype
    | _ => raise AttributeError "startswith"
    end
  else if eq_str modname "pandas" then
    if negb (rt_pandas_imported rt) then
      raise ImportError "No module named 'pandas'"
    else if eq_str classname "DataFrame" then
      data ← dict_item "data" d;
      match data with
      | VStr s => decoded_data ← decode s; Some <$> rt_dataframe rt decoded_data
      | _ => raise TypeError "the JSON object must be str"
      end
    else if eq_str classname "Series" then
      data ← dict_item "data" d;
      match data with
      | VStr s => decoded_data ← decode s; Some <$> rt_series rt decoded_data
      | _ => raise TypeError "the JSON object must be str"
      end
    else Ok None
  else if bson_imported rt && eq_str modname "bson.objectid"
          && eq_str classname "ObjectId" then
    oid ← dict_item "oid" d; Some <$> rt_objectid rt oid
  else Ok None.

(** [process_decoded(d)] for a dict [d] *)
Definition process_dict (rt : Runtime) (redirect : redirect_table)
    (d : pydict) (processed : list (dkey * result PyVal))
    (decode : string -> result PyVal) : result PyVal :=
  id ← read_identity rt redirect d processed;
  match id with
  | Returned obj => Ok obj
  | Named modname classname =>
      found ← (if truthy classname
               then reconstruct rt d processed decode modname classname
               else Ok None);
      match found with
      | Some obj => Ok obj
      | None => VDict <$> eval_items processed
      end
  end.

(** [MontyDecoder().process_decoded(d)].  [depth] bounds how deep JSON text
    is nested inside JSON text (a frame's [data] is itself JSON); the tree
    itself is traversed structurally. *)
Fixpoint process_decoded (depth : nat) (rt : Runtime)
    (redirect : redirect_table) (d : PyVal) {struct depth} : result PyVal :=
  (fix go (d : PyVal) {struct d} : result PyVal :=
     match d with
     | VDict items =>
         process_dict rt redirect items
           (map (fun kv : dkey * PyVal => (kv.1, go kv.2)) items)
           (fun s =>
              match depth with
              | O => raise RecursionError "maximum recursion depth exceeded"
              | S depth' => v ← loads rt s; process_decoded depth' rt redirect v
              end)
     | VList xs => VList <$> sequence (map go xs)
     | _ => Ok d
     end) d.

(** [MontyDecoder().decode(s)] *)
Definition decode (depth : nat) (rt : Runtime) (redirect : redirect_table)
    (s : string) : result PyVal :=
  v ← loads rt s; process_decoded depth rt redirect v.

(** ** The specification's wording, for comparison

    Definitions in this part follow the text of the specification, not the
    source; the theorems below compare them with the embedding above. *)

(** *** Section 4.1: the encoder's branches in priority order *)

Inductive branch :=
| Timestamp | UniqueId | FsPath | Tensor | NumericArray | Tabular | OpaqueId
| CallableRef | ValidationModel | Dataclass | DerivationMethod | Enumeration.

Definition spec_priority : list branch :=
  [Timestamp; UniqueId; FsPath; Tensor; NumericArray; Tabular; OpaqueId;
   CallableRef; ValidationModel; Dataclass; DerivationMethod; Enumeration].

(** when a value is of the kind a branch handles *)
Definition branch_matches (rt : Runtime) (b : branch) (o : PyVal) : bool :=
  match b with
  | Timestamp => isinstance o DATETIME
  | UniqueId => isinstance o UUID
  | FsPath => isinstance o PATH
  | Tensor => torch_imported rt && isinstance o TENSOR
  | NumericArray =>
      np_imported rt && (isinstance o NDARRAY || isinstance o NPGENERIC)
  | Tabular =>
      _check_type o ["pandas.core.frame.DataFrame"]
      || _check_type o ["pandas.core.series.Series"]
  | OpaqueId => bson_imported rt && isinstance o OBJECTID
  | CallableRef => callable o && negb (isinstance o MSONABLE)
  | ValidationModel => pydantic_imported rt && isinstance o BASEMODEL
  | Dataclass =>
      dataclasses_imported rt && negb (isinstance o MSONABLE) && is_dataclass o
  | DerivationMethod => has_as_dict o
  | Enumeration => isinstance o ENUM
  end.

(** steps 9 to 12 end the same way: tags and version are filled in, and a
    missing attribute on the way is reported as "not serializable" *)
Definition finish_generic (rt : Runtime) (o : PyVal) (base : result PyVal)
    : result PyVal :=
  try_except (d ← base; add_tags rt o d) [AttributeError]
    (raise TypeError (NOT_SERIALIZABLE o)).

(** what a branch produces *)
Definition branch_encode (rt : Runtime) (b : branch) (o : PyVal) : result PyVal :=
  match b with
  | Timestamp =>
      Ok (tagged "datetime" "datetime" [(KStr "string", VStr (py_str rt o))])
  | UniqueId => Ok (tagged "uuid" "UUID" [(KStr "string", VStr (py_str rt o))])
  | FsPath => Ok (tagged "pathlib" "Path" [(KStr "string", VStr (py_str rt o))])
  | Tensor => encode_tensor o
  | NumericArray =>
      if isinstance o NDARRAY then encode_ndarray rt o else call_method o "item"
  | Tabular =>
      if _check_type o ["pandas.core.frame.DataFrame"]
      then encode_pandas "DataFrame" o else encode_pandas "Series" o
  | OpaqueId =>
      Ok (tagged "bson.objectid" "ObjectId" [(KStr "oid", VStr (py_str rt o))])
  | CallableRef => _serialize_callable o (encoded_self rt o)
  | ValidationModel => finish_generic rt o (call_method o "dict")
  | Dataclass => finish_generic rt o (call_method o "dataclasses.asdict")
  | DerivationMethod => finish_generic rt o (call_as_dict rt o)
  | Enumeration =>
      finish_generic rt o
        (value ← getattr o "value"; Ok (VDict [(KStr "value", value)]))
  end.

(** "first match wins", and step 13 *)
Definition spec_dispatch (rt : Runtime) (o : PyVal) : result PyVal :=
  match List.find (fun b => branch_matches rt b o) spec_priority with
  | Some b => branch_encode rt b o
  | None => raise TypeError (NOT_SERIALIZABLE o)
  end.

(** *** Section 4.6: the fingerprint recipe *)

(** sanitize with the given options, flatten, drop tagged keys, sort *)
Definition fingerprint_recipe (opts : sanitize_options) (depth : nat)
    (rt : Runtime) (self : PyVal) : result (list (string * PyVal)) :=
  d ← call_as_dict rt self;
  clean ← jsanitize depth rt opts d;
  flat ← flatten clean;
  items ← text_keys flat;
  Ok (sorted_by_key (drop_tagged items)).

Definition enum_as_value : sanitize_options :=
  {| strict := false; allow_bson := false; enum_values := true;
     recursive_msonable := false |}.

(** the flattening, in the specification's words: every leaf below a value
    gets a compound key, made of the keys and the sequence indices on the
    way down to it, joined by the delimiter *)
Fixpoint flat_map_indexed {A B} (f : nat -> A -> list B) (num : nat)
    (l : list A) : list B :=
  match l with
  | [] => []
  | x :: l' => (f num x ++ flat_map_indexed f (S num) l')%list
  end.

Fixpoint leaves (key : string) (value : PyVal) {struct value}
    : list (string * PyVal) :=
  match value with
  | VDict d =>
      flat_map (fun kv : dkey * PyVal =>
                  leaves (key ++ "." ++ key_str kv.1) kv.2) d
  | VList xs =>
      flat_map_indexed (fun num item => leaves (key ++ "." ++ pretty num) item)
        O xs
  | _ => [(key, value)]
  end.

Definition flat_leaves (d : pydict) : list (string * PyVal) :=
  flat_map (fun kv : dkey * PyVal => leaves (key_str kv.1) kv.2) d.

(** every mapping met on the way down has text keys *)
Fixpoint text_keyed (v : PyVal) : bool :=
  match v with
  | VDict d =>
      forallb (fun kv : dkey * PyVal =>
                 match kv.1 with KStr _ => text_keyed kv.2 | KInt _ => false end) d
  | VList xs => forallb text_keyed xs
  | _ => true
  end.

(** a list of text-keyed entries as a dict *)
Definition as_items (l : list (string * PyVal)) : pydict :=
  map (fun kv : string * PyVal => (KStr kv.1, kv.2)) l.

(** *** Section 8: plain JSON-safe form

    Nested primitives, lists, and text-keyed mappings (a mapping has each
    key once). *)
Fixpoint json_safe (v : PyVal) : bool :=
  match v with
  | VNone | VBool _ | VInt _ | VFloat _ | VStr _ => true
  | VList xs => forallb json_safe xs
  | VDict d =>
      forallb (fun kv : dkey * PyVal =>
                 match kv.1 with KStr _ => json_safe kv.2 | KInt _ => false end) d
      && bool_decide (NoDup (map fst d))
  | _ => false
  end.

(** ** Concrete runtimes and values used in examples *)

Definition no_class : ClassInfo :=
  {| ci_is_class := false; ci_from_dict := NoFromDict; ci_is_enum := false;
     ci_is_pydantic := false; ci_is_msonable := false; ci_is_dataclass := false;
     ci_by_value := fun _ => raise TypeError "object is not callable";
     ci_construct := fun _ => raise TypeError "object is not callable" |}.

(** An interpreter with none of the optional packages and no importable
    module. *)
Definition bare_runtime : Runtime :=
  {| np_imported := false; torch_imported := false; bson_imported := false;
     pydantic_imported := false; dataclasses_imported := true;
     orjson_imported := false;
     rt_str := fun _ => "<object>";
     rt_version := fun m => raise ImportError m;
     rt_import := fun m _ => raise ImportError m;
     rt_getattr := fun _ _ => None;
     rt_class := fun _ => no_class;
     rt_uuid := fun _ => raise ValueError "badly formed hexadecimal UUID string";
     rt_path := fun _ => raise TypeError "expected str";
     rt_objectid := fun _ => raise TypeError "bson is not installed";
     rt_np_array := fun _ _ => raise TypeError "numpy is not installed";
     rt_np_complex := fun _ _ => raise TypeError "numpy is not installed";
     rt_torch_tensor := fun _ _ => raise TypeError "torch is not installed";
     rt_dataframe := fun _ => raise TypeError "pandas is not installed";
     rt_series := fun _ => raise TypeError "pandas is not installed";
     rt_pandas_imported := false;
     rt_strptime := fun _ _ => raise ValueError "time data does not match format";
     rt_json_loads := fun _ => raise ParseError "Expecting value";
     rt_orjson_loads := fun _ => raise ParseError "Expecting value";
     rt_json_dumps := fun _ => raise TypeError "not JSON serializable";
     rt_sha1 := fun s => s |}.

Definition plain_type (module name : string) (mro : list string)
    (args : list string) : PyType :=
  {| ty_module := module; ty_name := name;
     ty_mro := (module ++ "." ++ name) :: mro ++ ["builtins.object"];
     ty_callable := false; ty_dataclass := false;
     ty_init_args := args; ty_init_kwonly := []; ty_init_varargs := None |}.

(** the loader's file system: no file at all *)
Definition missing_file_env : LoaderEnv :=
  {| open_read := fun path => raise OSError ("No such file or directory: " ++ path);
     yaml_imported := true;
     yaml_load := fun _ => Ok (YMapping []) |}.

(** a file whose content the YAML reader rejects *)
Definition malformed_file_env : LoaderEnv :=
  {| open_read := fun _ => Ok "old: [unclosed";
     yaml_imported := true;
     yaml_load := fun _ => raise ParseError "while parsing a flow sequence" |}.

(** [class Foo(MSONable): def __init__(self, zeta, b)], with [self._zeta] set
    and no [b] in either form *)
Definition foo_missing_b : PyVal :=
  VObj (plain_type "pkg.mod" "Foo" [MSONABLE] ["self"; "zeta"; "b"]) "<Foo>"
    [("_zeta", VInt 1)] [].

(** [class Qux(MSONable): def __init__(self, omega)], with nothing set *)
Definition qux_missing_omega : PyVal :=
  VObj (plain_type "lib" "Qux" [MSONABLE] ["self"; "omega"]) "<Qux>" [] [].

(** an enumeration member that also inherits [MSONable.as_dict]: the
    derivation-method branch comes first *)
Definition msonable_enum_member : PyVal :=
  VObj (plain_type "pkg.colors" "Color" [MSONABLE; ENUM] ["self"]) "Color.RED"
    [("value", VInt 1); ("name", VStr "RED")] [].

Definition json_safe_example : PyVal :=
  VDict [(KStr "a", VList [VInt 1; VFloat (PyFloat "2.5"); VNone]);
         (KStr "b", VDict [(KStr "c", VStr "text"); (KStr "d", VBool true)])].

(** the sanitizer's branches that come before the callable one all decline *)
Definition reaches_callable_branch (rt : Runtime) (opts : sanitize_options)
    (obj : PyVal) : bool :=
  negb (isinstance obj ENUM)
  && negb (allow_bson opts &&
           (isinstance obj DATETIME || is_bytes obj
            || bson_imported rt && isinstance obj OBJECTID))
  && negb (is_list_or_tuple obj)
  && negb (np_imported rt && isinstance obj NDARRAY)
  && negb (np_imported rt && isinstance obj NPGENERIC)
  && negb (_check_type obj PANDAS_TYPES)
  && negb (is_dict obj)
  && negb (is_int_or_float obj)
  && negb (is_none obj)
  && negb (isinstance obj PATH || isinstance obj DATETIME).

Definition method_type : PyType :=
  {| ty_module := "builtins"; ty_name := "method";
     ty_mro := ["builtins.method"; "builtins.object"];
     ty_callable := true; ty_dataclass := false;
     ty_init_args := []; ty_init_kwonly := []; ty_init_varargs := None |}.

(** an instance of a class that offers no way to serialize it *)
Definition plain_owner : PyVal :=
  VObj (plain_type "pkg" "Plain" [] ["self"]) "<pkg.Plain object>" [] [].

(** [plain_owner.run], a bound method *)
Definition bound_method_of_plain : PyVal :=
  VObj method_type "<bound method Plain.run of <pkg.Plain object>>"
    [("__self__", plain_owner); ("__module__", VStr "pkg");
     ("__name__", VStr "run"); ("__qualname__", VStr "Plain.run")] [].

(** a free function [pkg.util.helper] *)
Definition function_type : PyType :=
  {| ty_module := "builtins"; ty_name := "function";
     ty_mro := ["builtins.function"; "builtins.object"];
     ty_callable := true; ty_dataclass := false;
     ty_init_args := []; ty_init_kwonly := []; ty_init_varargs := None |}.

Definition free_function : PyVal :=
  VObj function_type "<function helper>"
    [("__module__", VStr "pkg.util"); ("__name__", VStr "helper");
     ("__qualname__", VStr "helper")] [].

(** [class Color(Enum): RED = 1], a plain enumeration *)
Definition color_red : PyVal :=
  VObj (plain_type "pkg.colors" "Color" [ENUM] ["self"]) "Color.RED"
    [("value", VInt 1); ("name", VStr "RED")] [].

(** [class Painted(MSONable): def __init__(self, color)] holding [Color.RED] *)
Definition painted : PyVal :=
  VObj (plain_type "pkg.things" "Painted" [MSONABLE] ["self"; "color"])
    "<Painted>" [("color", color_red)] [].

(** entries in non-decreasing key order *)
Fixpoint key_sorted (l : list (string * PyVal)) : Prop :=
  match l with
  | [] => True
  | y :: l' => Forall (fun z => String.ltb z.1 y.1 = false) l' /\ key_sorted l'
  end.

(** An interpreter that can import [pkg.util] (holding the function
    [helper]) and [pkg.things] (a module without classes), and nothing else. *)
Definition demo_runtime : Runtime :=
  {| np_imported := false; torch_imported := false; bson_imported := false;
     pydantic_imported := false; dataclasses_imported := true;
     orjson_imported := false;
     rt_str := rt_str bare_runtime;
     rt_version := rt_version bare_runtime;
     rt_import := fun m _ =>
       if String.eqb m "pkg.util" || String.eqb m "pkg.things"
       then Ok (VModule m) else raise ImportError ("No module named " ++ m);
     rt_getattr := fun o name =>
       match o with
       | VModule m =>
           if String.eqb m "pkg.util" && String.eqb name "helper"
           then Some free_function else None
       | _ => None
       end;
     rt_class := rt_class bare_runtime;
     rt_uuid := rt_uuid bare_runtime;
     rt_path := rt_path bare_runtime;
     rt_objectid := rt_objectid bare_runtime;
     rt_np_array := rt_np_array bare_runtime;
     rt_np_complex := rt_np_complex bare_runtime;
     rt_torch_tensor := rt_torch_tensor bare_runtime;
     rt_dataframe := rt_dataframe bare_runtime;
     rt_series := rt_series bare_runtime;
     rt_pandas_imported := false;
     rt_strptime := rt_strptime bare_runtime;
     rt_json_loads := rt_json_loads bare_runtime;
     rt_orjson_loads := rt_orjson_loads bare_runtime;
     rt_json_dumps := rt_json_dumps bare_runtime;
     rt_sha1 := rt_sha1 bare_runtime |}.

(** the reference the encoder writes for [pkg.util.helper] *)
Definition helper_reference : pydict :=
  [(KStr "@module", VStr "pkg.util"); (KStr "@callable", VStr "helper");
   (KStr "@bound", VNone)].

(** a table that renames [pkg.util.helper] *)
Definition helper_redirect : redirect_table :=
  {[ "pkg.util" := {[ "helper" := Redirect "elsewhere" "other" ]} ]}.

(** a node tagged with a module that cannot be imported *)
Definition unknown_module_node : pydict :=
  [(KStr "@module", VStr "no_such_pkg.core"); (KStr "@class", VStr "Thing");
   (KStr "x", VList [VInt 1; VInt 2])].

(** a node tagged with an importable module that has no such class *)
Definition unknown_class_node : pydict :=
  [(KStr "@module", VStr "pkg.things"); (KStr "@class", VStr "Thing");
   (KStr "x", VList [VInt 1; VInt 2])].


(** [old.Stamp] was renamed to [datetime.datetime], and a second entry
    renames [datetime.datetime] in turn *)
Definition stamp_redirect : redirect_table :=
  {[ "old" := {[ "Stamp" := Redirect "datetime" "datetime" ]};
     "datetime" := {[ "datetime" := Redirect "pkg.things" "Moment" ]} ]}.

Definition stamp_node : pydict :=
  [(KStr "@module", VStr "old"); (KStr "@class", VStr "Stamp");
   (KStr "string", VStr "2024-01-02 03:04:05")].

(** the nested decoder that [process_decoded] at [depth] hands to a node *)
Definition nested_decode (depth : nat) (rt : Runtime)
    (redirect : redirect_table) (s : string) : result PyVal :=
  match depth with
  | O => raise RecursionError "maximum recursion depth exceeded"
  | S depth' => decode depth' rt redirect s
  end.

(** [process_decoded] of every value of a dict *)
Definition processed_values (depth : nat) (rt : Runtime)
    (redirect : redirect_table) (d : pydict) : list (dkey * result PyVal) :=
  map (fun kv : dkey * PyVal => (kv.1, process_decoded depth rt redirect kv.2)) d.

(** the part of [str(o)] both formats read *)
Definition date_time_text (y m d H M S : N) (rest : string) : string :=
  pad 4 y ++ String "-" (pad 2 m ++ String "-" (pad 2 d ++ String " "
    (pad 2 H ++ String ":" (pad 2 M ++ String ":" (pad 2 S ++ rest))))).

(** *** Round trips

    [declines] says that the encoder branches listed do not claim the
    value. *)

Definition declines (rt : Runtime) (branches : list branch) (x : PyVal) : Prop :=
  forallb (fun b => negb (branch_matches rt b x)) branches = true.

(** [decode(encode(x))] on trees: the encoder's output handed to the decoder *)
Definition roundtrip (depth : nat) (rt : Runtime) (redirect : redirect_table)
    (x : PyVal) : result PyVal :=
  encoded ← MontyEncoder.default rt x;
  process_decoded depth rt redirect encoded.

(** [datetime(2024, 1, 2, 3, 4, 5, 678900)] *)
Definition naive_stamp : datetime := Datetime 2024 1 2 3 4 5 678900 None.

(** [datetime(2024, 1, 2, 3, 4, 5, tzinfo=timezone.utc)] *)
Definition aware_stamp : datetime := Datetime 2024 1 2 3 4 5 0 (Some 0).

(** [datetime(2024, 1, 2, 3, 4, 5)] *)
Definition plain_stamp : datetime := Datetime 2024 1 2 3 4 5 0 None.

(** ** Induction over Python values, through the nested containers *)

Section PyVal_induction.
Variable P : PyVal -> Prop.
Hypothesis HNone : P VNone.
Hypothesis HBool : forall b, P (VBool b).
Hypothesis HInt : forall z, P (VInt z).
Hypothesis HFloat : forall f, P (VFloat f).
Hypothesis HComplex : forall re im, P (VComplex re im).
Hypothesis HStr : forall s, P (VStr s).
Hypothesis HBytes : forall s, P (VBytes s).
Hypothesis HList : forall xs, Forall P xs -> P (VList xs).
Hypothesis HTuple : forall xs, Forall P xs -> P (VTuple xs).
Hypothesis HDict : forall d, Forall (fun kv : dkey * PyVal => P kv.2) d -> P (VDict d).
Hypothesis HModule : forall n, P (VModule n).
Hypothesis HClass : forall m q, P (VClass m q).
Hypothesis HObj : forall ty text attrs methods,
  Forall (fun kv : string * PyVal => P kv.2) attrs ->
  Forall (fun kv : string * result PyVal =>
            match kv.2 with Ok v => P v | Raise _ => True end) methods ->
  P (VObj ty text attrs methods).

Fixpoint PyVal_nested_ind (v : PyVal) : P v :=
  match v with
  | VNone => HNone
  | VBool b => HBool b
  | VInt z => HInt z
  | VFloat f => HFloat f
  | VComplex re im => HComplex re im
  | VStr s => HStr s
  | VBytes s => HBytes s
  | VList xs =>
      HList xs
        ((fix all (l : list PyVal) : Forall P l :=
            match l with
            | [] => List.Forall_nil P
            | x :: l' => List.Forall_cons P x l' (PyVal_nested_ind x) (all l')
            end) xs)
  | VTuple xs =>
      HTuple xs
        ((fix all (l : list PyVal) : Forall P l :=
            match l with
            | [] => List.Forall_nil P
            | x :: l' => List.Forall_cons P x l' (PyVal_nested_ind x) (all l')
            end) xs)
  | VDict d =>
      HDict d
        ((fix all (l : pydict) : Forall (fun kv : dkey * PyVal => P kv.2) l :=
            match l with
            | [] => List.Forall_nil _
            | (k, x) :: l' =>
                List.Forall_cons (fun kv : dkey * PyVal => P kv.2) (k, x) l'
                  (PyVal_nested_ind x) (all l')
            end) d)
  | VModule n => HModule n
  | VClass m q => HClass m q
  | VObj ty text attrs methods =>
      HObj ty text attrs methods
        ((fix all (l : list (string * PyVal))
            : Forall (fun kv : string * PyVal => P kv.2) l :=
            match l with
            | [] => List.Forall_nil _
            | (k, x) :: l' =>
                List.Forall_cons (fun kv : string * PyVal => P kv.2) (k, x) l'
                  (PyVal_nested_ind x) (all l')
            end) attrs)
        ((fix all (l : list (string * result PyVal))
            : Forall (fun kv : string * result PyVal =>
                        match kv.2 with Ok v => P v | Raise _ => True end) l :=
            match l with
            | [] => List.Forall_nil _
            | (k, r) :: l' =>
                List.Forall_cons
                  (fun kv : string * result PyVal =>
                     match kv.2 with Ok v => P v | Raise _ => True end)
                  (k, r) l'
                  match r with Ok x => PyVal_nested_ind x | Raise _ => I end
                  (all l')
            end) methods)
  end.

End PyVal_induction.

(** *** A stand-in for the libraries

    Just enough of [uuid], [pathlib], [bson] and [numpy] to run the codec on
    examples: a unique id, path or opaque id is the object carrying its
    text; an array is the object carrying its dtype and its [tolist()], with
    [real] and [imag] taken element by element. *)

Definition library_type (module name qualified : string) : PyType :=
  {| ty_module := module; ty_name := name;
     ty_mro := [qualified; "builtins.object"];
     ty_callable := false; ty_dataclass := false;
     ty_init_args := []; ty_init_kwonly := []; ty_init_varargs := None |}.

Definition mk_uuid (text : string) : PyVal :=
  VObj (library_type "uuid" "UUID" UUID) text [] [].

Definition mk_path (text : string) : PyVal :=
  VObj (library_type "pathlib" "PosixPath" PATH) text [] [].

Definition mk_objectid (text : string) : PyVal :=
  VObj (library_type "bson.objectid" "ObjectId" OBJECTID) text [] [].

(** [a.real.tolist()] ([imag := false]) and [a.imag.tolist()] *)
Fixpoint complex_part (imag : bool) (v : PyVal) : PyVal :=
  match v with
  | VList xs => VList (map (complex_part imag) xs)
  | VComplex re im => VFloat (if imag then im else re)
  | _ => if imag then VFloat (PyFloat "0.0") else v
  end.

Definition mk_ndarray (dtype : string) (data : PyVal) : PyVal :=
  VObj (library_type "numpy" "ndarray" NDARRAY) "<ndarray>" []
    [("dtype", Ok (VStr dtype)); ("tolist", Ok data);
     ("real.tolist", Ok (complex_part false data));
     ("imag.tolist", Ok (complex_part true data))].

(** [np.array(r) + np.array(i) * 1j], element by element *)
Fixpoint join_complex (r i : PyVal) {struct r} : result PyVal :=
  match r, i with
  | VFloat re, VFloat im => Ok (VComplex re im)
  | VList rs, VList ims =>
      VList <$>
        (fix rows (rs ims : list PyVal) {struct rs} : result (list PyVal) :=
           match rs, ims with
           | r' :: rs', i' :: ims' =>
               c ← join_complex r' i'; cs ← rows rs' ims'; Ok (c :: cs)
           | [], [] => Ok []
           | _, _ => raise ValueError "operands could not be broadcast together"
           end) rs ims
  | _, _ => raise TypeError "unsupported operand"
  end.

Definition text_constructor (mk : string -> PyVal) (v : PyVal) : result PyVal :=
  match v with
  | VStr s => Ok (mk s)
  | _ => raise TypeError "expected str"
  end.

Definition library_runtime : Runtime :=
  {| np_imported := true; torch_imported := false; bson_imported := true;
     pydantic_imported := false; dataclasses_imported := true;
     orjson_imported := false;
     rt_str := rt_str bare_runtime;
     rt_version := rt_version bare_runtime;
     rt_import := rt_import bare_runtime;
     rt_getattr := rt_getattr bare_runtime;
     rt_class := rt_class bare_runtime;
     rt_uuid := text_constructor mk_uuid;
     rt_path := text_constructor mk_path;
     rt_objectid := text_constructor mk_objectid;
     rt_np_array := fun data dtype =>
       match dtype with
       | VStr t => Ok (mk_ndarray t data)
       | _ => raise TypeError "data type not understood"
       end;
     rt_np_complex := join_complex;
     rt_torch_tensor := rt_torch_tensor bare_runtime;
     rt_dataframe := rt_dataframe bare_runtime;
     rt_series := rt_series bare_runtime;
     rt_pandas_imported := false;
     rt_strptime := rt_strptime bare_runtime;
     rt_json_loads := rt_json_loads bare_runtime;
     rt_orjson_loads := rt_orjson_loads bare_runtime;
     rt_json_dumps := rt_json_dumps bare_runtime;
     rt_sha1 := rt_sha1 bare_runtime |}.

Definition fl (s : string) : pyfloat := PyFloat s.

(** [np.array([[1+2j, 3+4j], [5+6j, 7+8j]])] *)
Definition complex_matrix : PyVal :=
  mk_ndarray "complex128"
    (VList [VList [VComplex (fl "1.0") (fl "2.0"); VComplex (fl "3.0") (fl "4.0")];
            VList [VComplex (fl "5.0") (fl "6.0"); VComplex (fl "7.0") (fl "8.0")]]).

(** [np.array([1.5, 2.5])] *)
Definition float_vector : PyVal :=
  mk_ndarray "float64" (VList [VFloat (fl "1.5"); VFloat (fl "2.5")]).

(** [np.array(1+2j)], of dimension zero *)
Definition complex_scalar_array : PyVal :=
  mk_ndarray "complex128" (VComplex (fl "1.0") (fl "2.0")).

(** [class Foo(MSONable): def __init__(self, zeta, b)] with both set *)
Definition foo_complete : PyVal :=
  VObj (plain_type "pkg.mod" "Foo" [MSONABLE] ["self"; "zeta"; "b"]) "<Foo>"
    [("_zeta", VInt 1); ("b", VTuple [VInt 2; VInt 3])] [].

(** an instance of a class with [__call__]: it has no [__name__] *)
Definition callable_instance : PyVal :=
  VObj {| ty_module := "pkg"; ty_name := "Runner";
          ty_mro := ["pkg.Runner"; "builtins.object"];
          ty_callable := true; ty_dataclass := false;
          ty_init_args := ["self"]; ty_init_kwonly := [];
          ty_init_varargs := None |}
    "<pkg.Runner object>" [] [].


(** [{"a": {"b": 1, "c": [5, {"x": None}]}, "z": 2}] *)
Definition nested_example : pydict :=
  [(KStr "a", VDict [(KStr "b", VInt 1);
                     (KStr "c", VList [VInt 5; VDict [(KStr "x", VNone)]])]);
   (KStr "z", VInt 2)].

(** Renaming the keys of a dictionary, as the flattening of a nested
    mapping does with the enclosing key. *)
Definition rekey (f : dkey -> dkey) (d : pydict) : pydict :=
  map (fun kv : dkey * PyVal => (f kv.1, kv.2)) d.

(** [separator.join([key, _])] on a key *)
Definition prefix_key (key : string) (k : dkey) : dkey :=
  match k with
  | KStr s => KStr (key ++ "." ++ s)
  | KInt z => KInt z
  end.

(** ** The rest of the module, and more examples

    The parts of a dotted path, [MSONable.from_dict], the pydantic
    validator and schema, and the predicates and values the theorems on
    them use. *)

(** [path.split(".")[-1]] and [".".join(path.split(".")[:-1])] *)
Definition class_part (path : string) : string := last_part (split_dot path).
Definition module_part (path : string) : string :=
  join_dot (init_parts (split_dot path)).

(** [getattr(self, c)], and [getattr(self, "_" + c)] when that fails *)
Definition attribute_or_private {A} (attrs : list (string * A)) (c : string)
    : option A :=
  match assoc c attrs with
  | Some a => Some a
  | None => assoc ("_" ++ c) attrs
  end.

(** the three tags every derived form starts with *)
Definition TAG_KEYS : list dkey := [KStr "@module"; KStr "@class"; KStr "@version"].

(** tuples turned into lists, through lists, tuples and mappings *)
Fixpoint listified (v : PyVal) : PyVal :=
  match v with
  | VList xs | VTuple xs => VList (map listified xs)
  | VDict d => VDict (map (fun kv : dkey * PyVal => (kv.1, listified kv.2)) d)
  | _ => v
  end.

(** primitives and containers of them: no instance of a class, no class
    object and no module anywhere *)
Fixpoint object_free (v : PyVal) : bool :=
  match v with
  | VList xs | VTuple xs => forallb object_free xs
  | VDict d => forallb (fun kv : dkey * PyVal => object_free kv.2) d
  | VObj _ _ _ _ | VClass _ _ | VModule _ => false
  | _ => true
  end.

(** the encoder branches that come before the tensor branch *)
Definition BEFORE_TENSOR : list branch := [Timestamp; UniqueId; FsPath].

(** a mapping that [process_decoded] reads as a tagged node: it has
    ["@module"] together with ["@class"] or ["@callable"] *)
Definition is_tagged (d : pydict) : bool :=
  dict_has (KStr "@module") d
  && (dict_has (KStr "@class") d || dict_has (KStr "@callable") d).

(** no mapping reached through lists and mappings is a tagged node *)
Fixpoint untagged (v : PyVal) : bool :=
  match v with
  | VDict d =>
      negb (is_tagged d) && forallb (fun kv : dkey * PyVal => untagged kv.2) d
  | VList xs => forallb untagged xs
  | _ => true
  end.

(** [{k: MontyDecoder().process_decoded(v) for k, v in d.items()
      if not k.startswith("@")}], given [process_decoded] of every value *)
Fixpoint decoded_fields (items : list (dkey * result PyVal)) : result pydict :=
  match items with
  | [] => Ok []
  | (KInt _, _) :: _ => raise AttributeError "startswith"
  | (KStr k, r) :: items' =>
      if String.prefix "@" k then decoded_fields items'
      else v ← r; rest ← decoded_fields items'; Ok ((KStr k, v) :: rest)
  end.

(** [MSONable.from_dict(cls, d)], the class given by what it offers *)
Definition from_dict (depth : nat) (rt : Runtime) (redirect : redirect_table)
    (cls : ClassInfo) (d : PyVal) : result PyVal :=
  match d with
  | VDict items =>
      decoded ← decoded_fields (processed_values depth rt redirect items);
      ci_construct cls decoded
  | _ => raise AttributeError "items"
  end.



(** the encoder branches that come before the derivation-method branch *)
Definition BEFORE_DERIVATION : list branch :=
  [Timestamp; UniqueId; FsPath; Tensor; NumericArray; Tabular; OpaqueId;
   CallableRef; ValidationModel; Dataclass].

(** module names the decoder handles itself, without importing a class *)
Definition SPECIAL_MODULES : list string :=
  ["bson.objectid"; "numpy"; "pandas"; "torch"; "datetime"; "uuid"; "pathlib"].

(** keyword arguments kept as attributes of the same names *)
Definition attrs_of_keywords (kw : pydict) : list (string * PyVal) :=
  map (fun kv : dkey * PyVal => (key_str kv.1, kv.2)) kw.

Definition foo_type : PyType :=
  plain_type "pkg.mod" "Foo" [MSONABLE] ["self"; "zeta"; "b"].

(** [Foo(zeta=1, b=[2, 3])], each argument kept under its own name *)
Definition foo_stored : PyVal :=
  VObj foo_type "<Foo>" [("zeta", VInt 1); ("b", VList [VInt 2; VInt 3])] [].


(** the class [pkg.mod.Foo] *)
Definition foo_class : ClassInfo :=
  {| ci_is_class := true; ci_from_dict := MSONableFromDict; ci_is_enum := false;
     ci_is_pydantic := false; ci_is_msonable := true; ci_is_dataclass := false;
     ci_by_value := fun _ => raise TypeError "__init__() missing argument";
     ci_construct := fun kw => Ok (VObj foo_type "<Foo>" (attrs_of_keywords kw) []) |}.

(** the enumeration [pkg.colors.Color] *)
Definition color_class : ClassInfo :=
  {| ci_is_class := true; ci_from_dict := NoFromDict; ci_is_enum := true;
     ci_is_pydantic := false; ci_is_msonable := false; ci_is_dataclass := false;
     ci_by_value := fun v =>
       match v with
       | VInt 1 => Ok color_red
       | _ => raise ValueError "not a valid Color"
       end;
     ci_construct := fun _ => raise TypeError "unexpected keyword argument" |}.

(** [@dataclass class Point: x: int; y: int] *)
Definition point_type : PyType :=
  {| ty_module := "pkg.mod"; ty_name := "Point";
     ty_mro := ["pkg.mod.Point"; "builtins.object"];
     ty_callable := false; ty_dataclass := true;
     ty_init_args := ["self"; "x"; "y"]; ty_init_kwonly := [];
     ty_init_varargs := None |}.

(** the instance built from the keywords [kw] *)
Definition mk_point (kw : pydict) : PyVal :=
  VObj point_type "<Point>" (attrs_of_keywords kw)
    [("dataclasses.asdict", Ok (VDict kw))].

(** the class [pkg.mod.Point] *)
Definition point_class : ClassInfo :=
  {| ci_is_class := true; ci_from_dict := NoFromDict; ci_is_enum := false;
     ci_is_pydantic := false; ci_is_msonable := false; ci_is_dataclass := true;
     ci_by_value := fun _ => raise TypeError "__init__() missing argument";
     ci_construct := fun kw => Ok (mk_point kw) |}.

(** the function [MSONable.as_dict], as found on a subclass *)
Definition inherited_as_dict : PyVal :=
  VObj function_type "<function MSONable.as_dict>"
    [("__module__", VStr "monty.json"); ("__name__", VStr "as_dict");
     ("__qualname__", VStr "MSONable.as_dict")] [].

(** the method [owner.run] of an instance of [pkg.mod.Foo] *)
Definition run_method (owner : PyVal) : PyVal :=
  VObj method_type "<bound method Foo.run>"
    [("__self__", owner); ("__module__", VStr "pkg.mod");
     ("__name__", VStr "run"); ("__qualname__", VStr "Foo.run")] [].

(** An interpreter that can import [pkg.mod] (classes [Foo] and [Point]),
    [pkg.colors]
    (enumeration [Color]) and [pkg.util] (function [helper]). *)
Definition package_runtime : Runtime :=
  {| np_imported := false; torch_imported := false; bson_imported := false;
     pydantic_imported := false; dataclasses_imported := true;
     orjson_imported := false;
     rt_str := rt_str bare_runtime;
     rt_version := rt_version bare_runtime;
     rt_import := fun m _ =>
       if String.eqb m "pkg.mod" || String.eqb m "pkg.colors"
          || String.eqb m "pkg.util"
       then Ok (VModule m) else raise ImportError ("No module named " ++ m);
     rt_getattr := fun o name =>
       match o with
       | VModule m =>
           if String.eqb m "pkg.mod" && String.eqb name "Foo"
           then Some (VClass "pkg.mod" "Foo")
           else if String.eqb m "pkg.mod" && String.eqb name "Point"
           then Some (VClass "pkg.mod" "Point")
           else if String.eqb m "pkg.colors" && String.eqb name "Color"
           then Some (VClass "pkg.colors" "Color")
           else if String.eqb m "pkg.util" && String.eqb name "helper"
           then Some free_function
           else None
       | VObj ty _ _ _ =>
           if String.eqb (ty_name ty) "Foo" && String.eqb name "run"
           then Some (run_method o) else None
       | VClass _ "Foo" =>
           if String.eqb name "as_dict" then Some inherited_as_dict else None
       | _ => None
       end;
     rt_class := fun c =>
       match c with
       | VClass _ "Foo" => foo_class
       | VClass _ "Point" => point_class
       | VClass _ "Color" => color_class
       | _ => no_class
       end;
     rt_uuid := rt_uuid bare_runtime;
     rt_path := rt_path bare_runtime;
     rt_objectid := rt_objectid bare_runtime;
     rt_np_array := rt_np_array bare_runtime;
     rt_np_complex := rt_np_complex bare_runtime;
     rt_torch_tensor := rt_torch_tensor bare_runtime;
     rt_dataframe := rt_dataframe bare_runtime;
     rt_series := rt_series bare_runtime;
     rt_pandas_imported := false;
     rt_strptime := rt_strptime bare_runtime;
     rt_json_loads := rt_json_loads bare_runtime;
     rt_orjson_loads := rt_orjson_loads bare_runtime;
     rt_json_dumps := rt_json_dumps bare_runtime;
     rt_sha1 := rt_sha1 bare_runtime |}.

(** the encoder branches that come before the enumeration branch *)
Definition BEFORE_ENUMERATION : list branch :=
  (BEFORE_DERIVATION ++ [DerivationMethod])%list.

(** the encoder branches that come before the callable branch *)
Definition BEFORE_CALLABLE : list branch :=
  [Timestamp; UniqueId; FsPath; Tensor; NumericArray; Tabular; OpaqueId].

(** the reference [_serialize_callable] writes for a callable that is not
    bound to anything *)
Definition unbound_reference (m q : string) : pydict :=
  [(KStr "@module", VStr m); (KStr "@callable", VStr q); (KStr "@bound", VNone)].

(** [lambda v: v] defined at the top of [pkg.util] *)
Definition lambda_function : PyVal :=
  VObj function_type "<function <lambda>>"
    [("__module__", VStr "pkg.util"); ("__name__", VStr "<lambda>");
     ("__qualname__", VStr "<lambda>")] [].

(** the encoder branches that come before the dataclass branch *)
Definition BEFORE_DATACLASS : list branch :=
  [Timestamp; UniqueId; FsPath; Tensor; NumericArray; Tabular; OpaqueId;
   CallableRef; ValidationModel].

(** the reference [_serialize_callable] writes for a callable bound to an
    object whose encoding is [bound] *)
Definition bound_reference (m q : string) (bound : PyVal) : pydict :=
  [(KStr "@module", VStr m); (KStr "@callable", VStr q); (KStr "@bound", bound)].

(** an enumeration member deriving its form, whose [value] cannot be read *)
Definition valueless_member : PyVal :=
  VObj (plain_type "pkg.colors" "Color" [MSONABLE; ENUM] ["self"]) "Color.RED"
    [] [].



(** [{1: (2.5, b"raw"), "1": None, "when": datetime(...), "who": Foo(...)}] *)
Definition mixed_example : PyVal :=
  VDict [(KInt 1, VTuple [VFloat (PyFloat "2.5"); VBytes "raw"]);
         (KStr "1", VNone);
         (KStr "when", mk_datetime naive_stamp);
         (KStr "who", foo_complete)].

(** the sanitizer's tests that come before the array branch all decline *)
Definition reaches_array_branch (rt : Runtime) (opts : sanitize_options)
    (obj : PyVal) : bool :=
  negb (isinstance obj ENUM)
  && negb (allow_bson opts &&
           (isinstance obj DATETIME || is_bytes obj
            || bson_imported rt && isinstance obj OBJECTID))
  && negb (is_list_or_tuple obj).


(** the items that survive the filter of [unsafe_hash]: no ["@"] in the key *)
Definition untagged_key (kv : dkey * PyVal) : bool :=
  negb (contains "@" (key_str kv.1)).

(** the entries of a mapping whose key holds no ["@"] *)
Definition untagged_entries (d : pydict) : pydict :=
  List.filter untagged_key d.

(** what [unsafe_hash] does with the sanitized form: flatten it, sort the
    items by key, drop the keys holding ["@"] *)
Definition hash_keys (clean : PyVal) : result (list (string * PyVal)) :=
  flat ← flatten clean;
  items ← text_keys flat;
  Ok (drop_tagged (sorted_by_key items)).




(** [MSONable._generic_json_schema(cls)] *)
Definition _generic_json_schema (cls_module cls_name : string) : pydict :=
  [(KStr "type", VStr "object");
   (KStr "properties",
    VDict [(KStr "@class", VDict [(KStr "enum", VList [VStr cls_name]);
                                  (KStr "type", VStr "string")]);
           (KStr "@module", VDict [(KStr "enum", VList [VStr cls_module]);
                                   (KStr "type", VStr "string")]);
           (KStr "@version", VDict [(KStr "type", VStr "string")])]);
   (KStr "required", VList [VStr "@class"; VStr "@module"])].

(** the keys a schema lists under ["required"] *)
Definition required_keys (schema : pydict) : list dkey :=
  match dict_get (KStr "required") schema with
  | Some (VList ks) =>
      omap (fun k => match k with VStr s => Some (KStr s) | _ => None end) ks
  | _ => []
  end.

(** the values a schema allows for the property [name] *)
Definition allowed_values (schema : pydict) (name : string) : list PyVal :=
  match dict_get (KStr "properties") schema with
  | Some (VDict props) =>
      match dict_get (KStr name) props with
      | Some (VDict p) =>
          match dict_get (KStr "enum") p with
          | Some (VList vs) => vs
          | _ => []
          end
      | _ => []
      end
  | _ => []
  end.

(** a redirect file with two entries *)
Definition two_entry_env : LoaderEnv :=
  {| open_read := fun _ => Ok "{old.Stamp: datetime.datetime, legacy.Foo: pkg.mod.Foo}";
     yaml_imported := true;
     yaml_load := fun _ =>
       Ok (YMapping [("old.Stamp", "datetime.datetime");
                     ("legacy.Foo", "pkg.mod.Foo")]) |}.

(** [class Bar(MSONable)] of another package, with the same arguments *)
Definition bar_stored : PyVal :=
  VObj (plain_type "other.pkg" "Bar" [MSONABLE] ["self"; "zeta"; "b"]) "<Bar>"
    [("zeta", VInt 1); ("b", VList [VInt 2; VInt 3])] [].

(** a tensor as the object carrying its type name and its elements *)
Definition mk_tensor (dtype : string) (data : PyVal) : PyVal :=
  VObj (library_type "torch" "Tensor" TENSOR) "<tensor>" []
    [("type", Ok (VStr dtype)); ("numpy.tolist", Ok data);
     ("real.tolist", Ok (complex_part false data));
     ("imag.tolist", Ok (complex_part true data))].

(** [library_runtime] with [torch] *)
Definition torch_runtime : Runtime :=
  {| np_imported := true; torch_imported := true; bson_imported := true;
     pydantic_imported := false; dataclasses_imported := true;
     orjson_imported := false;
     rt_str := rt_str library_runtime;
     rt_version := rt_version library_runtime;
     rt_import := rt_import library_runtime;
     rt_getattr := rt_getattr library_runtime;
     rt_class := rt_class library_runtime;
     rt_uuid := rt_uuid library_runtime;
     rt_path := rt_path library_runtime;
     rt_objectid := rt_objectid library_runtime;
     rt_np_array := rt_np_array library_runtime;
     rt_np_complex := rt_np_complex library_runtime;
     rt_torch_tensor := fun data dtype =>
       match dtype with
       | VStr t => Ok (mk_tensor t data)
       | _ => raise TypeError "type() argument must be str"
       end;
     rt_dataframe := rt_dataframe library_runtime;
     rt_series := rt_series library_runtime;
     rt_pandas_imported := false;
     rt_strptime := rt_strptime bare_runtime;
     rt_json_loads := rt_json_loads library_runtime;
     rt_orjson_loads := rt_orjson_loads library_runtime;
     rt_json_dumps := rt_json_dumps library_runtime;
     rt_sha1 := rt_sha1 library_runtime |}.

(** [torch.tensor([1.5, 2.5])] and [torch.tensor([1+2j, 3+4j])] *)
Definition float_tensor : PyVal :=
  mk_tensor "torch.FloatTensor" (VList [VFloat (fl "1.5"); VFloat (fl "2.5")]).
Definition complex_tensor : PyVal :=
  mk_tensor "torch.ComplexFloatTensor"
    (VList [VList [VComplex (fl "1.0") (fl "2.0")];
            VList [VComplex (fl "3.0") (fl "4.0")]]).

(** [Point(x=1, y=2)] *)
Definition point : PyVal := mk_point [(KStr "x", VInt 1); (KStr "y", VInt 2)].

(** * Theorems *)

(** ** Generic facts *)

Lemma assoc_map {A B} (f : A -> B) (k : string) (l : list (string * A)) :
  assoc k (map (fun kv => (kv.1, f kv.2)) l) = f <$> assoc k l.
Proof.
  induction l as [|[k' v] l IH]; simpl; [reflexivity|].
  destruct (String.eqb k k'); [reflexivity|exact IH].
Qed.

Lemma try_except_ok {A} (a : A) caught handler :
  try_except (Ok a) caught handler = Ok a.
Proof. reflexivity. Qed.

Lemma try_except_caught {A} (e : exn) caught (handler : result A) :
  exn_cls e ∈ caught -> try_except (Raise e) caught handler = handler.
Proof. intros H. unfold try_except. rewrite bool_decide_eq_true_2; auto. Qed.

Lemma try_except_uncaught {A} (e : exn) caught (handler : result A) :
  exn_cls e ∉ caught -> try_except (Raise e) caught handler = Raise e.
Proof. intros H. unfold try_except. rewrite bool_decide_eq_false_2; auto. Qed.

Lemma append_cons c s t : String c s ++ t = String c (s ++ t).
Proof. reflexivity. Qed.

Lemma append_nil t : "" ++ t = t.
Proof. reflexivity. Qed.

Lemma append_nil_r (s : string) : s ++ "" = s.
Proof. induction s as [|c s IH]; [reflexivity|]. rewrite append_cons, IH. reflexivity. Qed.

(** membership of a concrete exception class in a concrete [except] list *)
Ltac decide_caught := apply (bool_decide_unpack _); vm_compute; exact I.

(** ** The redirect loader *)

(** C8.  Loading the redirect table from a path whose file cannot be opened
    yields the empty table and no failure; when the file opens and the YAML
    reader rejects its content, the reader's failure is what the loader
    raises. *)
Theorem load_redirect_missing_or_malformed (env : LoaderEnv) (path : string) :
  (forall e, open_read env path = Raise e -> exn_cls e = OSError ->
     _load_redirect env path = Ok ∅) /\
  (forall text e, open_read env path = Ok text -> yaml_imported env = true ->
     yaml_load env text = Raise e -> exn_cls e = ParseError ->
     _load_redirect env path = Raise e).
Proof.
  split.
  - intros e Hopen Hcls. unfold _load_redirect, read_redirect_file.
    rewrite Hopen. simpl. rewrite try_except_caught; [reflexivity|].
    rewrite Hcls. decide_caught.
  - intros text e Hopen Hyaml Hload Hcls.
    unfold _load_redirect, read_redirect_file.
    rewrite Hopen. simpl. rewrite Hyaml, Hload. simpl.
    rewrite try_except_uncaught; [reflexivity|].
    rewrite Hcls. decide_caught.
Qed.

Lemma load_redirect_missing_or_malformed_witness :
  _load_redirect missing_file_env "/home/u/.monty.yaml" = Ok ∅ /\
  _load_redirect malformed_file_env "/home/u/.monty.yaml"
    = Raise (Exn ParseError "while parsing a flow sequence").
Proof.
  split.
  - eapply (proj1 (load_redirect_missing_or_malformed missing_file_env _));
      reflexivity.
  - eapply (proj2 (load_redirect_missing_or_malformed malformed_file_env _));
      reflexivity.
Defined.

(** A well-formed file gives the two-level table. *)
Example load_redirect_example :
  _load_redirect
    {| open_read := fun _ => Ok "old_module.old_class: new_module.new_class";
       yaml_imported := true;
       yaml_load := fun _ =>
         Ok (YMapping [("old_module.old_class", "new_module.new_class")]) |}
    "/home/u/.monty.yaml"
  = Ok {[ "old_module" := {[ "old_class" := Redirect "new_module" "new_class" ]} ]}.
Proof. reflexivity. Qed.

(** ** Auto-derivation: [MSONable.as_dict] *)

Lemma derive_args_missing derived params d c :
  In c params -> c <> "self" ->
  assoc c derived = None -> assoc ("_" ++ c) derived = None ->
  exists e, derive_args derived params d = Raise e.
Proof.
  intros Hin Hself Hc Hu. revert d.
  induction params as [|p params IH]; intros d; [destruct Hin|].
  simpl. destruct (String.eqb p "self") eqn:Hp.
  - destruct Hin as [->|Hin]; [|auto].
    apply String.eqb_eq in Hp. contradiction.
  - destruct Hin as [->|Hin].
    + rewrite Hc, Hu. eexists. reflexivity.
    + destruct (assoc p derived) as [[v|e]|]; simpl; eauto.
      destruct (assoc ("_" ++ p) derived) as [[v|e]|]; simpl; eauto.
Qed.

Lemma derive_args_missing_clean derived params d c :
  In c params -> c <> "self" ->
  assoc c derived = None -> assoc ("_" ++ c) derived = None ->
  (forall k r, assoc k derived = Some r -> is_ok r = true) ->
  derive_args derived params d = raise NotImplementedError NOT_DERIVABLE.
Proof.
  intros Hin Hself Hc Hu Hok. revert d.
  induction params as [|p params IH]; intros d; [destruct Hin|].
  simpl. destruct (String.eqb p "self") eqn:Hp.
  - destruct Hin as [->|Hin]; [|auto].
    apply String.eqb_eq in Hp. contradiction.
  - destruct Hin as [->|Hin].
    + rewrite Hc, Hu. reflexivity.
    + destruct (assoc p derived) as [[v|e]|] eqn:Hp1; simpl; auto.
      { apply Hok in Hp1. discriminate. }
      destruct (assoc ("_" ++ p) derived) as [[v|e]|] eqn:Hp2; simpl; auto.
      apply Hok in Hp2. discriminate.
Qed.

Lemma assoc_Some_In {A} k (v : A) l : assoc k l = Some v -> In (k, v) l.
Proof.
  induction l as [|[k' v'] l IH]; simpl; [discriminate|].
  destruct (String.eqb k k') eqn:E.
  - apply String.eqb_eq in E. intros [= ->]. left. congruence.
  - auto.
Qed.

Lemma dict_get_set k k' (v : PyVal) d :
  is_Some (dict_get k (dict_set k' v d)) <-> k = k' \/ is_Some (dict_get k d).
Proof.
  induction d as [|[k0 v0] d IH]; simpl.
  - destruct (decide (k = k')); unfold is_Some; naive_solver.
  - destruct (decide (k' = k0)) as [->|Hne]; simpl.
    + destruct (decide (k = k0)); unfold is_Some; naive_solver.
    + destruct (decide (k = k0)) as [->|Hne']; [unfold is_Some; naive_solver|].
      exact IH.
Qed.

Lemma dict_get_update_mono k (d e : pydict) :
  is_Some (dict_get k d) -> is_Some (dict_get k (dict_update d e)).
Proof.
  revert d. unfold dict_update.
  induction e as [|[k' v'] e IH]; intros d H; simpl; [exact H|].
  apply IH. apply dict_get_set. right. exact H.
Qed.

Lemma derive_args_keys derived params d d' :
  derive_args derived params d = Ok d' ->
  (forall k, is_Some (dict_get k d) -> is_Some (dict_get k d')) /\
  (forall c, In c params -> c <> "self" -> is_Some (dict_get (KStr c) d')).
Proof.
  revert d. induction params as [|p params IH]; intros d; simpl.
  - intros [= ->]. split; [auto|intros c []].
  - destruct (String.eqb p "self") eqn:Hp.
    + intros H. destruct (IH _ H) as [Hmono Hkeys]. split; [exact Hmono|].
      intros c [->|Hin] Hself; [|auto].
      apply String.eqb_eq in Hp. contradiction.
    + assert (Hstep : forall a : result PyVal,
                (v ← a; derive_args derived params (dict_set (KStr p) v d)) = Ok d' ->
                (forall k, is_Some (dict_get k d) -> is_Some (dict_get k d')) /\
                (forall c, In c (p :: params) -> c <> "self" ->
                           is_Some (dict_get (KStr c) d'))).
      { intros [v|e]; simpl; [|discriminate]. intros H.
        destruct (IH _ H) as [Hmono Hkeys]. split.
        - intros k Hk. apply Hmono. apply dict_get_set. auto.
        - intros c [->|Hin] Hself; [|auto].
          apply Hmono. apply dict_get_set. auto. }
      destruct (assoc p derived) as [a|]; [apply Hstep|].
      destruct (assoc ("_" ++ p) derived) as [a|]; [apply Hstep|].
      discriminate.
Qed.

Lemma update_from_bag_mono attrs name d d' k :
  update_from_bag attrs name d = Ok d' ->
  is_Some (dict_get k d) -> is_Some (dict_get k d').
Proof.
  unfold update_from_bag.
  destruct (assoc name attrs) as [[]|]; try discriminate.
  - destruct (keyword_items items); [|discriminate].
    intros [= <-]. apply dict_get_update_mono.
  - intros [= <-]. auto.
Qed.

(** C4, as the code has it.  When a constructor parameter (other than
    [self]) is an attribute neither under its own name nor with a leading
    underscore, [as_dict] raises and yields no dict; when nothing else fails
    first, what it raises is [NotImplementedError] with one fixed text.
    And a dict that [as_dict] does return has an entry for every constructor
    parameter: no field is left out silently. *)
Theorem as_dict_missing_attribute (rt : Runtime) (ty : PyType) (text : string)
    (attrs : list (string * PyVal)) (methods : list (string * result PyVal)) :
  let self := VObj ty text attrs methods in
  (forall c, In c (ty_init_args ty ++ ty_init_kwonly ty) -> c <> "self" ->
     assoc c attrs = None -> assoc ("_" ++ c) attrs = None ->
     (exists e, as_dict rt self = Raise e) /\
     ((forall k v, In (k, v) attrs -> is_ok (recursive_as_dict rt v) = true) ->
      is_ok (version_tag rt (ty_module ty)) = true ->
      as_dict rt self = raise NotImplementedError NOT_DERIVABLE)) /\
  (forall d, as_dict rt self = Ok (VDict d) ->
     forall c, In c (ty_init_args ty ++ ty_init_kwonly ty) -> c <> "self" ->
     dict_has (KStr c) d = true).
Proof.
  intros self. split.
  - intros c Hin Hself Hc Hu.
    set (derived := map (fun kv : string * PyVal =>
                           (kv.1, recursive_as_dict rt kv.2)) attrs).
    assert (Hc' : assoc c derived = None)
      by (unfold derived; rewrite assoc_map, Hc; reflexivity).
    assert (Hu' : assoc ("_" ++ c) derived = None)
      by (unfold derived; rewrite assoc_map, Hu; reflexivity).
    split.
    + unfold self, as_dict, as_dict_body. fold derived.
      destruct (version_tag rt (ty_module ty)) as [ver|e]; simpl; [|eauto].
      destruct (derive_args_missing derived _
                  [(KStr "@module", VStr (ty_module ty));
                   (KStr "@class", VStr (ty_name ty)); (KStr "@version", ver)]
                  c Hin Hself Hc' Hu') as [e He].
      rewrite He. simpl. eauto.
    + intros Hattrs Hver. unfold self, as_dict, as_dict_body. fold derived.
      destruct (version_tag rt (ty_module ty)) as [ver|e]; [|discriminate].
      simpl. rewrite (derive_args_missing_clean derived _ _ c Hin Hself Hc' Hu').
      * reflexivity.
      * intros k r Hk. unfold derived in Hk. rewrite assoc_map in Hk.
        destruct (assoc k attrs) as [v|] eqn:Hv; [|discriminate].
        injection Hk as <-. eapply Hattrs. apply assoc_Some_In. exact Hv.
  - intros d Hd c Hin Hself. unfold dict_has. apply bool_decide_eq_true_2.
    unfold self, as_dict, as_dict_body in Hd.
    destruct (version_tag rt (ty_module ty)) as [ver|e]; [|discriminate].
    simpl in Hd.
    destruct (derive_args _ _ _) as [d1|e] eqn:H1; [|discriminate].
    apply derive_args_keys in H1. destruct H1 as [_ Hkeys].
    specialize (Hkeys c Hin Hself). simpl in Hd.
    destruct (update_from_bag attrs "kwargs" d1) as [d2|e] eqn:H2; [|discriminate].
    simpl in Hd.
    eapply update_from_bag_mono in Hkeys; [|exact H2].
    match type of Hd with
    | context [update_from_bag attrs "_kwargs" ?d3] =>
        assert (H3 : is_Some (dict_get (KStr c) d3))
    end.
    { destruct (ty_init_varargs ty) as [va|]; [|exact Hkeys].
      destruct (assoc va attrs) as [v|]; [|exact Hkeys].
      destruct (is_none v); [exact Hkeys|].
      apply dict_get_set. auto. }
    destruct (update_from_bag attrs "_kwargs" _) as [d4|e] eqn:H4; [|discriminate].
    simpl in Hd. eapply update_from_bag_mono in H3; [|exact H4].
    destruct (bool_decide (ENUM ∈ ty_mro ty)).
    + destruct (assoc "value" attrs); [|discriminate].
      simpl in Hd. injection Hd as <-. apply dict_get_set. auto.
    + simpl in Hd. injection Hd as <-. exact H3.
Qed.

Lemma as_dict_missing_attribute_witness :
  (exists e, as_dict bare_runtime foo_missing_b = Raise e) /\
  as_dict bare_runtime foo_missing_b = raise NotImplementedError NOT_DERIVABLE /\
  dict_has (KStr "b") [(KStr "@module", VStr "pkg.mod"); (KStr "@class", VStr "Foo");
                       (KStr "@version", VNone); (KStr "zeta", VInt 1);
                       (KStr "b", VList [VInt 2; VInt 3])] = true.
Proof.
  pose proof (proj1 (as_dict_missing_attribute bare_runtime
                       (plain_type "pkg.mod" "Foo" [MSONABLE] ["self"; "zeta"; "b"])
                       "<Foo>" [("_zeta", VInt 1)] [])
                "b") as Hmissing.
  destruct Hmissing as [Hraises Hclean];
    [simpl; auto | discriminate | reflexivity | reflexivity |].
  split; [exact Hraises|]. split.
  - apply Hclean; [|reflexivity].
    intros k v [[= <- <-]|[]]. reflexivity.
  - apply (proj2 (as_dict_missing_attribute bare_runtime
                    (plain_type "pkg.mod" "Foo" [MSONABLE] ["self"; "zeta"; "b"])
                    "<Foo>" [("_zeta", VInt 1); ("b", VTuple [VInt 2; VInt 3])] [])
             _ eq_refl "b");
      [simpl; auto | discriminate].
Defined.

(** C4 as stated fails: two objects of different types, missing different
    attributes, get the very same error, and its text contains neither
    type name nor attribute name. *)
Lemma derivation_error_names_nothing :
  exists e,
    as_dict bare_runtime qux_missing_omega = Raise e /\
    as_dict bare_runtime foo_missing_b = Raise e /\
    contains "Qux" (exn_msg e) = false /\
    contains "omega" (exn_msg e) = false /\
    contains "Foo" (exn_msg e) = false.
Proof.
  exists (Exn NotImplementedError NOT_DERIVABLE).
  repeat split; vm_compute; reflexivity.
Qed.

(** ** The encoder's dispatch *)

Lemma default_unfold (rt : Runtime) (o : PyVal) :
  MontyEncoder.default rt o = default_with rt o (encoded_self rt o).
Proof.
  destruct o; try reflexivity.
  simpl. rewrite assoc_map. reflexivity.
Qed.

Lemma try_except_raise_caught {A} c msg caught (handler : result A) :
  c ∈ caught -> try_except (raise c msg) caught handler = handler.
Proof. intros H. apply try_except_caught. exact H. Qed.

Lemma try_except_raise_other {A} c msg caught (handler : result A) :
  c ∉ caught -> try_except (raise c msg) caught handler = raise c msg.
Proof. intros H. apply try_except_uncaught. exact H. Qed.

(** use the outcomes of the tests decided so far *)
Ltac use_tests :=
  repeat match goal with
         | E : ?t = true |- context [?t] => rewrite E
         | E : ?t = false |- context [?t] => rewrite E
         end.

(** split on the test [t] if the goal still mentions it *)
Ltac case_test t :=
  match goal with
  | |- context [t] =>
      destruct t eqn:?; simpl; use_tests; simpl; try reflexivity
  | _ => idtac
  end.

Lemma default_is_spec_dispatch (rt : Runtime) (o : PyVal) :
  MontyEncoder.default rt o = spec_dispatch rt o.
Proof.
  rewrite default_unfold.
  unfold default_with, spec_dispatch, spec_priority, encode_generic,
    finish_generic.
  simpl.
  case_test (isinstance o DATETIME);
  case_test (isinstance o UUID);
  case_test (isinstance o PATH);
  case_test (torch_imported rt);
  case_test (isinstance o TENSOR);
  case_test (np_imported rt);
  case_test (isinstance o NDARRAY);
  case_test (isinstance o NPGENERIC);
  case_test (_check_type o ["pandas.core.frame.DataFrame"]);
  case_test (_check_type o ["pandas.core.series.Series"]);
  case_test (bson_imported rt);
  case_test (isinstance o OBJECTID);
  case_test (callable o);
  case_test (isinstance o MSONABLE);
  case_test (pydantic_imported rt);
  case_test (isinstance o BASEMODEL);
  case_test (dataclasses_imported rt);
  case_test (is_dataclass o);
  case_test (has_as_dict o);
  case_test (isinstance o ENUM);
  apply try_except_raise_other; decide_caught.
Qed.

(** the first branch that matches is the one [default] takes *)
Lemma default_first_match (rt : Runtime) (o : PyVal) (b : branch)
    (before after : list branch) :
  spec_priority = (before ++ b :: after)%list ->
  branch_matches rt b o = true ->
  forallb (fun b' => negb (branch_matches rt b' o)) before = true ->
  MontyEncoder.default rt o = branch_encode rt b o.
Proof.
  intros Hsplit Hb Hbefore.
  rewrite default_is_spec_dispatch. unfold spec_dispatch. rewrite Hsplit.
  clear Hsplit. induction before as [|b' before IH]; simpl.
  - rewrite Hb. reflexivity.
  - simpl in Hbefore. apply andb_prop in Hbefore as [Hb' Hbefore].
    apply negb_true_iff in Hb'. rewrite Hb'. auto.
Qed.

(** C2.  [MontyEncoder.default] is the first-match dispatch over the twelve
    branches in the order of section 4.1: it returns what the first
    matching branch produces, and a value that matches no branch raises
    [TypeError] "... is not JSON serializable". *)
Theorem default_dispatch_order (rt : Runtime) (o : PyVal) :
  MontyEncoder.default rt o = spec_dispatch rt o /\
  (forall (b : branch) (before after : list branch),
     spec_priority = (before ++ b :: after)%list ->
     branch_matches rt b o = true ->
     forallb (fun b' => negb (branch_matches rt b' o)) before = true ->
     MontyEncoder.default rt o = branch_encode rt b o) /\
  (forallb (fun b => negb (branch_matches rt b o)) spec_priority = true ->
   MontyEncoder.default rt o = raise TypeError (NOT_SERIALIZABLE o)).
Proof.
  split; [apply default_is_spec_dispatch|]. split.
  - intros b before after. apply default_first_match.
  - intros Hnone. rewrite default_is_spec_dispatch. unfold spec_dispatch.
    induction spec_priority as [|b l IH]; simpl; [reflexivity|].
    simpl in Hnone. apply andb_prop in Hnone as [Hb Hl].
    apply negb_true_iff in Hb. rewrite Hb. auto.
Qed.

Lemma default_dispatch_order_witness :
  MontyEncoder.default bare_runtime msonable_enum_member
  = branch_encode bare_runtime DerivationMethod msonable_enum_member /\
  MontyEncoder.default bare_runtime (VStr "x")
  = raise TypeError "Object of type str is not JSON serializable".
Proof.
  split.
  - apply (proj1 (proj2 (default_dispatch_order bare_runtime msonable_enum_member))
             DerivationMethod
             [Timestamp; UniqueId; FsPath; Tensor; NumericArray; Tabular;
              OpaqueId; CallableRef; ValidationModel; Dataclass]
             [Enumeration]); reflexivity.
  - apply (proj2 (proj2 (default_dispatch_order bare_runtime (VStr "x"))));
      reflexivity.
Defined.

(** ** The sanitizer *)

Lemma jsanitize_unfold depth rt opts obj :
  jsanitize depth rt opts obj =
  jsanitize_body rt opts obj
    (elements_of (jsanitize depth rt opts) obj)
    (array_elements_of (jsanitize depth rt opts) obj)
    (values_of (jsanitize depth rt opts) obj)
    (fun r =>
       match depth with
       | O => raise RecursionError "maximum recursion depth exceeded"
       | S depth' => v ← r; jsanitize depth' rt opts v
       end).
Proof. destruct depth; destruct obj; reflexivity. Qed.

(** evaluate the type tests of a value whose constructor is known *)
Ltac eval_tests :=
  repeat match goal with
         | |- context [isinstance ?v ?c] =>
             let b := eval vm_compute in (isinstance v c) in
             change (isinstance v c) with b
         | |- context [_check_type ?v ?c] =>
             let b := eval vm_compute in (_check_type v c) in
             change (_check_type v c) with b
         end.

Lemma sequence_ok_map {A B} (f : A -> result B) (g : A -> B) (l : list A) :
  Forall (fun a => f a = Ok (g a)) l -> sequence (map f l) = Ok (map g l).
Proof.
  induction 1 as [|a l Ha Hl IH]; simpl; [reflexivity|].
  rewrite Ha. simpl. rewrite IH. reflexivity.
Qed.

Lemma dict_set_fresh (k : dkey) (v : PyVal) (d : pydict) :
  k ∉ map fst d -> dict_set k v d = (d ++ [(k, v)])%list.
Proof.
  induction d as [|[k' v'] d IH]; simpl; intros H; [reflexivity|].
  destruct (decide (k = k')) as [->|Hne].
  - exfalso. apply H. left.
  - f_equal. apply IH. intros Hin. apply H. right. exact Hin.
Qed.

Lemma dict_update_nodup (acc d : pydict) :
  NoDup (map fst (acc ++ d)%list) -> dict_update acc d = (acc ++ d)%list.
Proof.
  revert acc. unfold dict_update.
  induction d as [|[k v] d IH]; intros acc H; simpl.
  - rewrite app_nil_r. reflexivity.
  - rewrite dict_set_fresh.
    + rewrite IH; rewrite <- app_assoc; [reflexivity|exact H].
    + rewrite map_app, NoDup_app in H. destruct H as (_ & H & _).
      intros Hin. apply (H k Hin). simpl. left.
Qed.

Lemma dict_of_items_nodup (d : pydict) :
  NoDup (map fst d) -> dict_of_items d = d.
Proof. intros H. apply (dict_update_nodup [] d). exact H. Qed.

(** C9.  On a value already in plain JSON-safe form the sanitizer returns
    the value itself, whatever its options and depth bound; sanitizing the
    result again therefore changes nothing. *)
Theorem jsanitize_idempotent (depth : nat) (rt : Runtime)
    (opts : sanitize_options) (x : PyVal) :
  json_safe x = true ->
  jsanitize depth rt opts x = Ok x /\
  (v ← jsanitize depth rt opts x; jsanitize depth rt opts v)
  = jsanitize depth rt opts x.
Proof.
  intros Hsafe.
  assert (H : jsanitize depth rt opts x = Ok x);
    [|split; [exact H|rewrite H; simpl; exact H]].
  revert Hsafe. induction x using PyVal_nested_ind; intros Hsafe;
    try discriminate Hsafe; rewrite jsanitize_unfold; unfold jsanitize_body;
    eval_tests; simpl; rewrite ?andb_false_r; simpl.
  - reflexivity.
  - reflexivity.
  - reflexivity.
  - reflexivity.
  - rewrite try_except_raise_caught by decide_caught.
    destruct (recursive_msonable opts), (strict opts); reflexivity.
  - rewrite (sequence_ok_map _ id).
    + rewrite map_id. reflexivity.
    + simpl in Hsafe. rewrite forallb_forall in Hsafe.
      rewrite Forall_forall in *. intros a Ha.
      apply H; [exact Ha|]. apply Hsafe. apply list_elem_of_In. exact Ha.
  - simpl in Hsafe. apply andb_prop in Hsafe as [Hvals Hkeys].
    apply bool_decide_eq_true_1 in Hkeys.
    rewrite (sequence_ok_map _ id).
    + rewrite map_id. simpl. rewrite dict_of_items_nodup by exact Hkeys.
      reflexivity.
    + rewrite forallb_forall in Hvals.
      rewrite Forall_forall in *. intros [k v] Hkv.
      specialize (Hvals (k, v)). rewrite <- list_elem_of_In in Hvals.
      specialize (Hvals Hkv). simpl in Hvals.
      destruct k as [k|z]; [|discriminate].
      pose proof (H (KStr k, v) Hkv Hvals) as Hv. simpl in Hv |- *.
      rewrite Hv. reflexivity.
Qed.

Lemma jsanitize_idempotent_witness :
  jsanitize 0 bare_runtime default_options json_safe_example
  = Ok json_safe_example.
Proof.
  apply (proj1 (jsanitize_idempotent 0 bare_runtime default_options
                  json_safe_example eq_refl)).
Defined.

Lemma call_as_dict_absent rt obj :
  has_as_dict obj = false ->
  call_as_dict rt obj = raise AttributeError "as_dict".
Proof.
  destruct obj; try reflexivity. unfold has_as_dict, call_as_dict.
  intros H. apply orb_false_iff in H as [Hm Hi].
  destruct (assoc "as_dict" methods).
  - apply bool_decide_eq_false_1 in Hm. exfalso. apply Hm. eauto.
  - rewrite Hi. reflexivity.
Qed.

(** C7, as the code has it.  For a callable that is not an [MSONable]
    instance and that no earlier branch of the sanitizer takes: when the
    callable-reference payload can be built it is the result; a failure
    other than [TypeError] while building it propagates; a [TypeError]
    (the owner of a bound method cannot be serialized) is caught and the
    sanitizer goes on, so that with [strict] off and no [as_dict] on the
    callable the result is its text. *)
Theorem jsanitize_callable (depth : nat) (rt : Runtime)
    (opts : sanitize_options) (obj : PyVal) :
  reaches_callable_branch rt opts obj = true ->
  callable obj = true -> isinstance obj MSONABLE = false ->
  (forall p, _serialize_callable obj (encoded_self rt obj) = Ok p ->
     jsanitize depth rt opts obj = Ok p) /\
  (forall e, _serialize_callable obj (encoded_self rt obj) = Raise e ->
     exn_cls e <> TypeError -> jsanitize depth rt opts obj = Raise e) /\
  (forall e, _serialize_callable obj (encoded_self rt obj) = Raise e ->
     exn_cls e = TypeError -> strict opts = false -> has_as_dict obj = false ->
     jsanitize depth rt opts obj = Ok (VStr (py_str rt obj))).
Proof.
  intros Hreach Hcall Hmson.
  unfold reaches_callable_branch in Hreach.
  repeat (apply andb_prop in Hreach as [Hreach ?]).
  repeat match goal with
         | H : negb _ = true |- _ => apply negb_true_iff in H
         end.
  assert (Hbody : jsanitize depth rt opts obj =
    let rest :=
      if recursive_msonable opts then
        try_except (call_as_dict rt obj) [AttributeError]
          (if negb (strict opts) then Ok (VStr (py_str rt obj))
           else if is_str obj then Ok obj
           else if pydantic_imported rt && isinstance obj BASEMODEL then
             match depth with
             | O => raise RecursionError "maximum recursion depth exceeded"
             | S depth' => v ← MontyEncoder.default rt obj; jsanitize depth' rt opts v
             end
           else
             match depth with
             | O => raise RecursionError "maximum recursion depth exceeded"
             | S depth' => v ← call_as_dict rt obj; jsanitize depth' rt opts v
             end)
      else
        (if negb (strict opts) then Ok (VStr (py_str rt obj))
         else if is_str obj then Ok obj
         else if pydantic_imported rt && isinstance obj BASEMODEL then
           match depth with
           | O => raise RecursionError "maximum recursion depth exceeded"
           | S depth' => v ← MontyEncoder.default rt obj; jsanitize depth' rt opts v
           end
         else
           match depth with
           | O => raise RecursionError "maximum recursion depth exceeded"
           | S depth' => v ← call_as_dict rt obj; jsanitize depth' rt opts v
           end) in
    try_except (_serialize_callable obj (encoded_self rt obj)) [TypeError] rest).
  { rewrite jsanitize_unfold. unfold jsanitize_body.
    use_tests. reflexivity. }
  rewrite Hbody. cbv zeta. split; [|split].
  - intros p ->. reflexivity.
  - intros e -> Hcls. apply try_except_uncaught.
    intros Hin. apply list_elem_of_singleton in Hin. contradiction.
  - intros e -> Hcls Hstrict Hno.
    rewrite try_except_caught by (rewrite Hcls; decide_caught).
    rewrite Hstrict. simpl.
    destruct (recursive_msonable opts); [|reflexivity].
    rewrite call_as_dict_absent by exact Hno.
    apply try_except_raise_caught. decide_caught.
Qed.

Lemma jsanitize_callable_witness :
  jsanitize 0 bare_runtime default_options free_function
  = Ok (VDict [(KStr "@module", VStr "pkg.util");
               (KStr "@callable", VStr "helper"); (KStr "@bound", VNone)]) /\
  jsanitize 0 bare_runtime default_options callable_instance
  = raise AttributeError "__name__" /\
  jsanitize 0 bare_runtime default_options bound_method_of_plain
  = Ok (VStr "<bound method Plain.run of <pkg.Plain object>>").
Proof.
  split; [|split].
  - apply (proj1 (jsanitize_callable 0 bare_runtime default_options free_function
                    eq_refl eq_refl eq_refl)).
    reflexivity.
  - apply (proj1 (proj2 (jsanitize_callable 0 bare_runtime default_options
                           callable_instance eq_refl eq_refl eq_refl)));
      [reflexivity|discriminate].
  - apply (proj2 (proj2 (jsanitize_callable 0 bare_runtime default_options
                           bound_method_of_plain eq_refl eq_refl eq_refl))
             (Exn TypeError
                "Only bound methods of classes or MSONable instances are supported."));
      reflexivity.
Defined.

(** C7 as stated fails: building the payload of a bound method whose owner
    cannot be serialized raises [TypeError], and the sanitizer, instead of
    letting it out, returns the method's text. *)
Lemma jsanitize_swallows_callable_failure :
  _serialize_callable bound_method_of_plain
    (encoded_self bare_runtime bound_method_of_plain)
  = raise TypeError
      "Only bound methods of classes or MSONable instances are supported." /\
  jsanitize 0 bare_runtime default_options bound_method_of_plain
  = Ok (VStr "<bound method Plain.run of <pkg.Plain object>>").
Proof. split; vm_compute; reflexivity. Qed.

(** ** The content hash *)

Lemma ltb_le_trans x y z :
  String.ltb x y = true -> String.ltb z y = false -> String.ltb x z = true.
Proof.
  unfold String.ltb. intros Hxy Hzy.
  destruct (String.compare x y) eqn:Exy; try discriminate.
  apply OrderedTypeEx.String_as_OT.cmp_lt in Exy.
  destruct (String.compare z y) eqn:Ezy; try discriminate.
  - apply String.compare_eq_iff in Ezy. subst z.
    apply OrderedTypeEx.String_as_OT.cmp_lt in Exy.
    unfold OrderedTypeEx.String_as_OT.cmp in Exy. rewrite Exy. reflexivity.
  - assert (Hyz : OrderedTypeEx.String_as_OT.lt y z).
    { apply OrderedTypeEx.String_as_OT.cmp_lt.
      unfold OrderedTypeEx.String_as_OT.cmp.
      rewrite String.compare_antisym, Ezy. reflexivity. }
    pose proof (OrderedTypeEx.String_as_OT.lt_trans _ _ _ Exy Hyz) as Hxz.
    apply OrderedTypeEx.String_as_OT.cmp_lt in Hxz.
    unfold OrderedTypeEx.String_as_OT.cmp in Hxz. rewrite Hxz. reflexivity.
Qed.

Lemma ltb_asym x y : String.ltb x y = true -> String.ltb y x = false.
Proof.
  unfold String.ltb. rewrite (String.compare_antisym x y).
  destruct (String.compare y x); simpl; congruence.
Qed.

Lemma Forall_insert_by_key (P : string * PyVal -> Prop) x l :
  Forall P (insert_by_key x l) <-> P x /\ Forall P l.
Proof.
  induction l as [|y l IH]; simpl.
  - rewrite Forall_singleton, Forall_nil. tauto.
  - destruct (String.ltb x.1 y.1).
    + rewrite !Forall_cons. tauto.
    + rewrite !Forall_cons, IH. tauto.
Qed.

Lemma insert_by_key_sorted x l :
  key_sorted l -> key_sorted (insert_by_key x l).
Proof.
  induction l as [|y l IH]; simpl; [auto|].
  intros [Hy Hl]. destruct (String.ltb x.1 y.1) eqn:Hxy; simpl.
  - split; [|auto]. apply Forall_cons. split.
    + apply ltb_asym. exact Hxy.
    + eapply Forall_impl; [exact Hy|]. simpl. intros z Hz.
      apply ltb_asym. eapply ltb_le_trans; eauto.
  - split; [|auto]. apply Forall_insert_by_key. auto.
Qed.

Lemma insert_by_key_front x l :
  Forall (fun z : string * PyVal => String.ltb x.1 z.1 = true) l ->
  insert_by_key x l = x :: l.
Proof.
  destruct l as [|y l]; simpl; [reflexivity|].
  intros H. apply Forall_cons in H as [-> _]. reflexivity.
Qed.

Lemma filter_insert_by_key (p : string * PyVal -> bool) x l :
  key_sorted l ->
  List.filter p (insert_by_key x l) =
  if p x then insert_by_key x (List.filter p l) else List.filter p l.
Proof.
  induction l as [|y l IH]; simpl.
  - intros _. destruct (p x); reflexivity.
  - intros [Hy Hl]. destruct (String.ltb x.1 y.1) eqn:Hxy; simpl.
    + destruct (p x) eqn:Hpx; [|reflexivity].
      destruct (p y); simpl.
      * rewrite Hxy. reflexivity.
      * symmetry. apply insert_by_key_front.
        apply Forall_forall. intros z Hz.
        apply list_elem_of_In, filter_In in Hz as [Hz _].
        rewrite Forall_forall in Hy.
        eapply ltb_le_trans; [exact Hxy|]. apply Hy.
        apply list_elem_of_In. exact Hz.
    + rewrite (IH Hl). destruct (p y), (p x); simpl; rewrite ?Hxy; reflexivity.
Qed.

Lemma filter_sorted_from (p : string * PyVal -> bool) l acc :
  key_sorted acc ->
  List.filter p (foldl (fun acc x => insert_by_key x acc) acc l) =
  foldl (fun acc x => insert_by_key x acc) (List.filter p acc) (List.filter p l).
Proof.
  revert acc. induction l as [|x l IH]; intros acc Hacc; simpl; [reflexivity|].
  rewrite IH by (apply insert_by_key_sorted; exact Hacc).
  rewrite filter_insert_by_key by exact Hacc.
  destruct (p x); reflexivity.
Qed.

(** dropping the tagged keys before or after sorting gives the same list *)
Lemma drop_tagged_sorted l :
  drop_tagged (sorted_by_key l) = sorted_by_key (drop_tagged l).
Proof. apply (filter_sorted_from _ l []). exact I. Qed.

(** *** Dictionaries as item lists *)

Lemma dict_set_same k v v0 (a : pydict) :
  dict_set k v (dict_set k v0 a) = dict_set k v a.
Proof.
  induction a as [|[k0 w] a IH]; simpl.
  - destruct (decide (k = k)); [reflexivity|contradiction].
  - destruct (decide (k = k0)) as [->|Hne]; simpl.
    + destruct (decide (k0 = k0)); [reflexivity|contradiction].
    + destruct (decide (k = k0)); [contradiction|]. rewrite IH. reflexivity.
Qed.

Lemma dict_set_comm k k' v v' (a : pydict) :
  k <> k' -> is_Some (dict_get k a) ->
  dict_set k v (dict_set k' v' a) = dict_set k' v' (dict_set k v a).
Proof.
  intros Hne. induction a as [|[k0 w] a IH]; simpl.
  - intros [x Hx]. discriminate.
  - destruct (decide (k = k0)) as [->|Hk].
    + intros _. destruct (decide (k' = k0)) as [->|Hk']; [contradiction|].
      simpl. destruct (decide (k0 = k0)); [|contradiction].
      destruct (decide (k' = k0)); [contradiction|reflexivity].
    + intros Hsome. destruct (decide (k' = k0)) as [->|Hk']; simpl.
      * destruct (decide (k = k0)); [contradiction|].
        destruct (decide (k0 = k0)); [reflexivity|contradiction].
      * destruct (decide (k = k0)); [contradiction|].
        destruct (decide (k' = k0)); [contradiction|].
        rewrite IH by exact Hsome. reflexivity.
Qed.

Lemma dict_get_None_keys (k : dkey) (d : pydict) :
  dict_get k d = None <-> k ∉ map fst d.
Proof.
  induction d as [|[k0 w] d IH]; simpl.
  - split; [intros _ H; inversion H|reflexivity].
  - destruct (decide (k = k0)) as [->|Hne].
    + split; [discriminate|]. intros H. exfalso. apply H. left.
    + rewrite IH. split.
      * intros H Hin. apply elem_of_cons in Hin as [?|?]; auto.
      * intros H Hin. apply H. right. exact Hin.
Qed.

Lemma dict_set_keys k v (d : pydict) :
  map fst (dict_set k v d) =
  if decide (k ∈ map fst d) then map fst d else (map fst d ++ [k])%list.
Proof.
  induction d as [|[k0 w] d IH]; simpl.
  - destruct (decide (k ∈ [])) as [H|_]; [inversion H|reflexivity].
  - destruct (decide (k = k0)) as [->|Hne]; simpl.
    + destruct (decide (k0 ∈ k0 :: map fst d)) as [_|H]; [reflexivity|].
      exfalso. apply H. left.
    + rewrite IH. destruct (decide (k ∈ map fst d)) as [Hin|Hnin].
      * destruct (decide (k ∈ k0 :: map fst d)) as [_|H]; [reflexivity|].
        exfalso. apply H. right. exact Hin.
      * destruct (decide (k ∈ k0 :: map fst d)) as [H|_]; [|reflexivity].
        apply elem_of_cons in H as [?|?]; contradiction.
Qed.

Lemma dict_set_NoDup k v (d : pydict) :
  NoDup (map fst d) -> NoDup (map fst (dict_set k v d)).
Proof.
  intros H. rewrite dict_set_keys.
  destruct (decide (k ∈ map fst d)) as [Hin|Hnin]; [exact H|].
  apply NoDup_app. split; [exact H|]. split.
  - intros x Hx Hk. apply list_elem_of_singleton in Hk. subst. contradiction.
  - apply NoDup_singleton.
Qed.

Lemma dict_update_NoDup (b e : pydict) :
  NoDup (map fst b) -> NoDup (map fst (dict_update b e)).
Proof.
  revert b. unfold dict_update.
  induction e as [|[k v] e IH]; intros b H; simpl; [exact H|].
  apply IH. apply dict_set_NoDup. exact H.
Qed.

Lemma dict_update_cons (a : pydict) k v (e : pydict) :
  dict_update a ((k, v) :: e) = dict_update (dict_set k v a) e.
Proof. reflexivity. Qed.

Lemma dict_update_app (a e1 e2 : pydict) :
  dict_update a (e1 ++ e2)%list = dict_update (dict_update a e1) e2.
Proof. unfold dict_update. apply foldl_app. Qed.

Lemma dict_set_update_comm k v (a y : pydict) :
  k ∉ map fst y -> is_Some (dict_get k a) ->
  dict_set k v (dict_update a y) = dict_update (dict_set k v a) y.
Proof.
  revert a. induction y as [|[k1 v1] y IH]; intros a Hnin Hsome; [reflexivity|].
  rewrite !dict_update_cons. simpl in Hnin.
  assert (Hne : k <> k1) by (intros ->; apply Hnin; left).
  rewrite IH.
  - rewrite dict_set_comm by assumption. reflexivity.
  - intros Hin. apply Hnin. right. exact Hin.
  - apply dict_get_set. right. exact Hsome.
Qed.

Lemma dict_update_set k v (a y : pydict) :
  NoDup (map fst y) ->
  dict_update a (dict_set k v y) = dict_set k v (dict_update a y).
Proof.
  revert a. induction y as [|[k0 v0] y IH]; intros a Hnd; [reflexivity|].
  simpl in Hnd. apply NoDup_cons in Hnd as [Hnin Hnd]. simpl.
  destruct (decide (k = k0)) as [->|Hne].
  - rewrite !dict_update_cons.
    rewrite dict_set_update_comm.
    + rewrite dict_set_same. reflexivity.
    + exact Hnin.
    + apply dict_get_set. left. reflexivity.
  - rewrite !dict_update_cons. apply IH. exact Hnd.
Qed.

Lemma dict_update_update (a b e : pydict) :
  NoDup (map fst b) ->
  dict_update a (dict_update b e) = dict_update (dict_update a b) e.
Proof.
  revert b. induction e as [|[k v] e IH]; intros b Hnd; [reflexivity|].
  rewrite !dict_update_cons. rewrite IH by (apply dict_set_NoDup; exact Hnd).
  rewrite dict_update_set by exact Hnd. reflexivity.
Qed.

(** updating with a dict display is updating with its items in turn *)
Lemma dict_update_of_items (a e : pydict) :
  dict_update a (dict_of_items e) = dict_update a e.
Proof.
  unfold dict_of_items. rewrite dict_update_update by constructor.
  reflexivity.
Qed.

Lemma rekey_set f `{!Inj (=) (=) f} k v (d : pydict) :
  rekey f (dict_set k v d) = dict_set (f k) v (rekey f d).
Proof.
  induction d as [|[k0 w] d IH]; simpl; [reflexivity|].
  destruct (decide (k = k0)) as [->|Hne]; simpl.
  - destruct (decide (f k0 = f k0)); [reflexivity|contradiction].
  - destruct (decide (f k = f k0)) as [Heq|_].
    + apply (inj f) in Heq. contradiction.
    + rewrite <- IH. reflexivity.
Qed.

Lemma rekey_update f `{!Inj (=) (=) f} (a e : pydict) :
  rekey f (dict_update a e) = dict_update (rekey f a) (rekey f e).
Proof.
  revert a. induction e as [|[k v] e IH]; intros a; [reflexivity|].
  change (rekey f ((k, v) :: e)) with ((f k, v) :: rekey f e).
  rewrite !dict_update_cons, IH, rekey_set by exact _. reflexivity.
Qed.

(** *** The flattening *)

Lemma append_assoc (a b c : string) : (a ++ b) ++ c = a ++ (b ++ c).
Proof.
  induction a as [|x a IH]; [reflexivity|].
  rewrite !append_cons, IH. reflexivity.
Qed.

Lemma append_inj_r (p a b : string) : p ++ a = p ++ b -> a = b.
Proof.
  induction p as [|x p IH]; [auto|].
  rewrite !append_cons. intros [= H]. auto.
Qed.

#[local] Instance prefix_key_inj key : Inj (=) (=) (prefix_key key).
Proof.
  intros [a|a] [b|b]; simpl; intros H; try discriminate.
  - injection H as H. apply append_inj_r in H. apply append_inj_r in H.
    congruence.
  - exact H.
Qed.

Lemma as_items_app l1 l2 :
  as_items (l1 ++ l2)%list = (as_items l1 ++ as_items l2)%list.
Proof. apply map_app. Qed.

Lemma rekey_as_items key l :
  rekey (prefix_key key) (as_items l)
  = as_items (map (fun kv : string * PyVal => (key ++ "." ++ kv.1, kv.2)) l).
Proof.
  unfold rekey, as_items. rewrite !map_map. reflexivity.
Qed.

(** the leaves under a longer key are the leaves under the shorter one,
    prefixed *)
Lemma leaves_prefix p value :
  forall k,
    leaves (p ++ "." ++ k) value
    = map (fun kv : string * PyVal => (p ++ "." ++ kv.1, kv.2)) (leaves k value).
Proof.
  induction value using PyVal_nested_ind; intros k; try reflexivity.
  - (* list *)
    simpl. generalize O. induction H as [|x xs Hx Hxs IH]; intros num;
      [reflexivity|].
    simpl. rewrite map_app, <- IH. f_equal.
    rewrite <- Hx. f_equal. rewrite append_assoc. reflexivity.
  - (* dict *)
    simpl. induction H as [|[k0 x] d Hx Hd IH]; [reflexivity|].
    simpl. rewrite map_app, <- IH. f_equal.
    simpl in Hx. rewrite <- Hx. f_equal. rewrite append_assoc. reflexivity.
Qed.

Lemma join_keys_items key (inner : list (string * PyVal)) (d : pydict) :
  Forall (fun kv : dkey * PyVal => exists s, kv.1 = KStr s) d ->
  sequence (map (fun kv : dkey * PyVal =>
                   k ← join_keys (KStr key) kv.1; Ok (k, kv.2)) d)
  = Ok (rekey (prefix_key key) d).
Proof.
  induction 1 as [|[k v] d [s Hs] Hd IH]; [reflexivity|].
  simpl in Hs. subst k. cbn [map sequence]. rewrite IH. reflexivity.
Qed.

Lemma dict_set_text_keys k v (d : pydict) :
  (exists s, k = KStr s) ->
  Forall (fun kv : dkey * PyVal => exists s, kv.1 = KStr s) d ->
  Forall (fun kv : dkey * PyVal => exists s, kv.1 = KStr s) (dict_set k v d).
Proof.
  intros Hk. induction 1 as [|[k0 w] d H0 Hd IH]; simpl.
  - constructor; [exact Hk|constructor].
  - destruct (decide (k = k0)); constructor; auto.
Qed.

Lemma dict_update_text_keys (a e : pydict) :
  Forall (fun kv : dkey * PyVal => exists s, kv.1 = KStr s) a ->
  Forall (fun kv : dkey * PyVal => exists s, kv.1 = KStr s) e ->
  Forall (fun kv : dkey * PyVal => exists s, kv.1 = KStr s) (dict_update a e).
Proof.
  intros Ha He. revert a Ha. induction He as [|[k v] e Hk He IH]; intros a Ha;
    [exact Ha|].
  rewrite dict_update_cons. apply IH. apply dict_set_text_keys; assumption.
Qed.

Lemma as_items_text_keys l :
  Forall (fun kv : dkey * PyVal => exists s, kv.1 = KStr s) (as_items l).
Proof.
  induction l as [|[k v] l IH]; constructor; [eexists; reflexivity|exact IH].
Qed.

(** the loop over a dict's items, given what each item contributes *)
Lemma update_each_leaves (d : pydict) :
  Forall (fun kv : dkey * PyVal =>
            forall key, text_keyed kv.2 = true ->
              flatten_entry (KStr key) kv.2
              = Ok (dict_of_items (as_items (leaves key kv.2)))) d ->
  text_keyed (VDict d) = true ->
  forall flat_dict,
    update_each (fun kv : dkey * PyVal => flatten_entry kv.1 kv.2) d flat_dict
    = Ok (dict_update flat_dict (as_items (flat_leaves d))).
Proof.
  induction 1 as [|[k v] d Hv Hd IH]; intros Htext flat_dict; [reflexivity|].
  simpl in Htext. apply andb_prop in Htext as [Hk Htext].
  destruct k as [k|z]; [|discriminate]. simpl in Hv.
  cbn [update_each fst snd]. rewrite (Hv k Hk). simpl.
  rewrite dict_update_of_items, IH by exact Htext.
  rewrite <- dict_update_app, <- as_items_app. reflexivity.
Qed.

(** the loop over a list's items *)
Lemma update_each_indexed_leaves key (xs : list PyVal) :
  Forall (fun x =>
            forall key, text_keyed x = true ->
              flatten_entry (KStr key) x
              = Ok (dict_of_items (as_items (leaves key x)))) xs ->
  forallb text_keyed xs = true ->
  forall num flat_dict,
    update_each_indexed
      (fun num item => flatten_entry (KStr (key ++ "." ++ pretty num)) item)
      num xs flat_dict
    = Ok (dict_update flat_dict
            (as_items (flat_map_indexed
                         (fun num item => leaves (key ++ "." ++ pretty num) item)
                         num xs))).
Proof.
  induction 1 as [|x xs Hx Hxs IH]; intros Htext num flat_dict; [reflexivity|].
  simpl in Htext. apply andb_prop in Htext as [Hx' Htext].
  cbn [update_each_indexed]. rewrite (Hx _ Hx'). simpl.
  rewrite dict_update_of_items, IH by exact Htext.
  rewrite <- dict_update_app, <- as_items_app. reflexivity.
Qed.

(** what one item contributes: its leaves under their compound keys *)
Lemma flatten_entry_leaves (value : PyVal) :
  forall key, text_keyed value = true ->
    flatten_entry (KStr key) value
    = Ok (dict_of_items (as_items (leaves key value))).
Proof.
  induction value using PyVal_nested_ind; intros key Htext; try reflexivity.
  - (* list *)
    cbn [flatten_entry key_str].
    rewrite (update_each_indexed_leaves key xs H Htext). reflexivity.
  - (* dict *)
    cbn [flatten_entry].
    rewrite (update_each_leaves d H Htext). simpl.
    rewrite (join_keys_items key (flat_leaves d)).
    + simpl. f_equal. rewrite rekey_update by exact _.
      rewrite rekey_as_items. simpl.
      match goal with
      | |- dict_of_items (dict_update [] ?X) = _ =>
          change (dict_of_items (dict_update [] X))
            with (dict_update [] (dict_of_items X))
      end.
      rewrite dict_update_of_items. unfold dict_of_items. f_equal. f_equal.
      unfold flat_leaves. clear. induction d as [|[k x] d IH]; [reflexivity|].
      simpl. rewrite map_app, IH. f_equal. symmetry. apply leaves_prefix.
    + apply dict_update_text_keys; [constructor|apply as_items_text_keys].
Qed.

(** [flatten] of a text-keyed tree is the mapping of its leaves under
    their compound keys (where two leaves get the same key, the later
    one stays) *)
Lemma flatten_leaves (d : pydict) :
  text_keyed (VDict d) = true ->
  flatten (VDict d) = Ok (dict_of_items (as_items (flat_leaves d))).
Proof.
  intros Htext. unfold flatten. apply update_each_leaves; [|exact Htext].
  apply Forall_forall. intros kv _. apply flatten_entry_leaves.
Qed.

(** C5, as the code has it.  The fingerprint is the digest of the JSON
    text of the recipe's key/value list, where the object's derived form is
    sanitized with the sanitizer's default options, in which an enumeration
    member is not replaced by its value; and the flattening step maps a
    text-keyed tree to its leaves under their delimiter-joined compound
    keys, sequence indices being path segments. *)
Theorem unsafe_hash_recipe (depth : nat) (rt : Runtime) (self : PyVal) :
  ordered_keys depth rt self = fingerprint_recipe default_options depth rt self /\
  unsafe_hash depth rt self =
    (keys ← fingerprint_recipe default_options depth rt self;
     text ← rt_json_dumps rt (VDict (map (fun kv => (KStr kv.1, kv.2)) keys));
     Ok (rt_sha1 rt text)) /\
  (forall d, text_keyed (VDict d) = true ->
     flatten (VDict d) = Ok (dict_of_items (as_items (flat_leaves d)))).
Proof.
  assert (H : ordered_keys depth rt self
              = fingerprint_recipe default_options depth rt self).
  { unfold ordered_keys, fingerprint_recipe.
    destruct (call_as_dict rt self) as [d|e]; [simpl|reflexivity].
    destruct (jsanitize depth rt default_options d) as [c|e]; [simpl|reflexivity].
    destruct (flatten c) as [f|e]; [simpl|reflexivity].
    destruct (text_keys f) as [items|e]; [simpl|reflexivity].
    rewrite drop_tagged_sorted. reflexivity. }
  split; [exact H|]. split.
  - unfold unsafe_hash. rewrite H. reflexivity.
  - apply flatten_leaves.
Qed.

Lemma unsafe_hash_recipe_witness :
  flatten (VDict nested_example)
  = Ok [(KStr "a.b", VInt 1); (KStr "a.c.0", VInt 5); (KStr "a.c.1.x", VNone);
        (KStr "z", VInt 2)].
Proof.
  apply (proj2 (proj2 (unsafe_hash_recipe 0 bare_runtime painted))
           nested_example).
  reflexivity.
Defined.

(** C5 as stated fails: for an object holding a plain enumeration member,
    the list the code hashes has the member's tagged encoding flattened
    under it, the recipe with [enumAsValue] on has the bare value. *)
Lemma unsafe_hash_keeps_enum_encoding :
  ordered_keys 0 bare_runtime painted = Ok [("color.value", VInt 1)] /\
  fingerprint_recipe enum_as_value 0 bare_runtime painted
  = Ok [("color", VInt 1)].
Proof. split; vm_compute; reflexivity. Qed.

(** ** The decoder *)

Lemma process_decoded_unfold depth rt redirect d :
  process_decoded depth rt redirect d =
  match d with
  | VDict items =>
      process_dict rt redirect items (processed_values depth rt redirect items)
        (nested_decode depth rt redirect)
  | VList xs => VList <$> sequence (map (process_decoded depth rt redirect) xs)
  | _ => Ok d
  end.
Proof. destruct depth; destruct d; reflexivity. Qed.

Lemma dict_get_set_eq (k : dkey) (v : PyVal) (d : pydict) :
  dict_get k (dict_set k v d) = Some v.
Proof.
  induction d as [|[k0 v0] d IH]; simpl.
  - destruct (decide (k = k)); [reflexivity|contradiction].
  - destruct (decide (k = k0)) as [->|Hne]; simpl.
    + destruct (decide (k0 = k0)); [reflexivity|contradiction].
    + destruct (decide (k = k0)); [contradiction|exact IH].
Qed.

Lemma dict_get_set_ne (k k' : dkey) (v : PyVal) (d : pydict) :
  k <> k' -> dict_get k (dict_set k' v d) = dict_get k d.
Proof.
  intros Hne. induction d as [|[k0 v0] d IH]; simpl.
  - destruct (decide (k = k')); [contradiction|reflexivity].
  - destruct (decide (k' = k0)) as [->|Hne']; simpl.
    + destruct (decide (k = k0)); [contradiction|reflexivity].
    + destruct (decide (k = k0)); [reflexivity|exact IH].
Qed.


Lemma non_tag_items_set_tag k v (d : pydict) :
  String.prefix "@" k = true ->
  non_tag_items (dict_set (KStr k) v d) = non_tag_items d.
Proof.
  intros Hk. induction d as [|[k0 v0] d IH]; simpl.
  - rewrite Hk. reflexivity.
  - destruct (decide (KStr k = k0)) as [<-|Hne]; simpl.
    + rewrite Hk. reflexivity.
    + destruct k0; [|reflexivity]. rewrite IH. reflexivity.
Qed.



Lemma dict_has_get (k : dkey) (d : pydict) v :
  dict_get k d = Some v -> dict_has k d = true.
Proof. intros H. unfold dict_has. rewrite H. apply bool_decide_eq_true_2. eauto. Qed.

(** the identity a tagged node is given *)
Lemma read_identity_tagged rt redirect d processed M A :
  dict_get (KStr "@module") d = Some (VStr M) ->
  dict_get (KStr "@class") d = Some (VStr A) ->
  read_identity rt redirect d processed =
  Ok match redirect_get redirect M A with
     | Some r => Named (VStr (new_module r)) (VStr (new_class r))
     | None => Named (VStr M) (VStr A)
     end.
Proof.
  intros HM HA. unfold read_identity, dict_item.
  rewrite (dict_has_get _ _ _ HM), (dict_has_get _ _ _ HA), HM, HA. simpl.
  destruct (redirect_get redirect M A); reflexivity.
Qed.







(** a renamed class reaches the built-in timestamp reconstruction, and the
    entry for [datetime.datetime] itself is not applied on top *)
Example redirect_to_builtin :
  process_decoded 0 demo_runtime stamp_redirect (VDict stamp_node)
  = Ok (mk_datetime (Datetime 2024 1 2 3 4 5 0 None)).
Proof. vm_compute. reflexivity. Qed.

(** without [@class] the first block never names a class *)
Lemma read_identity_untagged rt redirect d processed :
  dict_has (KStr "@class") d = false ->
  (forall redirect',
     read_identity rt redirect d processed = read_identity rt redirect' d processed) /\
  (forall modname classname,
     read_identity rt redirect d processed = Ok (Named modname classname) ->
     classname = VNone).
Proof.
  intros Hcls. unfold read_identity. rewrite Hcls, andb_false_r.
  split; [reflexivity|]. intros modname classname.
  destruct (dict_has (KStr "@module") d && dict_has (KStr "@callable") d);
    [|intros [= <- <-]; reflexivity].
  destruct (dict_item "@module" d) as [mn|e]; simpl; [|discriminate].
  destruct (dict_item "@callable" d) as [on|e]; simpl; [|discriminate].
  match goal with |- context [mbind _ ?x] => destruct x as [start|e] end;
    simpl; [|discriminate].
  destruct (attribute_walk rt start.1 start.2) as [v|e]; simpl.
  - discriminate.
  - unfold try_except. destruct (bool_decide _); [|discriminate].
    intros [= <- <-]. reflexivity.
Qed.

Lemma process_dict_untagged rt redirect redirect' d processed dec dec' :
  dict_has (KStr "@class") d = false ->
  process_dict rt redirect d processed dec
  = process_dict rt redirect' d processed dec'.
Proof.
  intros Hcls. unfold process_dict.
  destruct (read_identity_untagged rt redirect d processed Hcls) as [Hsame Hnone].
  rewrite <- (Hsame redirect').
  destruct (read_identity rt redirect d processed) as [[obj|mn cn]|e] eqn:Hid;
    simpl; try reflexivity.
  rewrite (Hnone mn cn eq_refl). reflexivity.
Qed.

(** C10.  A node with [@module] and [@callable] and no [@class] is decoded
    without the redirect table: two tables under which its entries decode
    alike decode the node alike; and when the node has no owner, the module
    imports and the attribute walk along the qualified name succeeds, the
    result is the object found there, whatever the table says about that
    module. *)
Theorem callable_reference_ignores_redirect (depth : nat) (rt : Runtime)
    (redirect redirect' : redirect_table) (d : pydict) :
  dict_has (KStr "@module") d = true ->
  dict_has (KStr "@callable") d = true ->
  dict_has (KStr "@class") d = false ->
  ((forall k v, In (k, v) d ->
      process_decoded depth rt redirect v = process_decoded depth rt redirect' v) ->
   process_decoded depth rt redirect (VDict d)
   = process_decoded depth rt redirect' (VDict d)) /\
  (forall m q mod_ f,
     dict_get (KStr "@module") d = Some (VStr m) ->
     dict_get (KStr "@callable") d = Some (VStr q) ->
     default VNone (dict_get (KStr "@bound") d) = VNone ->
     rt_import rt m [VStr q] = Ok mod_ ->
     attribute_walk rt mod_ (split_dot q) = Ok f ->
     process_decoded depth rt redirect (VDict d) = Ok f).
Proof.
  intros Hmod Hcall Hcls. split.
  - intros Hkids. rewrite !process_decoded_unfold.
    assert (Hp : processed_values depth rt redirect d
                 = processed_values depth rt redirect' d).
    { unfold processed_values. apply map_ext_in. intros [k v] Hin. simpl.
      rewrite (Hkids k v Hin). reflexivity. }
    rewrite Hp. apply process_dict_untagged. exact Hcls.
  - intros m q mod_ f Hm Hq Hbound Himport Hwalk.
    rewrite process_decoded_unfold. unfold process_dict, read_identity, dict_item.
    rewrite Hcls, Hmod, Hcall, Hm, Hq, Hbound. simpl.
    rewrite Himport. simpl. rewrite Hwalk. reflexivity.
Qed.

Lemma callable_reference_ignores_redirect_witness :
  process_decoded 0 demo_runtime helper_redirect (VDict helper_reference)
  = process_decoded 0 demo_runtime ∅ (VDict helper_reference) /\
  process_decoded 0 demo_runtime helper_redirect (VDict helper_reference)
  = Ok free_function.
Proof.
  pose proof (callable_reference_ignores_redirect 0 demo_runtime helper_redirect
                ∅ helper_reference eq_refl eq_refl eq_refl) as [Hsame Hfound].
  split.
  - apply Hsame. intros k v Hin. simpl in Hin.
    destruct Hin as [[= <- <-]|[[= <- <-]|[[= <- <-]|[]]]]; reflexivity.
  - apply (Hfound "pkg.util" "helper" (VModule "pkg.util") free_function);
      reflexivity.
Defined.

(** for contrast, a node with [@class] does depend on the table *)
Example class_reference_follows_redirect :
  process_decoded 0 demo_runtime stamp_redirect (VDict stamp_node)
  <> process_decoded 0 demo_runtime ∅ (VDict stamp_node).
Proof. vm_compute. discriminate. Qed.

(** When the module of a tagged node imports and has no attribute of the
    class's name, the node comes back as a plain mapping. *)
Lemma missing_class_returns_mapping depth rt redirect d m c mod_ :
  dict_get (KStr "@module") d = Some (VStr m) ->
  dict_get (KStr "@class") d = Some (VStr c) ->
  redirect_get redirect m c = None ->
  c <> "" -> m <> "" ->
  existsb (eq_str (VStr m)) BUILTIN_MODULES = false ->
  (eq_str (VStr m) "datetime" && eq_str (VStr c) "datetime"
   || eq_str (VStr m) "uuid" && eq_str (VStr c) "UUID"
   || eq_str (VStr m) "pathlib" && eq_str (VStr c) "Path") = false ->
  rt_import rt m [VStr c] = Ok mod_ -> rt_getattr rt mod_ c = None ->
  process_decoded depth rt redirect (VDict d)
  = VDict <$> eval_items (processed_values depth rt redirect d).
Proof.
  intros Hm Hc Hred Hc0 Hm0 Hbuiltin Hspecial Himport Hattr.
  rewrite process_decoded_unfold. unfold process_dict.
  rewrite (read_identity_tagged _ _ _ _ m c Hm Hc), Hred. simpl.
  assert (Hct : negb (String.eqb c "") = true).
  { apply negb_true_iff, String.eqb_neq. exact Hc0. }
  assert (Hmt : negb (String.eqb m "") = true).
  { apply negb_true_iff, String.eqb_neq. exact Hm0. }
  rewrite Hct. unfold reconstruct. cbn [truthy]. rewrite Hmt, Hbuiltin.
  apply orb_false_iff in Hspecial as [Hspecial Hpath].
  apply orb_false_iff in Hspecial as [Hdt Huuid].
  rewrite Hdt, Huuid, Hpath. simpl. rewrite Himport. simpl. rewrite Hattr.
  reflexivity.
Qed.

(** The same node when the import itself fails: the failure is raised. *)
Lemma failed_import_raises depth rt redirect d m c e :
  dict_get (KStr "@module") d = Some (VStr m) ->
  dict_get (KStr "@class") d = Some (VStr c) ->
  redirect_get redirect m c = None ->
  c <> "" -> m <> "" ->
  existsb (eq_str (VStr m)) BUILTIN_MODULES = false ->
  (eq_str (VStr m) "datetime" && eq_str (VStr c) "datetime"
   || eq_str (VStr m) "uuid" && eq_str (VStr c) "UUID"
   || eq_str (VStr m) "pathlib" && eq_str (VStr c) "Path") = false ->
  rt_import rt m [VStr c] = Raise e ->
  process_decoded depth rt redirect (VDict d) = Raise e.
Proof.
  intros Hm Hc Hred Hc0 Hm0 Hbuiltin Hspecial Himport.
  rewrite process_decoded_unfold. unfold process_dict.
  rewrite (read_identity_tagged _ _ _ _ m c Hm Hc), Hred. simpl.
  assert (Hct : negb (String.eqb c "") = true).
  { apply negb_true_iff, String.eqb_neq. exact Hc0. }
  assert (Hmt : negb (String.eqb m "") = true).
  { apply negb_true_iff, String.eqb_neq. exact Hm0. }
  rewrite Hct. unfold reconstruct. cbn [truthy]. rewrite Hmt, Hbuiltin.
  apply orb_false_iff in Hspecial as [Hspecial Hpath].
  apply orb_false_iff in Hspecial as [Hdt Huuid].
  rewrite Hdt, Huuid, Hpath. simpl. rewrite Himport. reflexivity.
Qed.

(** C6 at its failing input.  The node names a module that cannot be
    imported; instead of the plain mapping, decoding raises the import
    error.  The sibling case, an importable module without the class, does
    return the mapping. *)
Theorem unresolved_module_raises :
  process_decoded 0 demo_runtime ∅ (VDict unknown_module_node)
  = raise ImportError "No module named no_such_pkg.core" /\
  process_decoded 0 demo_runtime ∅ (VDict unknown_class_node)
  = Ok (VDict unknown_class_node).
Proof. split; vm_compute; reflexivity. Qed.

(** ** Timestamps: printing and parsing *)

(** linear arithmetic with division by constants *)
Ltac divlia := zify; Z.to_euclidean_division_equations; lia.

Lemma digit_of_char d : (d < 10)%N -> digit_of (digit_char d) = Some d.
Proof.
  intros H. unfold digit_of, digit_char.
  rewrite N_ascii_embedding by lia.
  replace ((48 <=? 48 + d)%N) with true by (symmetry; apply N.leb_le; lia).
  replace ((48 + d <=? 57)%N) with true by (symmetry; apply N.leb_le; lia).
  simpl. f_equal. lia.
Qed.

Lemma is_space_digit d : (d < 10)%N -> is_space (digit_char d) = false.
Proof.
  intros H. unfold is_space, digit_char.
  rewrite N_ascii_embedding by lia.
  replace ((48 + d =? 32)%N) with false by (symmetry; apply N.eqb_neq; lia).
  replace ((48 + d <=? 13)%N) with false by (symmetry; apply N.leb_gt; lia).
  replace ((48 + d <=? 31)%N) with false by (symmetry; apply N.leb_gt; lia).
  rewrite !andb_false_r. reflexivity.
Qed.

Lemma pad_2 n :
  pad 2 n = String (digit_char ((n / 10) mod 10))
              (String (digit_char (n mod 10)) "").
Proof.
  unfold pad. change (N.of_nat 1) with 1%N. change (N.of_nat 0) with 0%N.
  rewrite N.pow_1_r, N.pow_0_r, N.div_1_r. reflexivity.
Qed.

Lemma pad_4 n :
  pad 4 n = String (digit_char ((n / 1000) mod 10))
              (String (digit_char ((n / 100) mod 10)) (pad 2 n)).
Proof.
  rewrite pad_2. unfold pad.
  change (N.of_nat 3) with 3%N. change (N.of_nat 2) with 2%N.
  change (N.of_nat 1) with 1%N. change (N.of_nat 0) with 0%N.
  change (10 ^ 3)%N with 1000%N. change (10 ^ 2)%N with 100%N.
  rewrite N.pow_1_r, N.pow_0_r, N.div_1_r. reflexivity.
Qed.

Lemma mod_10_lt n : (n mod 10 < 10)%N.
Proof. apply N.mod_lt. discriminate. Qed.

Lemma p_year_pad y rest :
  (y < 10000)%N -> p_year (pad 4 y ++ rest) = Some (y, rest).
Proof.
  intros Hy. rewrite pad_4, pad_2, !append_cons, append_nil. unfold p_year.
  rewrite !digit_of_char by apply mod_10_lt.
  do 2 f_equal. divlia.
Qed.

Lemma p_field_pad two one n rest :
  (n < 100)%N -> two (n / 10)%N (n mod 10)%N = true ->
  p_field two one (pad 2 n ++ rest) = Some (n, rest).
Proof.
  intros Hn Htwo. rewrite pad_2, !append_cons, append_nil. unfold p_field.
  rewrite !digit_of_char by apply mod_10_lt.
  replace ((n / 10) mod 10)%N with (n / 10)%N by divlia.
  rewrite Htwo. do 2 f_equal. divlia.
Qed.

(** decide a comparison of the digits of a bounded number *)
Ltac digit_cases :=
  repeat match goal with
         | |- context [(?a =? ?b)%N] => destruct (N.eqb_spec a b)
         | |- context [(?a <=? ?b)%N] => destruct (N.leb_spec a b)
         end;
  simpl; try reflexivity; exfalso; divlia.

Lemma p_month_pad m rest :
  (1 <= m <= 12)%N -> p_month (pad 2 m ++ rest) = Some (m, rest).
Proof. intros H. apply p_field_pad; [lia|]. digit_cases. Qed.

Lemma p_day_pad d rest :
  (1 <= d <= 31)%N -> p_day (pad 2 d ++ rest) = Some (d, rest).
Proof.
  intros H. unfold p_day. rewrite p_field_pad; [reflexivity|lia|]. digit_cases.
Qed.

Lemma p_hour_pad h rest :
  (h < 24)%N -> p_hour (pad 2 h ++ rest) = Some (h, rest).
Proof. intros H. apply p_field_pad; [lia|]. digit_cases. Qed.

Lemma p_minute_pad m rest :
  (m < 60)%N -> p_minute (pad 2 m ++ rest) = Some (m, rest).
Proof. intros H. apply p_field_pad; [lia|]. digit_cases. Qed.

Lemma p_second_pad s rest :
  (s < 60)%N -> p_second (pad 2 s ++ rest) = Some (s, rest).
Proof. intros H. apply p_field_pad; [lia|]. digit_cases. Qed.

Lemma spaces1_before_digits n rest :
  spaces1 (String " " (pad 2 n ++ rest)) = Some (tt, pad 2 n ++ rest).
Proof.
  rewrite pad_2, !append_cons, append_nil. unfold spaces1.
  change (is_space " ") with true.
  cbn [skip_spaces]. rewrite is_space_digit by apply mod_10_lt. reflexivity.
Qed.

Lemma lit_here c rest : lit c (String c rest) = Some (tt, rest).
Proof. unfold lit. rewrite Ascii.eqb_refl. reflexivity. Qed.

Lemma days_in_month_le y m : (days_in_month y m <= 31)%N.
Proof.
  unfold days_in_month.
  destruct (m =? 2)%N; [destruct (is_leap y); lia|].
  destruct ((m =? 4) || (m =? 6) || (m =? 9) || (m =? 11))%N; lia.
Qed.

(** what [valid_datetime] says about a naive value, field by field *)
Lemma valid_datetime_bounds y m d H M S us :
  valid_datetime (Datetime y m d H M S us None) = true ->
  (1 <= y <= 9999 /\ 1 <= m <= 12 /\ 1 <= d <= 31 /\
   H < 24 /\ M < 60 /\ S < 60 /\ us < 1000000)%N.
Proof.
  unfold valid_datetime. cbn [year month day hour minute second microsecond
                               tz_minutes].
  rewrite andb_true_r. intros Hv.
  repeat (apply andb_prop in Hv as [Hv ?]).
  repeat match goal with
         | H : (_ <=? _)%N = true |- _ => apply N.leb_le in H
         | H : (_ <? _)%N = true |- _ => apply N.ltb_lt in H
         end.
  pose proof (days_in_month_le y m). lia.
Qed.

Lemma p_date_time_text y m d H M S rest :
  (1 <= y <= 9999 /\ 1 <= m <= 12 /\ 1 <= d <= 31 /\
   H < 24 /\ M < 60 /\ S < 60)%N ->
  p_date_time (date_time_text y m d H M S rest)
  = Some (Datetime y m d H M S 0 None, rest).
Proof.
  intros (Hy & Hm & Hd & HH & HM & HS).
  unfold p_date_time, date_time_text, pbind, pret.
  rewrite p_year_pad by lia. rewrite lit_here.
  rewrite p_month_pad by lia. rewrite lit_here.
  rewrite p_day_pad by lia. rewrite spaces1_before_digits.
  rewrite p_hour_pad by lia. rewrite lit_here.
  rewrite p_minute_pad by lia. rewrite lit_here.
  rewrite p_second_pad by lia. reflexivity.
Qed.

Lemma p_fraction_from_pad w acc n rest :
  p_fraction_from w acc (pad w n ++ rest)
  = ((acc + n mod 10 ^ N.of_nat w)%N, rest).
Proof.
  revert acc. induction w as [|w IH]; intros acc.
  - simpl. rewrite N.mod_1_r, N.add_0_r. reflexivity.
  - cbn [pad]. rewrite append_cons. cbn [p_fraction_from].
    rewrite digit_of_char by apply mod_10_lt. rewrite IH. f_equal.
    rewrite Nat2N.inj_succ, N.pow_succ_r'.
    rewrite (N.mul_comm 10), N.Div0.mod_mul_r. lia.
Qed.

Lemma p_fraction_pad us :
  (us < 1000000)%N -> p_fraction (pad 6 us) = Some (us, "").
Proof.
  intros Hus. unfold p_fraction.
  pose proof (p_fraction_from_pad 6 0 us "") as Hf.
  rewrite append_nil_r in Hf. rewrite Hf.
  change (10 ^ N.of_nat 6)%N with 1000000%N.
  rewrite N.mod_small by exact Hus.
  cbn [pad]. rewrite digit_of_char by apply mod_10_lt. reflexivity.
Qed.

Lemma datetime_str_naive y m d H M S us :
  datetime_str (Datetime y m d H M S us None)
  = date_time_text y m d H M S
      (if (us =? 0)%N then "" else String "." (pad 6 us)).
Proof.
  unfold datetime_str, date_time_text.
  cbn [year month day hour minute second microsecond tz_minutes].
  rewrite append_nil_r. destruct (us =? 0)%N; reflexivity.
Qed.

(** A valid naive timestamp is read back from its text by the two formats
    tried in turn. *)
Lemma strptime_datetime_str (dt : datetime) :
  valid_datetime dt = true -> tz_minutes dt = None ->
  try_except (strptime (datetime_str dt) FMT_FRACTION) [ValueError]
    (strptime (datetime_str dt) FMT_SECONDS) = Ok dt.
Proof.
  destruct dt as [y m d H M S us tz]. cbn [tz_minutes]. intros Hvalid ->.
  pose proof (valid_datetime_bounds _ _ _ _ _ _ _ Hvalid)
    as (Hy & Hm & Hd & HH & HM & HS & Hus).
  rewrite datetime_str_naive. unfold strptime, p_format, pbind, pret.
  rewrite !p_date_time_text by tauto.
  destruct (N.eqb_spec us 0) as [->|Hne].
  - cbn [lit]. rewrite try_except_raise_caught by decide_caught.
    rewrite Hvalid. reflexivity.
  - rewrite lit_here, p_fraction_pad by exact Hus.
    cbn [year month day hour minute second]. rewrite Hvalid. reflexivity.
Qed.

(** ** Decoding tagged nodes *)

(** decoding a node whose tags the table leaves alone *)
Lemma process_decoded_tagged depth rt redirect d m c :
  dict_get (KStr "@module") d = Some (VStr m) ->
  dict_get (KStr "@class") d = Some (VStr c) ->
  redirect_get redirect m c = None ->
  c <> "" ->
  process_decoded depth rt redirect (VDict d) =
  (found ← reconstruct rt d (processed_values depth rt redirect d)
             (nested_decode depth rt redirect) (VStr m) (VStr c);
   match found with
   | Some obj => Ok obj
   | None => VDict <$> eval_items (processed_values depth rt redirect d)
   end).
Proof.
  intros Hm Hc Hred Hne. rewrite process_decoded_unfold. unfold process_dict.
  rewrite (read_identity_tagged _ _ _ _ m c Hm Hc), Hred. simpl.
  replace (String.eqb c "") with false
    by (symmetry; apply String.eqb_neq; exact Hne).
  reflexivity.
Qed.

Lemma reconstruct_datetime rt d p dec :
  reconstruct rt d p dec (VStr "datetime") (VStr "datetime")
  = (dt ← decode_datetime rt d; Ok (Some (mk_datetime dt))).
Proof. reflexivity. Qed.

Lemma reconstruct_pandas rt d p dec c :
  rt_pandas_imported rt = true ->
  reconstruct rt d p dec (VStr "pandas") (VStr c)
  = (if eq_str (VStr c) "DataFrame" then
       data ← dict_item "data" d;
       match data with
       | VStr s => decoded_data ← dec s; Some <$> rt_dataframe rt decoded_data
       | _ => raise TypeError "the JSON object must be str"
       end
     else if eq_str (VStr c) "Series" then
       data ← dict_item "data" d;
       match data with
       | VStr s => decoded_data ← dec s; Some <$> rt_series rt decoded_data
       | _ => raise TypeError "the JSON object must be str"
       end
     else Ok None).
Proof.
  intros Hpd. unfold reconstruct.
  change (truthy (VStr "pandas")
          && negb (existsb (eq_str (VStr "pandas")) BUILTIN_MODULES)) with false.
  change (eq_str (VStr "pandas") "torch") with false.
  change (eq_str (VStr "pandas") "numpy") with false.
  change (eq_str (VStr "pandas") "pandas") with true.
  rewrite Hpd. destruct (torch_imported rt), (np_imported rt); reflexivity.
Qed.

(** ** Round trips of the built-in types *)

(** the concrete scenario of the specification: a float64 array *)
Example float_vector_encoding :
  MontyEncoder.default library_runtime float_vector
  = Ok (VDict [(KStr "@module", VStr "numpy"); (KStr "@class", VStr "array");
               (KStr "dtype", VStr "float64");
               (KStr "data", VList [VFloat (fl "1.5"); VFloat (fl "2.5")])]).
Proof. reflexivity. Qed.

(** that array, a complex matrix, a unique id, a path and an opaque id,
    run through the codec with the stand-in library *)
Example library_values_roundtrip :
  roundtrip 0 library_runtime ∅ float_vector = Ok float_vector /\
  roundtrip 0 library_runtime ∅ complex_matrix = Ok complex_matrix /\
  roundtrip 0 library_runtime ∅ (mk_uuid "12345678-1234-5678-1234-567812345678")
  = Ok (mk_uuid "12345678-1234-5678-1234-567812345678") /\
  roundtrip 0 library_runtime ∅ (mk_path "/tmp/data.json")
  = Ok (mk_path "/tmp/data.json") /\
  roundtrip 0 library_runtime ∅ (mk_objectid "507f1f77bcf86cd799439011")
  = Ok (mk_objectid "507f1f77bcf86cd799439011").
Proof. repeat split; vm_compute; reflexivity. Qed.

(** a complex array of dimension zero is written as a pair of two numbers,
    which the decoder cannot iterate over *)
Example complex_scalar_array_does_not_roundtrip :
  roundtrip 0 library_runtime ∅ complex_scalar_array
  = raise TypeError "object is not iterable".
Proof. vm_compute. reflexivity. Qed.

(** a payload that is a text or a mapping is iterated as any iterable is:
    the empty text gives an empty array *)
Example real_imag_pairs_of_iterables :
  real_imag_pairs (VStr "") = Ok [] /\
  rows_of (VStr "ab") = Ok [VStr "a"; VStr "b"] /\
  rows_of (VDict [(KStr "re", VInt 1); (KStr "im", VInt 2)])
  = Ok [VStr "re"; VStr "im"].
Proof. repeat split. Qed.

(** C1 at its failing input.  [datetime(2024, 1, 2, 3, 4, 5,
    tzinfo=timezone.utc)] is a valid instance of the timestamp type; the
    encoder writes [str(o)] for it, which ends with the UTC offset; the
    decoder tries its two formats, neither of which reads an offset, and
    raises.  The same timestamp without the time zone comes back. *)
Theorem aware_timestamp_does_not_roundtrip :
  valid_datetime aware_stamp = true /\
  MontyEncoder.default bare_runtime (mk_datetime aware_stamp)
  = Ok (tagged "datetime" "datetime"
          [(KStr "string", VStr "2024-01-02 03:04:05+00:00")]) /\
  roundtrip 0 bare_runtime ∅ (mk_datetime aware_stamp)
  = raise ValueError "unconverted data remains: +00:00" /\
  roundtrip 0 bare_runtime ∅ (mk_datetime plain_stamp)
  = Ok (mk_datetime plain_stamp).
Proof. repeat split; vm_compute; reflexivity. Qed.

(** * Further properties of the module *)

(** ** More on the redirect loader *)

Lemma split_dot_nonempty s : split_dot s <> [].
Proof.
  destruct s as [|c s]; simpl; [discriminate|].
  destruct (Ascii.eqb c dot); [discriminate|].
  destruct (split_dot s); discriminate.
Qed.

Lemma split_dot_app a b :
  split_dot (a ++ String dot b) = (split_dot a ++ split_dot b)%list.
Proof.
  induction a as [|c a IH].
  - rewrite append_nil. reflexivity.
  - rewrite append_cons. simpl. rewrite IH.
    destruct (Ascii.eqb c dot); [reflexivity|].
    pose proof (split_dot_nonempty a) as Hne.
    destruct (split_dot a) as [|w ws]; [congruence|]. reflexivity.
Qed.

Lemma split_dot_plain c : contains "." c = false -> split_dot c = [c].
Proof.
  induction c as [|x c IH]; [reflexivity|].
  intros H. simpl in H. apply orb_false_iff in H as [Hx Hc].
  simpl. destruct (Ascii.eqb_spec x dot) as [->|Hne].
  - simpl in Hx. destruct c; discriminate.
  - rewrite (IH Hc). reflexivity.
Qed.

Lemma join_split_dot s : join_dot (split_dot s) = s.
Proof.
  induction s as [|c s IH]; [reflexivity|].
  simpl. destruct (Ascii.eqb_spec c dot) as [->|Hne].
  - pose proof (split_dot_nonempty s) as Hne.
    change (join_dot ("" :: split_dot s)) with
      (match split_dot s with [] => "" | _ :: _ => "" ++ String dot (join_dot (split_dot s)) end).
    destruct (split_dot s) eqn:E; [congruence|]. rewrite IH. reflexivity.
  - pose proof (split_dot_nonempty s) as Hne'.
    destruct (split_dot s) as [|w ws] eqn:E; [congruence|].
    rewrite <- IH. destruct ws; reflexivity.
Qed.

(** X1.  The loader splits a dotted path at its last dot: for a class name
    [c] without a dot, the path [m.c] has module part [m] and class part
    [c], and the bare path [c] has the empty module part. *)
Theorem dotted_path_parts (m c : string) :
  contains "." c = false ->
  module_part (m ++ "." ++ c) = m /\ class_part (m ++ "." ++ c) = c /\
  module_part c = "" /\ class_part c = c.
Proof.
  intros Hc. unfold module_part, class_part, last_part, init_parts.
  change ("." ++ c) with (String dot c).
  rewrite split_dot_app, (split_dot_plain c Hc).
  rewrite List.last_last, List.removelast_last, join_split_dot. auto.
Qed.

Lemma dotted_path_parts_witness :
  module_part ("pkg.mod" ++ "." ++ "Foo") = "pkg.mod" /\
  class_part ("pkg.mod" ++ "." ++ "Foo") = "Foo" /\
  module_part "Foo" = "" /\ class_part "Foo" = "Foo".
Proof. apply dotted_path_parts. reflexivity. Defined.

Lemma redirect_get_set t m' c' e m c :
  redirect_get (redirect_set t m' c' e) m c
  = if decide (m' = m /\ c' = c) then Some e else redirect_get t m c.
Proof.
  unfold redirect_get, redirect_set.
  destruct (decide (m' = m)) as [->|Hm].
  - rewrite lookup_insert. rewrite decide_True by done. simpl.
    destruct (decide (c' = c)) as [->|Hc].
    + rewrite lookup_insert. rewrite decide_True by done.
      rewrite decide_True by done. reflexivity.
    + rewrite lookup_insert_ne by done.
      rewrite decide_False by tauto. reflexivity.
  - rewrite lookup_insert_ne by done.
    rewrite decide_False by tauto. reflexivity.
Qed.

Lemma redirect_get_step t old new m c :
  redirect_get (redirect_step t (old, new)) m c
  = if decide (module_part old = m /\ class_part old = c)
    then Some (Redirect (module_part new) (class_part new))
    else redirect_get t m c.
Proof. apply redirect_get_set. Qed.

Lemma redirect_get_foldl_absent d t m c :
  Forall (fun kv : string * string =>
            ~ (module_part kv.1 = m /\ class_part kv.1 = c)) d ->
  redirect_get (foldl redirect_step t d) m c = redirect_get t m c.
Proof.
  revert t. induction d as [|[old new] d IH]; intros t H; [reflexivity|].
  inversion H as [|? ? Hx Hd]; subst. cbn [foldl].
  rewrite IH by assumption. rewrite redirect_get_step.
  rewrite decide_False by assumption. reflexivity.
Qed.

Lemma load_redirect_mapping env path text d :
  open_read env path = Ok text -> yaml_imported env = true ->
  yaml_load env text = Ok (YMapping d) ->
  _load_redirect env path = Ok (foldl redirect_step ∅ d).
Proof.
  intros Ho Hy Hl. unfold _load_redirect, read_redirect_file.
  rewrite Ho. simpl. rewrite Hy, Hl. reflexivity.
Qed.

(** X2.  When the redirect file opens and parses to a mapping, the loader
    succeeds, and the table holds exactly the file's entries: looking up
    the module and class parts of an old path gives those of its new path
    (of the last entry, if several share these parts), and a pair that no
    old path has is absent. *)
Theorem load_redirect_lookup (env : LoaderEnv) (path text : string)
    (d : list (string * string)) :
  open_read env path = Ok text -> yaml_imported env = true ->
  yaml_load env text = Ok (YMapping d) ->
  exists t, _load_redirect env path = Ok t /\
    (forall before old new after, d = (before ++ (old, new) :: after)%list ->
       Forall (fun kv : string * string =>
                 ~ (module_part kv.1 = module_part old /\
                    class_part kv.1 = class_part old)) after ->
       redirect_get t (module_part old) (class_part old)
       = Some (Redirect (module_part new) (class_part new))) /\
    (forall m c,
       Forall (fun kv : string * string =>
                 ~ (module_part kv.1 = m /\ class_part kv.1 = c)) d ->
       redirect_get t m c = None).
Proof.
  intros Ho Hy Hl. exists (foldl redirect_step ∅ d).
  split; [eapply load_redirect_mapping; eassumption|]. split.
  - intros before old new after -> Hafter.
    rewrite foldl_app. cbn [foldl].
    rewrite redirect_get_foldl_absent by assumption.
    rewrite redirect_get_step. rewrite decide_True by done. reflexivity.
  - intros m c H. rewrite redirect_get_foldl_absent by assumption.
    unfold redirect_get. rewrite lookup_empty. reflexivity.
Qed.

Lemma load_redirect_lookup_witness :
  exists t, _load_redirect two_entry_env "/home/u/.monty.yaml" = Ok t /\
    redirect_get t "old" "Stamp" = Some (Redirect "datetime" "datetime") /\
    redirect_get t "pkg.mod" "Foo" = None.
Proof.
  destruct (load_redirect_lookup two_entry_env "/home/u/.monty.yaml"
              "{old.Stamp: datetime.datetime, legacy.Foo: pkg.mod.Foo}"
              [("old.Stamp", "datetime.datetime"); ("legacy.Foo", "pkg.mod.Foo")]
              eq_refl eq_refl eq_refl) as (t & Ht & Hin & Hout).
  exists t. split; [exact Ht|]. split.
  - apply (Hin [] "old.Stamp" "datetime.datetime"
             [("legacy.Foo", "pkg.mod.Foo")]); [reflexivity|].
    repeat constructor. intros [H _]. discriminate H.
  - apply Hout. repeat constructor; intros [H _]; discriminate H.
Defined.

(** ** More on [MSONable.as_dict] *)

Lemma dict_set_prefix k v (d : pydict) :
  map fst d `prefix_of` map fst (dict_set k v d).
Proof.
  rewrite dict_set_keys. destruct (decide (k ∈ map fst d)); [done|].
  apply prefix_app_r. done.
Qed.

Lemma dict_update_prefix (d e : pydict) :
  map fst d `prefix_of` map fst (dict_update d e).
Proof.
  revert d. induction e as [|[k v] e IH]; intros d; [done|].
  rewrite dict_update_cons. etrans; [apply dict_set_prefix|apply IH].
Qed.

Lemma derive_args_prefix derived params d d' :
  derive_args derived params d = Ok d' -> map fst d `prefix_of` map fst d'.
Proof.
  revert d. induction params as [|c params IH]; intros d; simpl.
  - intros [= ->]. done.
  - destruct (String.eqb c "self"); [apply IH|].
    destruct (assoc c derived) as [[v|e]|].
    + simpl. intros H. etrans; [apply dict_set_prefix|apply (IH _ H)].
    + discriminate.
    + destruct (assoc ("_" ++ c) derived) as [[v|e]|]; try discriminate.
      simpl. intros H. etrans; [apply dict_set_prefix|apply (IH _ H)].
Qed.

Lemma update_from_bag_prefix attrs name d d' :
  update_from_bag attrs name d = Ok d' -> map fst d `prefix_of` map fst d'.
Proof.
  unfold update_from_bag. destruct (assoc name attrs) as [v|].
  - destruct v; try discriminate.
    destruct (keyword_items items); [|discriminate].
    intros [= <-]. apply dict_update_prefix.
  - intros [= ->]. done.
Qed.

Lemma as_dict_body_tags rt ty attrs derived v :
  as_dict_body rt ty attrs derived = Ok v ->
  exists d, v = VDict d /\ TAG_KEYS `prefix_of` map fst d.
Proof.
  unfold as_dict_body.
  destruct (version_tag rt (ty_module ty)) as [version|]; [simpl|discriminate].
  destruct (derive_args _ _ _) as [d1|] eqn:E1; [simpl|discriminate].
  apply derive_args_prefix in E1. simpl in E1.
  destruct (update_from_bag attrs "kwargs" d1) as [d2|] eqn:E2; [simpl|discriminate].
  apply update_from_bag_prefix in E2.
  set (d3 := match ty_init_varargs ty with Some _ => _ | None => _ end).
  assert (E3 : map fst d2 `prefix_of` map fst d3).
  { subst d3. destruct (ty_init_varargs ty) as [va|]; [|done].
    destruct (assoc va attrs) as [w|]; [|done].
    destruct (is_none w); [done|apply dict_set_prefix]. }
  destruct (update_from_bag attrs "_kwargs" d3) as [d4|] eqn:E4; [simpl|discriminate].
  apply update_from_bag_prefix in E4.
  assert (H4 : TAG_KEYS `prefix_of` map fst d4).
  { etrans; [exact E1|]. etrans; [exact E2|]. etrans; [exact E3|exact E4]. }
  destruct (bool_decide (ENUM ∈ ty_mro ty)).
  - destruct (assoc "value" attrs) as [w|]; [simpl|discriminate].
    intros [= <-]. eexists. split; [reflexivity|].
    etrans; [exact H4|apply dict_set_prefix].
  - simpl. intros [= <-]. eauto.
Qed.

(** X4.  Whatever [MSONable.as_dict] returns is a mapping whose first
    three keys are ["@module"], ["@class"] and ["@version"], in this order. *)
Theorem as_dict_starts_with_tags (rt : Runtime) (self v : PyVal) :
  as_dict rt self = Ok v ->
  exists d, v = VDict d /\ TAG_KEYS `prefix_of` map fst d.
Proof.
  destruct self; try discriminate. apply as_dict_body_tags.
Qed.

Lemma as_dict_starts_with_tags_witness :
  exists d,
    VDict [(KStr "@module", VStr "pkg.mod"); (KStr "@class", VStr "Foo");
           (KStr "@version", VNone); (KStr "zeta", VInt 1);
           (KStr "b", VList [VInt 2; VInt 3])] = VDict d /\
    TAG_KEYS `prefix_of` map fst d.
Proof.
  apply (as_dict_starts_with_tags bare_runtime foo_complete). reflexivity.
Defined.

Lemma derive_args_fields derived params d (fields : list (string * PyVal)) :
  List.filter (fun c => negb (String.eqb c "self")) params = map fst fields ->
  Forall (fun cv : string * PyVal =>
            attribute_or_private derived cv.1 = Some (Ok cv.2)) fields ->
  derive_args derived params d = Ok (dict_update d (as_items fields)).
Proof.
  revert d fields. induction params as [|c params IH]; intros d fields; simpl.
  - destruct fields; [reflexivity|discriminate].
  - destruct (String.eqb c "self"); simpl; [apply IH|].
    destruct fields as [|[c' w] fields]; [discriminate|].
    intros [= <- Hf] Hall. inversion Hall as [|? ? Hx Hrest]; subst.
    unfold attribute_or_private in Hx. simpl in Hx.
    change (as_items ((c, w) :: fields)) with ((KStr c, w) :: as_items fields).
    rewrite dict_update_cons.
    destruct (assoc c derived) as [a|].
    + injection Hx as ->. simpl. apply IH; assumption.
    + rewrite Hx. simpl. apply IH; assumption.
Qed.

Lemma attribute_or_private_map {A B} (f : A -> B) attrs c :
  attribute_or_private (map (fun kv : string * A => (kv.1, f kv.2)) attrs) c
  = f <$> attribute_or_private attrs c.
Proof.
  unfold attribute_or_private. rewrite !assoc_map.
  destruct (assoc c attrs); reflexivity.
Qed.

(** X5.  For an object that keeps every constructor argument as an
    attribute, under its name or under its name with a leading underscore
    (the former is taken when both exist), and has no [kwargs] or
    [_kwargs] bag, no [*args] and is no enumeration member, [as_dict]
    returns the three tags followed by one entry per argument, in the
    order of the signature, holding [recursive_as_dict] of the attribute. *)
Theorem as_dict_derived_form (rt : Runtime) (ty : PyType) (text : string)
    (attrs : list (string * PyVal)) (methods : list (string * result PyVal))
    (version : PyVal) (fields : list (string * PyVal)) :
  version_tag rt (ty_module ty) = Ok version ->
  List.filter (fun c => negb (String.eqb c "self"))
    (ty_init_args ty ++ ty_init_kwonly ty) = map fst fields ->
  Forall (fun cv : string * PyVal =>
            exists a, attribute_or_private attrs cv.1 = Some a /\
                      recursive_as_dict rt a = Ok cv.2) fields ->
  assoc "kwargs" attrs = None -> assoc "_kwargs" attrs = None ->
  ty_init_varargs ty = None -> ENUM ∉ ty_mro ty ->
  as_dict rt (VObj ty text attrs methods)
  = Ok (VDict (dict_update
                 [(KStr "@module", VStr (ty_module ty));
                  (KStr "@class", VStr (ty_name ty));
                  (KStr "@version", version)]
                 (as_items fields))).
Proof.
  intros Hv Hp Hf Hk Hk' Hva He. unfold as_dict, as_dict_body.
  rewrite Hv. simpl.
  rewrite (derive_args_fields _ _ _ fields); [simpl|exact Hp|].
  - unfold update_from_bag. rewrite Hk, Hk', Hva. simpl.
    rewrite bool_decide_eq_false_2 by assumption. reflexivity.
  - eapply Forall_impl; [exact Hf|]. intros [c w] (a & Ha & Hr). simpl in *.
    rewrite attribute_or_private_map, Ha. simpl. rewrite Hr. reflexivity.
Qed.

Lemma as_dict_derived_form_witness :
  as_dict bare_runtime foo_complete
  = Ok (VDict [(KStr "@module", VStr "pkg.mod"); (KStr "@class", VStr "Foo");
               (KStr "@version", VNone); (KStr "zeta", VInt 1);
               (KStr "b", VList [VInt 2; VInt 3])]).
Proof.
  refine (as_dict_derived_form bare_runtime
            (plain_type "pkg.mod" "Foo" [MSONABLE] ["self"; "zeta"; "b"]) "<Foo>"
            [("_zeta", VInt 1); ("b", VTuple [VInt 2; VInt 3])] [] VNone
            [("zeta", VInt 1); ("b", VList [VInt 2; VInt 3])] _ _ _ _ _ _ _).
  - reflexivity.
  - reflexivity.
  - repeat constructor.
    + exists (VInt 1). split; reflexivity.
    + exists (VTuple [VInt 2; VInt 3]). split; reflexivity.
  - reflexivity.
  - reflexivity.
  - reflexivity.
  - vm_compute. intros H. repeat (apply elem_of_cons in H as [H|H]; [discriminate|]).
    inversion H.
Defined.

(** X6.  On primitives and containers of them (no instance of a class, no
    class object and no module inside), the helper [recursive_as_dict] of
    [as_dict] succeeds and only turns every tuple into a list, at any
    depth. *)
Theorem recursive_as_dict_listifies (rt : Runtime) (v : PyVal) :
  object_free v = true -> recursive_as_dict rt v = Ok (listified v).
Proof.
  induction v as [| | | | | | |xs IH|xs IH|d IH| | |] using PyVal_nested_ind;
    intros Hs; try discriminate Hs; try reflexivity.
  - simpl in *. rewrite (sequence_ok_map _ listified); [reflexivity|].
    rewrite forallb_forall in Hs. rewrite Forall_forall in *.
    intros x Hx. apply IH; [assumption|]. apply Hs, list_elem_of_In, Hx.
  - simpl in *. rewrite (sequence_ok_map _ listified); [reflexivity|].
    rewrite forallb_forall in Hs. rewrite Forall_forall in *.
    intros x Hx. apply IH; [assumption|]. apply Hs, list_elem_of_In, Hx.
  - simpl in *.
    rewrite (sequence_ok_map _ (fun kv : dkey * PyVal => (kv.1, listified kv.2)));
      [reflexivity|].
    rewrite forallb_forall in Hs. rewrite Forall_forall in *.
    intros [k x] Hx. pose proof (IH _ Hx) as E. simpl in E |- *.
    rewrite E; [reflexivity|]. apply (Hs (k, x)), list_elem_of_In, Hx.
Qed.

(** a class object is not a primitive: the class [Foo] has [as_dict], which
    is then called without an instance, and the dataclass [Point] is
    refused by [dataclasses.asdict] *)
Example recursive_as_dict_class_object :
  recursive_as_dict package_runtime (VClass "pkg.mod" "Foo")
  = raise TypeError "as_dict() missing 1 required positional argument: 'self'" /\
  recursive_as_dict package_runtime (VClass "pkg.mod" "Point")
  = raise TypeError "asdict() should be called on dataclass instances".
Proof. split; reflexivity. Qed.

Lemma recursive_as_dict_listifies_witness :
  recursive_as_dict bare_runtime
    (VDict [(KStr "size", VTuple [VInt 2; VTuple [VInt 3; VNone]])])
  = Ok (VDict [(KStr "size", VList [VInt 2; VList [VInt 3; VNone]])]).
Proof. apply recursive_as_dict_listifies. reflexivity. Defined.

(** ** Plain data in the decoder *)

Lemma eval_items_ok {K} (d : list (K * PyVal)) :
  eval_items (map (fun kv : K * PyVal => (kv.1, Ok kv.2)) d) = Ok d.
Proof.
  unfold eval_items. induction d as [|[k v] d IH]; [reflexivity|].
  simpl in *. rewrite IH. reflexivity.
Qed.

Lemma process_dict_plain rt redirect d processed dec :
  is_tagged d = false ->
  process_dict rt redirect d processed dec = VDict <$> eval_items processed.
Proof.
  intros H. unfold process_dict, read_identity. unfold is_tagged in H.
  destruct (dict_has (KStr "@module") d); simpl in *.
  - apply orb_false_iff in H as [-> ->]. reflexivity.
  - reflexivity.
Qed.

Lemma process_decoded_untagged (depth : nat) (rt : Runtime)
    (redirect : redirect_table) (v : PyVal) :
  untagged v = true -> process_decoded depth rt redirect v = Ok v.
Proof.
  induction v as [| | | | | | |xs IH|xs IH|d IH| | |] using PyVal_nested_ind;
    intros Hu; rewrite process_decoded_unfold; try reflexivity.
  - simpl in Hu. rewrite (sequence_ok_map _ id).
    + simpl. rewrite map_id. reflexivity.
    + apply Forall_forall. intros x Hx.
      rewrite Forall_forall in IH. apply IH; [assumption|].
      rewrite forallb_forall in Hu. apply Hu. apply list_elem_of_In. assumption.
  - simpl in Hu. apply andb_true_iff in Hu as [Ht Hd].
    apply negb_true_iff in Ht.
    rewrite process_dict_plain by assumption.
    replace (processed_values depth rt redirect d)
      with (map (fun kv : dkey * PyVal => (kv.1, Ok kv.2)) d).
    + rewrite eval_items_ok. reflexivity.
    + unfold processed_values. apply map_ext_Forall.
      apply Forall_forall. intros [k x] Hx.
      rewrite Forall_forall in IH. simpl. f_equal. symmetry.
      apply (IH (k, x)); [assumption|].
      rewrite forallb_forall in Hd. apply (Hd (k, x)).
      apply list_elem_of_In. assumption.
Qed.



(** ** [MSONable.from_dict] *)

Lemma decoded_fields_set_tag k (r : result PyVal)
    (items : list (dkey * PyVal)) (f : PyVal -> result PyVal) v :
  String.prefix "@" k = true ->
  decoded_fields (map (fun kv : dkey * PyVal => (kv.1, f kv.2))
                    (dict_set (KStr k) v items))
  = decoded_fields (map (fun kv : dkey * PyVal => (kv.1, f kv.2)) items).
Proof.
  intros Hk. induction items as [|[k' w] items IH]; simpl.
  - rewrite Hk. reflexivity.
  - destruct (decide (KStr k = k')) as [<-|Hne]; simpl.
    + rewrite Hk. reflexivity.
    + destruct k' as [s|z]; [|reflexivity].
      rewrite IH. reflexivity.
Qed.

(** X8.  [MSONable.from_dict] does not look at entries whose key starts
    with ["@"]: adding one, or changing its value, changes nothing; in
    particular the class recorded in the mapping is never compared with
    the class [from_dict] is called on. *)
Theorem from_dict_ignores_tags (depth : nat) (rt : Runtime)
    (redirect : redirect_table) (cls : ClassInfo) (d : pydict)
    (k : string) (v : PyVal) :
  String.prefix "@" k = true ->
  from_dict depth rt redirect cls (VDict (dict_set (KStr k) v d))
  = from_dict depth rt redirect cls (VDict d).
Proof.
  intros Hk. unfold from_dict, processed_values.
  rewrite (decoded_fields_set_tag k (Ok v)) by assumption. reflexivity.
Qed.

Lemma from_dict_ignores_tags_witness :
  from_dict 0 package_runtime ∅ foo_class
    (VDict (dict_set (KStr "@class") (VStr "Elsewhere")
              [(KStr "@class", VStr "Foo"); (KStr "zeta", VInt 1)]))
  = from_dict 0 package_runtime ∅ foo_class
      (VDict [(KStr "@class", VStr "Foo"); (KStr "zeta", VInt 1)]).
Proof. apply from_dict_ignores_tags. reflexivity. Defined.

Lemma decoded_fields_plain depth rt redirect (d data : pydict) :
  non_tag_items d = Ok data ->
  Forall (fun kv : dkey * PyVal => untagged kv.2 = true) data ->
  decoded_fields (processed_values depth rt redirect d) = Ok data.
Proof.
  revert data. induction d as [|[k v] d IH]; intros data; simpl.
  - intros [= <-] _. reflexivity.
  - destruct k as [s|z]; [|discriminate].
    destruct (non_tag_items d) as [rest|] eqn:E; [simpl|discriminate].
    destruct (String.prefix "@" s).
    + intros [= <-] H. apply IH; [reflexivity|assumption].
    + intros [= <-] H. inversion H as [|? ? Hv Hrest]; subst. simpl in Hv.
      rewrite process_decoded_untagged by assumption. simpl.
      rewrite (IH rest) by (reflexivity || assumption). reflexivity.
Qed.

(** X9.  When the entries of the mapping whose keys do not start with
    ["@"] hold values without tagged nodes, [from_dict] calls the class
    with exactly these entries as keyword arguments. *)
Theorem from_dict_plain_fields (depth : nat) (rt : Runtime)
    (redirect : redirect_table) (cls : ClassInfo) (d data : pydict) :
  non_tag_items d = Ok data ->
  Forall (fun kv : dkey * PyVal => untagged kv.2 = true) data ->
  from_dict depth rt redirect cls (VDict d) = ci_construct cls data.
Proof.
  intros Hd Hu. unfold from_dict.
  rewrite (decoded_fields_plain _ _ _ d data) by assumption. reflexivity.
Qed.

Lemma from_dict_plain_fields_witness :
  from_dict 0 package_runtime ∅ foo_class
    (VDict [(KStr "@module", VStr "pkg.mod"); (KStr "@class", VStr "Foo");
            (KStr "zeta", VInt 1); (KStr "b", VList [VInt 2; VInt 3])])
  = Ok foo_stored.
Proof.
  refine (from_dict_plain_fields 0 package_runtime ∅ foo_class _
            [(KStr "zeta", VInt 1); (KStr "b", VList [VInt 2; VInt 3])] _ _).
  - reflexivity.
  - repeat constructor.
Defined.

Lemma non_tag_items_map_ok {A} (f : PyVal -> A) (d data : pydict) :
  non_tag_items d = Ok data ->
  non_tag_items (map (fun kv : dkey * PyVal => (kv.1, f kv.2)) d)
  = Ok (map (fun kv : dkey * PyVal => (kv.1, f kv.2)) data).
Proof.
  revert data. induction d as [|[k v] d IH]; intros data; simpl.
  - intros [= <-]. reflexivity.
  - destruct k as [s|z]; [|discriminate].
    destruct (non_tag_items d) as [rest|]; [simpl|discriminate].
    rewrite (IH rest eq_refl). simpl.
    destruct (String.prefix "@" s); intros [= <-]; reflexivity.
Qed.

Lemma decoded_fields_eval (f : PyVal -> result PyVal) (d data : pydict) :
  non_tag_items d = Ok data ->
  decoded_fields (map (fun kv : dkey * PyVal => (kv.1, f kv.2)) d)
  = eval_items (map (fun kv : dkey * PyVal => (kv.1, f kv.2)) data).
Proof.
  revert data. induction d as [|[k v] d IH]; intros data; simpl.
  - intros [= <-]. reflexivity.
  - destruct k as [s|z]; [|discriminate].
    destruct (non_tag_items d) as [rest|]; [simpl|discriminate].
    rewrite (IH rest eq_refl).
    destruct (String.prefix "@" s); intros [= <-]; [reflexivity|].
    unfold eval_items. simpl. destruct (f v); reflexivity.
Qed.

Lemma construct_from_dict depth rt redirect cls_ (d data : pydict) :
  ci_from_dict (rt_class rt cls_) = MSONableFromDict ->
  non_tag_items d = Ok data ->
  construct rt cls_ d (processed_values depth rt redirect d)
  = Some <$> from_dict depth rt redirect (rt_class rt cls_) (VDict data).
Proof.
  intros Hk Hd. unfold construct, from_dict. rewrite Hd, Hk. simpl.
  unfold processed_values.
  rewrite (non_tag_items_map_ok _ d data) by assumption. simpl.
  assert (Hdata : non_tag_items data = Ok data).
  { clear -Hd. revert data Hd. induction d as [|[k v] d IH]; intros data; simpl.
    - intros [= <-]. reflexivity.
    - destruct k as [s|z]; [|discriminate].
      destruct (non_tag_items d) as [rest|]; [simpl|discriminate].
      destruct (String.prefix "@" s) eqn:Es; intros [= <-]; [auto|].
      simpl. rewrite (IH rest eq_refl). simpl. rewrite Es. reflexivity. }
  rewrite (decoded_fields_eval _ data data) by assumption.
  destruct (eval_items _); reflexivity.
Qed.

(** ** Round trips through the classes of a package *)

Lemma add_tags_present rt o d :
  dict_has (KStr "@module") d = true -> dict_has (KStr "@class") d = true ->
  dict_has (KStr "@version") d = true ->
  add_tags rt o (VDict d) = Ok (VDict d).
Proof. intros Hm Hc Hv. unfold add_tags. rewrite Hm, Hc, Hv. reflexivity. Qed.

Lemma reconstruct_imported rt d processed dec m c mod_ cls_ :
  m <> "" -> m ∉ SPECIAL_MODULES ->
  rt_import rt m [VStr c] = Ok mod_ -> rt_getattr rt mod_ c = Some cls_ ->
  reconstruct rt d processed dec (VStr m) (VStr c)
  = construct rt cls_ d processed.
Proof.
  intros Hm Hs Hi Hg. unfold reconstruct.
  assert (Hne : forall s, s ∈ SPECIAL_MODULES -> String.eqb m s = false).
  { intros s Hin. apply String.eqb_neq. intros ->. contradiction. }
  assert (Ht : truthy (VStr m) = true).
  { simpl. apply negb_true_iff, String.eqb_neq. assumption. }
  rewrite Ht. unfold BUILTIN_MODULES, eq_str. cbn [existsb].
  rewrite !Hne by (unfold SPECIAL_MODULES; set_solver). simpl.
  rewrite Hi. simpl. rewrite Hg. reflexivity.
Qed.

(** X10.  Encoding and then decoding an object that has [as_dict] and
    that no earlier encoder branch takes: when its [as_dict] form carries
    the three tags and otherwise values without tagged nodes, and the
    decoder can import the named module, finds the named class there and
    this class inherits [MSONable.from_dict], the result is the class
    called with the non-tag entries of the form as keyword arguments. *)
Theorem msonable_roundtrip (depth : nat) (rt : Runtime)
    (redirect : redirect_table) (x : PyVal) (d data : pydict)
    (m c : string) (mod_ cls_ : PyVal) :
  has_as_dict x = true ->
  declines rt BEFORE_DERIVATION x ->
  call_as_dict rt x = Ok (VDict d) ->
  dict_get (KStr "@module") d = Some (VStr m) ->
  dict_get (KStr "@class") d = Some (VStr c) ->
  dict_has (KStr "@version") d = true ->
  non_tag_items d = Ok data ->
  Forall (fun kv : dkey * PyVal => untagged kv.2 = true) data ->
  m <> "" -> c <> "" -> m ∉ SPECIAL_MODULES ->
  redirect_get redirect m c = None ->
  rt_import rt m [VStr c] = Ok mod_ -> rt_getattr rt mod_ c = Some cls_ ->
  ci_from_dict (rt_class rt cls_) = MSONableFromDict ->
  roundtrip depth rt redirect x = ci_construct (rt_class rt cls_) data.
Proof.
  intros Has Hdec Hcall Hm Hc Hv Hdata Hplain Hmne Hcne Hspecial Hred Himp Hget Hfd.
  unfold roundtrip.
  rewrite (default_first_match rt x DerivationMethod BEFORE_DERIVATION [Enumeration])
    by (reflexivity || assumption).
  cbn [branch_encode]. unfold finish_generic. rewrite Hcall.
  cbn [mbind result_bind].
  rewrite add_tags_present
    by (assumption || (eapply dict_has_get; eassumption)).
  rewrite try_except_ok. cbn [mbind result_bind].
  rewrite (process_decoded_tagged _ _ _ _ m c) by assumption.
  rewrite (reconstruct_imported _ _ _ _ _ _ mod_ cls_) by assumption.
  rewrite (construct_from_dict _ _ _ _ d data) by assumption.
  assert (Hdata' : non_tag_items data = Ok data).
  { clear -Hdata. revert data Hdata.
    induction d as [|[k v] d IH]; intros data; simpl.
    - intros [= <-]. reflexivity.
    - destruct k as [s|z]; [|discriminate].
      destruct (non_tag_items d) as [rest|]; [simpl|discriminate].
      destruct (String.prefix "@" s) eqn:Es; intros [= <-]; [auto|].
      simpl. rewrite (IH rest eq_refl). simpl. rewrite Es. reflexivity. }
  unfold from_dict.
  rewrite (decoded_fields_plain _ _ _ data data) by assumption.
  cbn [mbind result_bind].
  destruct (ci_construct (rt_class rt cls_) data); reflexivity.
Qed.

Lemma msonable_roundtrip_witness :
  roundtrip 0 package_runtime ∅ foo_stored = Ok foo_stored.
Proof.
  refine (msonable_roundtrip 0 package_runtime ∅ foo_stored
            [(KStr "@module", VStr "pkg.mod"); (KStr "@class", VStr "Foo");
             (KStr "@version", VNone); (KStr "zeta", VInt 1);
             (KStr "b", VList [VInt 2; VInt 3])]
            [(KStr "zeta", VInt 1); (KStr "b", VList [VInt 2; VInt 3])]
            "pkg.mod" "Foo" (VModule "pkg.mod") (VClass "pkg.mod" "Foo")
            _ _ _ _ _ _ _ _ _ _ _ _ _ _ _);
    try reflexivity; try discriminate.
  - repeat constructor.
  - vm_compute. intros H.
    repeat (apply elem_of_cons in H as [H|H]; [discriminate|]). inversion H.
Defined.

(** X11.  Encoding and then decoding a member of an enumeration that has
    no [as_dict]: when the decoder can import the member's module and
    finds there its class, an enumeration without [from_dict], the result
    is the class called on the member's [value]. *)
Theorem enum_roundtrip (depth : nat) (rt : Runtime)
    (redirect : redirect_table) (x value version mod_ cls_ : PyVal) :
  isinstance x ENUM = true ->
  declines rt BEFORE_ENUMERATION x ->
  getattr x "value" = Ok value ->
  version_tag rt (class_module x) = Ok version ->
  class_module x <> "" -> class_name x <> "" ->
  class_module x ∉ SPECIAL_MODULES ->
  redirect_get redirect (class_module x) (class_name x) = None ->
  rt_import rt (class_module x) [VStr (class_name x)] = Ok mod_ ->
  rt_getattr rt mod_ (class_name x) = Some cls_ ->
  ci_from_dict (rt_class rt cls_) = NoFromDict ->
  ci_is_class (rt_class rt cls_) = true ->
  ci_is_enum (rt_class rt cls_) = true ->
  roundtrip depth rt redirect x = ci_by_value (rt_class rt cls_) value.
Proof.
  intros He Hdec Hval Hver Hm Hc Hs Hred Himp Hget Hfd Hcl Hen.
  unfold roundtrip.
  rewrite (default_first_match rt x Enumeration BEFORE_ENUMERATION [])
    by (reflexivity || assumption).
  cbn [branch_encode]. unfold finish_generic. rewrite Hval.
  cbn [mbind result_bind]. unfold add_tags.
  change (dict_has (KStr "@module") [(KStr "value", value)]) with false.
  cbn match.
  change (dict_has (KStr "@class")
            (dict_set (KStr "@module") (VStr (class_module x))
               [(KStr "value", value)])) with false.
  cbn match.
  change (dict_has (KStr "@version") _) with false.
  cbn match. rewrite Hver. cbn [mbind result_bind]. rewrite try_except_ok.
  cbn [mbind result_bind dict_set decide].
  set (d := dict_set _ _ _).
  rewrite (process_decoded_tagged _ _ _ d (class_module x) (class_name x))
    by (assumption || reflexivity).
  rewrite (reconstruct_imported _ _ _ _ _ _ mod_ cls_) by assumption.
  unfold construct. rewrite Hfd, Hcl, Hen. subst d. simpl.
  destruct (ci_by_value (rt_class rt cls_) value); reflexivity.
Qed.

Lemma enum_roundtrip_witness :
  roundtrip 0 package_runtime ∅ color_red = Ok color_red.
Proof.
  refine (enum_roundtrip 0 package_runtime ∅ color_red (VInt 1) VNone
            (VModule "pkg.colors") (VClass "pkg.colors" "Color")
            _ _ _ _ _ _ _ _ _ _ _ _ _);
    try reflexivity; try discriminate.
  vm_compute. intros H.
  repeat (apply elem_of_cons in H as [H|H]; [discriminate|]). inversion H.
Defined.

(** ** References to callables *)

Lemma serialize_unbound rt f m name q :
  getattr_default f "__self__" VNone = VNone ->
  getattr f "__module__" = Ok (VStr m) ->
  getattr f "__name__" = Ok name ->
  getattr_default f "__qualname__" name = VStr q ->
  _serialize_callable f (encoded_self rt f) = Ok (VDict (unbound_reference m q)).
Proof.
  intros Hs Hm Hn Hq. unfold _serialize_callable. rewrite Hs.
  destruct (isinstance f BUILTIN_FUNCTION); simpl;
    rewrite Hm; simpl; rewrite Hn; simpl; rewrite Hq; reflexivity.
Qed.

Lemma decode_unbound depth rt redirect m q mod_ :
  rt_import rt m [VStr q] = Ok mod_ ->
  process_decoded depth rt redirect (VDict (unbound_reference m q))
  = try_except (attribute_walk rt mod_ (split_dot q)) [AttributeError]
      (Ok (VDict (unbound_reference m q))).
Proof.
  intros Hi. rewrite process_decoded_unfold.
  unfold process_dict, read_identity.
  change (dict_has (KStr "@module") (unbound_reference m q)) with true.
  change (dict_has (KStr "@class") (unbound_reference m q)) with false.
  change (dict_has (KStr "@callable") (unbound_reference m q)) with true.
  cbn [andb]. cbn match.
  change (dict_item "@module" (unbound_reference m q)) with (Ok (VStr m)).
  change (dict_item "@callable" (unbound_reference m q)) with (Ok (VStr q)).
  cbn [mbind result_bind].
  change (negb (is_none (default VNone
            (dict_get (KStr "@bound") (unbound_reference m q))))) with false.
  cbn match. rewrite Hi.
  cbn [mbind result_bind fst snd].
  destruct (attribute_walk rt mod_ (split_dot q)) as [f|e]; [reflexivity|].
  unfold try_except. cbn [fmap result_fmap].
  destruct (bool_decide (exn_cls e ∈ [AttributeError])); [|reflexivity].
  cbn [mbind result_bind truthy]. unfold processed_values, unbound_reference.
  cbn [map fst snd]. rewrite !process_decoded_unfold. reflexivity.
Qed.

(** X12.  A callable bound to nothing is encoded as a reference to its
    module and qualified name; decoding the reference imports the module,
    with the qualified name as the import's from-list, and walks the
    qualified name from it.  When that import succeeds: if the walk arrives
    at the callable, the round trip returns it; if an attribute on the way
    is missing (a lambda, a local function), the round trip returns the
    reference mapping and raises nothing. *)
Theorem function_reference_roundtrip (depth : nat) (rt : Runtime)
    (redirect : redirect_table) (f name mod_ : PyVal) (m q : string) :
  callable f = true -> isinstance f MSONABLE = false ->
  declines rt BEFORE_CALLABLE f ->
  getattr_default f "__self__" VNone = VNone ->
  getattr f "__module__" = Ok (VStr m) ->
  getattr f "__name__" = Ok name ->
  getattr_default f "__qualname__" name = VStr q ->
  rt_import rt m [VStr q] = Ok mod_ ->
  (attribute_walk rt mod_ (split_dot q) = Ok f ->
   roundtrip depth rt redirect f = Ok f) /\
  (forall e, attribute_walk rt mod_ (split_dot q) = Raise e ->
     exn_cls e = AttributeError ->
     roundtrip depth rt redirect f = Ok (VDict (unbound_reference m q))).
Proof.
  intros Hc Hm Hdec Hs Hmod Hn Hq Hi.
  assert (Henc : MontyEncoder.default rt f = Ok (VDict (unbound_reference m q))).
  { rewrite (default_first_match rt f CallableRef BEFORE_CALLABLE
               [ValidationModel; Dataclass; DerivationMethod; Enumeration])
      by (reflexivity || assumption || (simpl; rewrite Hc, Hm; reflexivity)).
    cbn [branch_encode]. eapply serialize_unbound; eassumption. }
  unfold roundtrip. rewrite Henc. cbn [mbind result_bind].
  rewrite (decode_unbound _ _ _ _ _ mod_) by assumption.
  split.
  - intros ->. reflexivity.
  - intros e -> He. apply try_except_caught. rewrite He. set_solver.
Qed.

Lemma function_reference_roundtrip_witness :
  roundtrip 0 package_runtime ∅ free_function = Ok free_function /\
  roundtrip 0 package_runtime ∅ lambda_function
  = Ok (VDict (unbound_reference "pkg.util" "<lambda>")).
Proof.
  split.
  - refine (proj1 (function_reference_roundtrip 0 package_runtime ∅ free_function
                     (VStr "helper") (VModule "pkg.util") "pkg.util" "helper"
                     _ _ _ _ _ _ _ _) _);
      reflexivity.
  - refine (proj2 (function_reference_roundtrip 0 package_runtime ∅
                     lambda_function (VStr "<lambda>") (VModule "pkg.util")
                     "pkg.util" "<lambda>" _ _ _ _ _ _ _ _)
              (Exn AttributeError "<lambda>") _ _);
      reflexivity.
Defined.

(** ** Nodes tagged with the modules of optional libraries *)

(** decide the comparisons between string literals in the goal *)
Ltac eval_eqb :=
  repeat match goal with
         | |- context [String.eqb ?a ?b] =>
             let v := eval vm_compute in (String.eqb a b) in
             match v with
             | true => change (String.eqb a b) with true
             | false => change (String.eqb a b) with false
             end
         end;
  cbn [negb andb orb].

(** what is raised when the values of a mapping are evaluated was raised by
    one of them *)
Lemma eval_items_raise {K} (items : list (K * result PyVal)) e :
  eval_items items = Raise e -> exists k, In (k, Raise e) items.
Proof.
  unfold eval_items. induction items as [|[k r] items IH]; [discriminate|].
  cbn [map sequence fst snd]. destruct r as [v|e']; cbn.
  - destruct (sequence _) as [vs|e'']; [discriminate|].
    intros [= ->]. destruct (IH eq_refl) as [k' Hin]. exists k'. right. exact Hin.
  - intros [= ->]. exists k. left. reflexivity.
Qed.

Lemma processed_values_raise depth rt redirect (d : pydict) e :
  VDict <$> eval_items (processed_values depth rt redirect d) = Raise e ->
  exists k v, In (k, v) d /\ process_decoded depth rt redirect v = Raise e.
Proof.
  destruct (eval_items _) as [vs|e'] eqn:E; [discriminate|].
  intros [= ->]. apply eval_items_raise in E as [k Hin].
  unfold processed_values in Hin. apply in_map_iff in Hin as ([k' v] & [= -> Hv] & Hin).
  exists k, v. split; assumption.
Qed.

Lemma processed_values_untagged depth rt redirect (d : pydict) :
  Forall (fun kv : dkey * PyVal => untagged kv.2 = true) d ->
  eval_items (processed_values depth rt redirect d) = Ok d.
Proof.
  intros Hu.
  replace (processed_values depth rt redirect d)
    with (map (fun kv : dkey * PyVal => (kv.1, Ok kv.2)) d).
  - apply eval_items_ok.
  - unfold processed_values. apply map_ext_Forall.
    eapply Forall_impl; [exact Hu|]. intros [k v] Hv. simpl in *.
    rewrite process_decoded_untagged by exact Hv. reflexivity.
Qed.

(** X13.  A node tagged with module [torch], [numpy] or [bson.objectid]
    is not rebuilt when the library is not installed or the class name is
    not the one the decoder knows ([Tensor], [array], [ObjectId]); nor is a
    node tagged with [pandas], when pandas is installed, whose class name
    is neither [DataFrame] nor [Series].  Decoding such a node gives the
    mapping of its entries with every value decoded: the node itself when
    no value holds a tagged node; and when decoding it raises, that was
    raised by decoding one of its values. *)
Theorem optional_library_absent (depth : nat) (rt : Runtime)
    (redirect : redirect_table) (d : pydict) (m c : string) :
  dict_get (KStr "@module") d = Some (VStr m) ->
  dict_get (KStr "@class") d = Some (VStr c) ->
  redirect_get redirect m c = None ->
  c <> "" ->
  (m = "torch" /\ (torch_imported rt = false \/ c <> "Tensor")) \/
  (m = "numpy" /\ (np_imported rt = false \/ c <> "array")) \/
  (m = "bson.objectid" /\ (bson_imported rt = false \/ c <> "ObjectId")) \/
  (m = "pandas" /\ rt_pandas_imported rt = true /\
   c <> "DataFrame" /\ c <> "Series") ->
  process_decoded depth rt redirect (VDict d)
  = VDict <$> eval_items (processed_values depth rt redirect d) /\
  (Forall (fun kv : dkey * PyVal => untagged kv.2 = true) d ->
   process_decoded depth rt redirect (VDict d) = Ok (VDict d)) /\
  (forall e, process_decoded depth rt redirect (VDict d) = Raise e ->
     exists k v, In (k, v) d /\ process_decoded depth rt redirect v = Raise e).
Proof.
  intros Hm Hc Hred Hne Hcase.
  assert (Hmap : process_decoded depth rt redirect (VDict d)
                 = VDict <$> eval_items (processed_values depth rt redirect d)).
  { rewrite (process_decoded_tagged _ _ _ _ m c) by assumption.
    assert (Hrec : reconstruct rt d (processed_values depth rt redirect d)
                     (nested_decode depth rt redirect) (VStr m) (VStr c) = Ok None).
    { destruct Hcase as [Hcase|[Hcase|[Hcase|(-> & Hp & Hf & Hs)]]];
        [| | |rewrite reconstruct_pandas by assumption;
              apply String.eqb_neq in Hf, Hs; unfold eq_str;
              rewrite Hf, Hs; reflexivity];
        unfold reconstruct, BUILTIN_MODULES, eq_str, truthy; cbn [existsb];
        destruct Hcase as [-> H]; eval_eqb; cbn match;
        rewrite ?andb_false_r, ?andb_true_r;
        (destruct H as [->|H]; [|apply String.eqb_neq in H; rewrite H]);
        rewrite ?andb_false_r;
        destruct (torch_imported rt), (np_imported rt), (bson_imported rt);
        reflexivity. }
    rewrite Hrec. reflexivity. }
  split; [exact Hmap|]. split.
  - intros Hu. rewrite Hmap, processed_values_untagged by exact Hu. reflexivity.
  - intros e He. rewrite Hmap in He. eapply processed_values_raise. exact He.
Qed.

Lemma optional_library_absent_witness :
  process_decoded 0 bare_runtime ∅
    (VDict [(KStr "@module", VStr "numpy"); (KStr "@class", VStr "array");
            (KStr "dtype", VStr "float64"); (KStr "data", VList [VInt 1])])
  = Ok (VDict [(KStr "@module", VStr "numpy"); (KStr "@class", VStr "array");
               (KStr "dtype", VStr "float64"); (KStr "data", VList [VInt 1])]) /\
  process_decoded 0 demo_runtime ∅
    (VDict [(KStr "@module", VStr "numpy"); (KStr "@class", VStr "array");
            (KStr "data", VDict unknown_module_node)])
  = raise ImportError "No module named no_such_pkg.core".
Proof.
  split.
  - refine (proj1 (proj2 (optional_library_absent 0 bare_runtime ∅ _
                            "numpy" "array" _ _ _ _ _)) _);
      try reflexivity; try discriminate.
    + right. left. split; [reflexivity|]. left. reflexivity.
    + repeat constructor.
  - refine (eq_trans (proj1 (optional_library_absent 0 demo_runtime ∅ _
                               "numpy" "array" _ _ _ _ _)) _);
      try reflexivity; try discriminate.
    right. left. split; [reflexivity|]. left. reflexivity.
Defined.

(** X14.  A node tagged with module [pandas] makes the decoder import
    pandas whatever its class name: without pandas, decoding the node
    raises [ImportError]. *)
Theorem pandas_node_needs_pandas (depth : nat) (rt : Runtime)
    (redirect : redirect_table) (d : pydict) (c : string) :
  dict_get (KStr "@module") d = Some (VStr "pandas") ->
  dict_get (KStr "@class") d = Some (VStr c) ->
  redirect_get redirect "pandas" c = None ->
  c <> "" ->
  rt_pandas_imported rt = false ->
  process_decoded depth rt redirect (VDict d)
  = raise ImportError "No module named 'pandas'".
Proof.
  intros Hm Hc Hred Hne Hp.
  rewrite (process_decoded_tagged _ _ _ _ "pandas" c) by assumption.
  unfold reconstruct, BUILTIN_MODULES, eq_str, truthy.
  cbn [existsb]. eval_eqb. cbn match. rewrite Hp, !andb_false_r.
  reflexivity.
Qed.

Lemma pandas_node_needs_pandas_witness :
  process_decoded 0 bare_runtime ∅
    (VDict [(KStr "@module", VStr "pandas"); (KStr "@class", VStr "Index")])
  = raise ImportError "No module named 'pandas'".
Proof.
  refine (pandas_node_needs_pandas 0 bare_runtime ∅ _ "Index" _ _ _ _ _);
    try reflexivity; discriminate.
Defined.

(** ** Dataclasses *)

Lemma non_tag_items_fixed (d data : pydict) :
  non_tag_items d = Ok data -> non_tag_items data = Ok data.
Proof.
  revert data. induction d as [|[k v] d IH]; intros data; simpl.
  - intros [= <-]. reflexivity.
  - destruct k as [s|z]; [|discriminate].
    destruct (non_tag_items d) as [rest|]; [simpl|discriminate].
    destruct (String.prefix "@" s) eqn:Es; intros [= <-]; [auto|].
    simpl. rewrite (IH rest eq_refl). simpl. rewrite Es. reflexivity.
Qed.

Lemma no_tag_key (d : pydict) k :
  non_tag_items d = Ok d -> String.prefix "@" k = true ->
  dict_has (KStr k) d = false.
Proof.
  intros Hd Hk. unfold dict_has. apply bool_decide_eq_false. intros [v Hv].
  assert (H : forall (d data : pydict),
            non_tag_items d = Ok data -> dict_get (KStr k) data = None).
  { clear -Hk. induction d as [|[k' w] d IH]; intros data; simpl.
    - intros [= <-]. reflexivity.
    - destruct k' as [s|z]; [|discriminate].
      destruct (non_tag_items d) as [rest|]; [simpl|discriminate].
      destruct (String.prefix "@" s) eqn:Es; intros [= <-]; [auto|].
      simpl. destruct (decide (KStr k = KStr s)) as [[= ->]|_]; [congruence|auto]. }
  rewrite (H d d Hd) in Hv. discriminate.
Qed.

Lemma keyword_fields_decoded depth rt redirect (d data : pydict) :
  non_tag_items d = Ok data ->
  Forall (fun kv : dkey * PyVal => untagged kv.2 = true) data ->
  (fields ← non_tag_items (processed_values depth rt redirect d);
   eval_items fields) = Ok data.
Proof.
  intros Hd Hu. unfold processed_values.
  rewrite (non_tag_items_map_ok _ d data) by assumption.
  cbn [mbind result_bind].
  rewrite <- (decoded_fields_eval _ data data)
    by (eapply non_tag_items_fixed; eassumption).
  apply (decoded_fields_plain depth rt redirect data data);
    [eapply non_tag_items_fixed; eassumption|assumption].
Qed.

(** X15.  Encoding and then decoding an instance of a dataclass that is
    not [MSONable]: when [dataclasses.asdict] gives text-keyed fields
    without ["@"] keys and without tagged nodes, and the decoder can
    import the module and finds the class, a dataclass without
    [from_dict], the result is the class called with these fields as
    keyword arguments. *)
Theorem dataclass_roundtrip (depth : nat) (rt : Runtime)
    (redirect : redirect_table) (x version mod_ cls_ : PyVal)
    (fields : pydict) :
  dataclasses_imported rt = true ->
  isinstance x MSONABLE = false -> is_dataclass x = true ->
  declines rt BEFORE_DATACLASS x ->
  call_method x "dataclasses.asdict" = Ok (VDict fields) ->
  non_tag_items fields = Ok fields ->
  Forall (fun kv : dkey * PyVal => untagged kv.2 = true) fields ->
  version_tag rt (class_module x) = Ok version ->
  class_module x <> "" -> class_name x <> "" ->
  class_module x ∉ SPECIAL_MODULES ->
  redirect_get redirect (class_module x) (class_name x) = None ->
  rt_import rt (class_module x) [VStr (class_name x)] = Ok mod_ ->
  rt_getattr rt mod_ (class_name x) = Some cls_ ->
  ci_from_dict (rt_class rt cls_) = NoFromDict ->
  ci_is_class (rt_class rt cls_) = true ->
  ci_is_enum (rt_class rt cls_) = false ->
  ci_is_msonable (rt_class rt cls_) = false ->
  ci_is_dataclass (rt_class rt cls_) = true ->
  roundtrip depth rt redirect x = ci_construct (rt_class rt cls_) fields.
Proof.
  intros Hdc Hm Hd Hdec Hcall Hf Hu Hver Hmne Hcne Hs Hred Himp Hget
    Hfd Hcl Hen Hms Hcd.
  unfold roundtrip.
  rewrite (default_first_match rt x Dataclass BEFORE_DATACLASS
             [DerivationMethod; Enumeration])
    by (reflexivity || assumption || (simpl; rewrite Hdc, Hm, Hd; reflexivity)).
  cbn [branch_encode]. unfold finish_generic. rewrite Hcall.
  cbn [mbind result_bind]. unfold add_tags.
  rewrite (no_tag_key fields "@module") by (assumption || reflexivity).
  cbn match.
  assert (Hc : dict_has (KStr "@class")
                 (dict_set (KStr "@module") (VStr (class_module x)) fields)
               = false).
  { unfold dict_has. rewrite dict_get_set_ne by discriminate.
    exact (no_tag_key fields "@class" Hf eq_refl). }
  rewrite Hc. cbn match.
  assert (Hv : dict_has (KStr "@version")
                 (dict_set (KStr "@class") (VStr (class_name x))
                    (dict_set (KStr "@module") (VStr (class_module x)) fields))
               = false).
  { unfold dict_has. rewrite !dict_get_set_ne by discriminate.
    exact (no_tag_key fields "@version" Hf eq_refl). }
  rewrite Hv. cbn match. rewrite Hver. cbn [mbind result_bind].
  rewrite try_except_ok. cbn [mbind result_bind].
  set (d := dict_set (KStr "@version") _ _).
  assert (Hdata : non_tag_items d = Ok fields).
  { subst d. rewrite !non_tag_items_set_tag by reflexivity. assumption. }
  rewrite (process_decoded_tagged _ _ _ d (class_module x) (class_name x));
    try assumption.
  - rewrite (reconstruct_imported _ _ _ _ _ _ mod_ cls_) by assumption.
    unfold construct. rewrite Hdata, Hfd, Hcl, Hen, Hms, Hcd, Hdc.
    cbn [mbind result_bind negb andb].
    rewrite (keyword_fields_decoded _ _ _ d fields) by assumption.
    cbn [mbind result_bind].
    destruct (pydantic_imported rt && ci_is_pydantic (rt_class rt cls_));
      destruct (ci_construct (rt_class rt cls_) fields); reflexivity.
  - subst d. rewrite dict_get_set_ne by discriminate.
    rewrite dict_get_set_ne by discriminate. apply dict_get_set_eq.
  - subst d. rewrite dict_get_set_ne by discriminate. apply dict_get_set_eq.
Qed.

Lemma dataclass_roundtrip_witness :
  roundtrip 0 package_runtime ∅ point = Ok point.
Proof.
  refine (dataclass_roundtrip 0 package_runtime ∅ point VNone
            (VModule "pkg.mod") (VClass "pkg.mod" "Point")
            [(KStr "x", VInt 1); (KStr "y", VInt 2)]
            _ _ _ _ _ _ _ _ _ _ _ _ _ _ _ _ _ _ _);
    try reflexivity; try discriminate.
  - repeat constructor.
  - vm_compute. intros H.
    repeat (apply elem_of_cons in H as [H|H]; [discriminate|]). inversion H.
Defined.

(** ** Bound methods *)

(** X16.  A method bound to an object is encoded as a reference that
    holds, under ["@bound"], the encoding of the object; decoding decodes
    that object first and walks the qualified name, without its first
    component, from it.  If the walk arrives at the method, the round trip
    returns it; if an attribute is missing, the reference mapping with the
    decoded object under ["@bound"] is returned. *)
Theorem bound_method_roundtrip (depth : nat) (rt : Runtime)
    (redirect : redirect_table) (f owner bound owner' name : PyVal)
    (m q : string) :
  callable f = true -> isinstance f MSONABLE = false ->
  declines rt BEFORE_CALLABLE f ->
  isinstance f BUILTIN_FUNCTION = false ->
  getattr f "__self__" = Ok owner -> is_none owner = false ->
  MontyEncoder.default rt owner = Ok bound -> is_none bound = false ->
  getattr f "__module__" = Ok (VStr m) ->
  getattr f "__name__" = Ok name ->
  getattr_default f "__qualname__" name = VStr q ->
  process_decoded depth rt redirect bound = Ok owner' ->
  MontyEncoder.default rt f = Ok (VDict (bound_reference m q bound)) /\
  (attribute_walk rt owner' (tail (split_dot q)) = Ok f ->
   roundtrip depth rt redirect f = Ok f) /\
  (forall e, attribute_walk rt owner' (tail (split_dot q)) = Raise e ->
     exn_cls e = AttributeError ->
     roundtrip depth rt redirect f
     = Ok (VDict [(KStr "@module", VStr m); (KStr "@callable", VStr q);
                  (KStr "@bound", owner')])).
Proof.
  intros Hc Hm Hdec Hb Hself Hown Henc Hbound Hmod Hn Hq Hdecode.
  assert (Hdef : MontyEncoder.default rt f = Ok (VDict (bound_reference m q bound))).
  { rewrite (default_first_match rt f CallableRef BEFORE_CALLABLE
               [ValidationModel; Dataclass; DerivationMethod; Enumeration])
      by (reflexivity || assumption || (simpl; rewrite Hc, Hm; reflexivity)).
    cbn [branch_encode]. unfold _serialize_callable. rewrite Hb.
    assert (Hgd : getattr_default f "__self__" VNone = owner)
      by (unfold getattr_default; rewrite Hself; reflexivity).
    rewrite Hgd, Hown.
    assert (Hes : encoded_self rt f = Some (Ok bound)).
    { destruct f; try discriminate Hself. unfold encoded_self.
      simpl in Hself. destruct (assoc "__self__" attrs) as [o|].
      - injection Hself as ->. simpl. rewrite Henc. reflexivity.
      - destruct (String.eqb "__self__" "__module__"); discriminate. }
    rewrite Hes, try_except_ok. cbn [mbind result_bind].
    rewrite Hmod. cbn [mbind result_bind]. rewrite Hn. cbn [mbind result_bind].
    rewrite Hq. reflexivity. }
  split; [exact Hdef|].
  assert (Hgo : process_decoded depth rt redirect (VDict (bound_reference m q bound))
                = try_except (attribute_walk rt owner' (tail (split_dot q)))
                    [AttributeError]
                    (Ok (VDict [(KStr "@module", VStr m); (KStr "@callable", VStr q);
                                (KStr "@bound", owner')]))).
  { rewrite process_decoded_unfold. unfold process_dict, read_identity.
    change (dict_has (KStr "@module") (bound_reference m q bound)) with true.
    change (dict_has (KStr "@class") (bound_reference m q bound)) with false.
    change (dict_has (KStr "@callable") (bound_reference m q bound)) with true.
    cbn [andb]. cbn match.
    change (dict_item "@module" (bound_reference m q bound)) with (Ok (VStr m)).
    change (dict_item "@callable" (bound_reference m q bound)) with (Ok (VStr q)).
    cbn [mbind result_bind].
    change (default VNone (dict_get (KStr "@bound") (bound_reference m q bound)))
      with bound.
    rewrite Hbound. cbn [negb]. cbn match.
    unfold processed_values, bound_reference. cbn [map fst snd].
    rewrite Hdecode.
    change (dict_get (KStr "@bound") _) with (Some (Ok owner' : result PyVal)).
    cbn [default from_option id mbind result_bind fst snd].
    destruct (attribute_walk rt owner' (tail (split_dot q))) as [g|e];
      [reflexivity|].
    unfold try_except. cbn [fmap result_fmap].
    destruct (bool_decide (exn_cls e ∈ [AttributeError])); [|reflexivity].
    cbn [mbind result_bind truthy]. rewrite !process_decoded_unfold.
    reflexivity. }
  unfold roundtrip. rewrite Hdef. cbn [mbind result_bind]. rewrite Hgo. split.
  - intros ->. reflexivity.
  - intros e -> He. apply try_except_caught. rewrite He. set_solver.
Qed.

Lemma bound_method_roundtrip_witness :
  MontyEncoder.default package_runtime (run_method foo_stored)
  = Ok (VDict (bound_reference "pkg.mod" "Foo.run"
                 (VDict [(KStr "@module", VStr "pkg.mod");
                         (KStr "@class", VStr "Foo"); (KStr "@version", VNone);
                         (KStr "zeta", VInt 1);
                         (KStr "b", VList [VInt 2; VInt 3])]))) /\
  roundtrip 0 package_runtime ∅ (run_method foo_stored)
  = Ok (run_method foo_stored).
Proof.
  pose proof (bound_method_roundtrip 0 package_runtime ∅ (run_method foo_stored)
                foo_stored
                (VDict [(KStr "@module", VStr "pkg.mod");
                        (KStr "@class", VStr "Foo"); (KStr "@version", VNone);
                        (KStr "zeta", VInt 1);
                        (KStr "b", VList [VInt 2; VInt 3])])
                foo_stored (VStr "run") "pkg.mod" "Foo.run"
                eq_refl eq_refl eq_refl eq_refl eq_refl eq_refl eq_refl eq_refl
                eq_refl eq_refl eq_refl eq_refl) as (Henc & Hback & _).
  split; [exact Henc|]. apply Hback. reflexivity.
Defined.

(** ** Nodes without a class name *)

(** X17.  A node whose ["@class"] is [None] or the empty text is not
    rebuilt, whether or not its module can be imported: decoding it gives
    the mapping of its entries with every value decoded.  That is the node
    itself when no value holds a tagged node; and when decoding it raises,
    that was raised by decoding one of its values. *)
Theorem empty_class_name_is_no_tag (depth : nat) (rt : Runtime)
    (redirect : redirect_table) (d : pydict) (m : string) (c : PyVal) :
  dict_get (KStr "@module") d = Some (VStr m) ->
  dict_get (KStr "@class") d = Some c ->
  c = VNone \/ c = VStr "" /\ redirect_get redirect m "" = None ->
  process_decoded depth rt redirect (VDict d)
  = VDict <$> eval_items (processed_values depth rt redirect d) /\
  (Forall (fun kv : dkey * PyVal => untagged kv.2 = true) d ->
   process_decoded depth rt redirect (VDict d) = Ok (VDict d)) /\
  (forall e, process_decoded depth rt redirect (VDict d) = Raise e ->
     exists k v, In (k, v) d /\ process_decoded depth rt redirect v = Raise e).
Proof.
  intros Hm Hc Hcase.
  assert (Hmap : process_decoded depth rt redirect (VDict d)
                 = VDict <$> eval_items (processed_values depth rt redirect d)).
  { rewrite process_decoded_unfold.
    unfold process_dict, read_identity.
    rewrite (dict_has_get _ _ _ Hm), (dict_has_get _ _ _ Hc). cbn [andb].
    unfold dict_item. rewrite Hm, Hc. cbn [mbind result_bind].
    destruct Hcase as [->|[-> Hr]].
    - reflexivity.
    - unfold redirect_lookup. cbn [unhashable orb]. rewrite Hr. reflexivity. }
  split; [exact Hmap|]. split.
  - intros Hu. rewrite Hmap, processed_values_untagged by exact Hu. reflexivity.
  - intros e He. rewrite Hmap in He. eapply processed_values_raise. exact He.
Qed.

Lemma empty_class_name_is_no_tag_witness :
  process_decoded 0 bare_runtime ∅
    (VDict [(KStr "@module", VStr "no_such_pkg"); (KStr "@class", VNone);
            (KStr "x", VList [VInt 1])])
  = Ok (VDict [(KStr "@module", VStr "no_such_pkg"); (KStr "@class", VNone);
               (KStr "x", VList [VInt 1])]) /\
  process_decoded 0 demo_runtime ∅
    (VDict [(KStr "@module", VStr "no_such_pkg"); (KStr "@class", VStr "");
            (KStr "x", VDict unknown_module_node)])
  = raise ImportError "No module named no_such_pkg.core".
Proof.
  split.
  - refine (proj1 (proj2 (empty_class_name_is_no_tag 0 bare_runtime ∅ _
                            "no_such_pkg" VNone _ _ _)) _);
      try reflexivity.
    + left. reflexivity.
    + repeat constructor.
  - refine (eq_trans (proj1 (empty_class_name_is_no_tag 0 demo_runtime ∅ _
                               "no_such_pkg" (VStr "") _ _ _)) _);
      try reflexivity.
    right. split; reflexivity.
Defined.

(** ** Tensors *)

Lemma reconstruct_torch rt d p dec :
  torch_imported rt = true ->
  reconstruct rt d p dec (VStr "torch") (VStr "Tensor")
  = (dtype ← dict_item "dtype" d;
     is_complex ← str_contains "Complex" dtype;
     if (is_complex : bool) then
       data ← dict_item "data" d;
       rows ← combine_complex rt data;
       Some <$> rt_torch_tensor rt rows dtype
     else
       data ← dict_item "data" d;
       Some <$> rt_torch_tensor rt data dtype).
Proof.
  intros H. unfold reconstruct, BUILTIN_MODULES, eq_str, truthy.
  cbn [existsb]. eval_eqb. cbn match. rewrite H. reflexivity.
Qed.

(** X18.  Encoding and then decoding a tensor, with torch installed:
    for a real type the result is [torch.tensor] of the tensor's elements,
    converted to its type; for a complex type it is [torch.tensor] of the
    rows recombined from the real and the imaginary parts. *)
Theorem tensor_roundtrip (depth : nat) (rt : Runtime)
    (redirect : redirect_table) (x data : PyVal) (t : string) :
  torch_imported rt = true -> isinstance x TENSOR = true ->
  declines rt BEFORE_TENSOR x ->
  redirect_get redirect "torch" "Tensor" = None ->
  call_method x "type" = Ok (VStr t) ->
  (contains "Complex" t = false ->
   call_method x "numpy.tolist" = Ok data ->
   roundtrip depth rt redirect x = rt_torch_tensor rt data (VStr t)) /\
  (forall reals imags,
     contains "Complex" t = true ->
     call_method x "real.tolist" = Ok (VList reals) ->
     call_method x "imag.tolist" = Ok (VList imags) ->
     roundtrip depth rt redirect x
     = (rows ← sequence (map (fun ri : PyVal * PyVal =>
                                rt_np_complex rt ri.1 ri.2)
                           (zip_pairs reals imags));
        rt_torch_tensor rt (VList rows) (VStr t))).
Proof.
  intros Ht Hi Hdec Hred Hty.
  assert (Henc : MontyEncoder.default rt x = encode_tensor x).
  { rewrite (default_first_match rt x Tensor BEFORE_TENSOR
               [NumericArray; Tabular; OpaqueId; CallableRef; ValidationModel;
                Dataclass; DerivationMethod; Enumeration])
      by (reflexivity || assumption || (simpl; rewrite Ht, Hi; reflexivity)).
    reflexivity. }
  unfold roundtrip. rewrite Henc. unfold encode_tensor. rewrite Hty.
  cbn [mbind result_bind str_contains]. split.
  - intros Hc Hd. rewrite Hc, Hd. cbn [mbind result_bind]. unfold tagged.
    rewrite (process_decoded_tagged _ _ _ _ "torch" "Tensor")
      by (reflexivity || assumption || discriminate).
    rewrite reconstruct_torch by assumption.
    change (dict_item "dtype" _) with (Ok (VStr t)).
    cbn [mbind result_bind str_contains]. rewrite Hc.
    change (dict_item "data" _) with (Ok data).
    cbn [mbind result_bind].
    destruct (rt_torch_tensor rt data (VStr t)); reflexivity.
  - intros reals imags Hc Hre Him. rewrite Hc, Hre. cbn [mbind result_bind].
    rewrite Him. cbn [mbind result_bind]. unfold tagged.
    rewrite (process_decoded_tagged _ _ _ _ "torch" "Tensor")
      by (reflexivity || assumption || discriminate).
    rewrite reconstruct_torch by assumption.
    change (dict_item "dtype" _) with (Ok (VStr t)).
    cbn [mbind result_bind str_contains]. rewrite Hc.
    change (dict_item "data" _) with (Ok (VList [VList reals; VList imags])).
    cbn [mbind result_bind]. unfold combine_complex, real_imag_pairs.
    cbn [rows_of mbind result_bind map sequence].
    destruct (sequence _) as [rows|]; cbn [mbind result_bind fmap result_fmap];
      [|reflexivity].
    destruct (rt_torch_tensor rt (VList rows) (VStr t)); reflexivity.
Qed.

Lemma tensor_roundtrip_witness :
  roundtrip 0 torch_runtime ∅ float_tensor = Ok float_tensor /\
  roundtrip 0 torch_runtime ∅ complex_tensor = Ok complex_tensor.
Proof.
  split.
  - refine (proj1 (tensor_roundtrip 0 torch_runtime ∅ float_tensor
                     (VList [VFloat (fl "1.5"); VFloat (fl "2.5")])
                     "torch.FloatTensor" _ _ _ _ _) _ _); reflexivity.
  - refine (proj2 (tensor_roundtrip 0 torch_runtime ∅ complex_tensor VNone
                     "torch.ComplexFloatTensor" _ _ _ _ _)
              [VList [VFloat (fl "1.0")]; VList [VFloat (fl "3.0")]]
              [VList [VFloat (fl "2.0")]; VList [VFloat (fl "4.0")]] _ _ _);
      reflexivity.
Defined.

(** ** More on the encoder *)

Lemma dict_has_set k k' v (d : pydict) :
  dict_has k (dict_set k' v d) = bool_decide (k = k') || dict_has k d.
Proof.
  unfold dict_has. apply Bool.eq_iff_eq_true.
  rewrite orb_true_iff, !bool_decide_eq_true. apply dict_get_set.
Qed.

Lemma dict_get_set_fresh k k' v w (d : pydict) :
  dict_has k' d = false -> dict_get k d = Some w ->
  dict_get k (dict_set k' v d) = Some w.
Proof.
  intros Hf Hg. destruct (decide (k = k')) as [->|Hne].
  - unfold dict_has in Hf. rewrite Hg in Hf.
    apply bool_decide_eq_false in Hf. exfalso. apply Hf. eauto.
  - rewrite dict_get_set_ne by assumption. assumption.
Qed.

(** X19.  The encoder's last step only adds what is missing: the result
    has the keys of the base form and the three tags, no entry of the base
    form is changed, and a missing ["@module"] or ["@class"] names the
    module or the class of the object. *)
Theorem add_tags_fills_missing (rt : Runtime) (o v : PyVal) (d0 : pydict) :
  add_tags rt o (VDict d0) = Ok v ->
  exists d, v = VDict d /\
    (forall k, dict_has k d = dict_has k d0 || bool_decide (k ∈ TAG_KEYS)) /\
    (forall k w, dict_get k d0 = Some w -> dict_get k d = Some w) /\
    (dict_has (KStr "@module") d0 = false ->
     dict_get (KStr "@module") d = Some (VStr (class_module o))) /\
    (dict_has (KStr "@class") d0 = false ->
     dict_get (KStr "@class") d = Some (VStr (class_name o))).
Proof.
  unfold add_tags.
  set (d1 := if dict_has (KStr "@module") d0 then d0 else _).
  set (d2 := if dict_has (KStr "@class") d1 then d1 else _).
  assert (H1 : (forall k, dict_has k d1
                          = dict_has k d0 || bool_decide (k = KStr "@module")) /\
               (forall k w, dict_get k d0 = Some w -> dict_get k d1 = Some w) /\
               (dict_has (KStr "@module") d0 = false ->
                dict_get (KStr "@module") d1 = Some (VStr (class_module o)))).
  { subst d1. destruct (dict_has (KStr "@module") d0) eqn:E.
    - split; [|split; [auto|discriminate]].
      intros k. destruct (decide (k = KStr "@module")) as [->|Hne].
      + rewrite E. reflexivity.
      + rewrite (bool_decide_eq_false_2 _ Hne), orb_false_r. reflexivity.
    - split; [|split].
      + intros k. rewrite dict_has_set. apply orb_comm.
      + intros k w. apply dict_get_set_fresh. assumption.
      + intros _. apply dict_get_set_eq. }
  destruct H1 as (K1 & V1 & M1).
  assert (H2 : (forall k, dict_has k d2
                          = dict_has k d1 || bool_decide (k = KStr "@class")) /\
               (forall k w, dict_get k d1 = Some w -> dict_get k d2 = Some w) /\
               (dict_has (KStr "@class") d1 = false ->
                dict_get (KStr "@class") d2 = Some (VStr (class_name o)))).
  { subst d2. destruct (dict_has (KStr "@class") d1) eqn:E.
    - split; [|split; [auto|discriminate]].
      intros k. destruct (decide (k = KStr "@class")) as [->|Hne].
      + rewrite E. reflexivity.
      + rewrite (bool_decide_eq_false_2 _ Hne), orb_false_r. reflexivity.
    - split; [|split].
      + intros k. rewrite dict_has_set. apply orb_comm.
      + intros k w. apply dict_get_set_fresh. assumption.
      + intros _. apply dict_get_set_eq. }
  destruct H2 as (K2 & V2 & C2).
  assert (Hkeys : forall k d,
            (forall k, dict_has k d
                       = dict_has k d2 || bool_decide (k = KStr "@version")) ->
            dict_has k d = dict_has k d0 || bool_decide (k ∈ TAG_KEYS)).
  { intros k d K3. rewrite K3, K2, K1, <- !orb_assoc. f_equal.
    unfold TAG_KEYS. apply Bool.eq_iff_eq_true.
    rewrite !orb_true_iff, !bool_decide_eq_true, !elem_of_cons, elem_of_nil.
    tauto. }
  assert (Hclass : dict_has (KStr "@class") d0 = false ->
                   dict_has (KStr "@class") d1 = false).
  { intros H. rewrite K1, H. reflexivity. }
  destruct (dict_has (KStr "@version") d2) eqn:E.
  - intros [= <-]. exists d2. split; [reflexivity|]. split; [|split; [|split]].
    + intros k. apply Hkeys. intros k'.
      destruct (decide (k' = KStr "@version")) as [->|Hne].
      * rewrite E. reflexivity.
      * rewrite (bool_decide_eq_false_2 _ Hne), orb_false_r. reflexivity.
    + auto.
    + auto.
    + auto.
  - destruct (version_tag rt (class_module o)) as [version|]; [simpl|discriminate].
    intros [= <-]. eexists. split; [reflexivity|]. split; [|split; [|split]].
    + intros k. apply Hkeys. intros k'. rewrite dict_has_set. apply orb_comm.
    + intros k w Hk. apply dict_get_set_fresh; auto.
    + intros H. apply dict_get_set_fresh; auto.
    + intros H. apply dict_get_set_fresh; auto.
Qed.

Lemma add_tags_fills_missing_witness :
  add_tags bare_runtime color_red
    (VDict [(KStr "value", VInt 1); (KStr "@class", VStr "Shade")])
  = Ok (VDict [(KStr "value", VInt 1); (KStr "@class", VStr "Shade");
               (KStr "@module", VStr "pkg.colors"); (KStr "@version", VNone)]) /\
  exists d,
    dict_has (KStr "@version") d = true /\
    dict_get (KStr "@class") d = Some (VStr "Shade") /\
    dict_get (KStr "@module") d = Some (VStr "pkg.colors").
Proof.
  split; [reflexivity|].
  destruct (add_tags_fills_missing bare_runtime color_red _
              [(KStr "value", VInt 1); (KStr "@class", VStr "Shade")] eq_refl)
    as (d & _ & Hk & Hv & Hm & _).
  exists d. split; [rewrite Hk; reflexivity|].
  split; [apply Hv; reflexivity|apply Hm; reflexivity].
Defined.

(** X20.  When [as_dict] of an object fails inside the encoder, an
    [AttributeError] is reported as the [TypeError] "not JSON
    serializable", and every other failure (such as the
    [NotImplementedError] of the derivation) leaves the encoder unchanged. *)
Theorem derivation_failure_in_encoder (rt : Runtime) (o : PyVal) (e : exn) :
  has_as_dict o = true ->
  declines rt BEFORE_DERIVATION o ->
  call_as_dict rt o = Raise e ->
  MontyEncoder.default rt o
  = if bool_decide (exn_cls e = AttributeError)
    then raise TypeError (NOT_SERIALIZABLE o)
    else Raise e.
Proof.
  intros Has Hdec Hcall.
  rewrite (default_first_match rt o DerivationMethod BEFORE_DERIVATION [Enumeration])
    by (reflexivity || assumption).
  cbn [branch_encode]. unfold finish_generic. rewrite Hcall.
  cbn [mbind result_bind]. unfold try_except.
  destruct (decide (exn_cls e = AttributeError)) as [He|He].
  - rewrite (bool_decide_eq_true_2 _ He), He. reflexivity.
  - rewrite (bool_decide_eq_false_2 _ He).
    rewrite bool_decide_eq_false_2; [reflexivity|].
    intros H. apply list_elem_of_singleton in H. contradiction.
Qed.

Lemma derivation_failure_in_encoder_witness :
  MontyEncoder.default bare_runtime foo_missing_b
  = raise NotImplementedError NOT_DERIVABLE /\
  MontyEncoder.default bare_runtime valueless_member
  = raise TypeError "Object of type Color is not JSON serializable".
Proof.
  split.
  - refine (derivation_failure_in_encoder bare_runtime foo_missing_b
              (Exn NotImplementedError NOT_DERIVABLE) _ _ _); reflexivity.
  - refine (derivation_failure_in_encoder bare_runtime valueless_member
              (Exn AttributeError "value") _ _ _); reflexivity.
Defined.

(** ** More on the sanitizer *)










Example jsanitize_mixed_example :
  jsanitize 0 bare_runtime default_options mixed_example
  = Ok (VDict [(KStr "1", VNone);
               (KStr "when", VStr "2024-01-02 03:04:05.678900");
               (KStr "who", VStr "<Foo>")]).
Proof. reflexivity. Qed.

(** X29.  With numpy installed, an array that no earlier test of the
    sanitizer takes is sanitized as the list of its elements: the result
    is the list of the sanitized elements of [obj.tolist()]. *)
Theorem jsanitize_array_as_list (depth : nat) (rt : Runtime)
    (opts : sanitize_options) (obj : PyVal) (xs : list PyVal) :
  np_imported rt = true -> isinstance obj NDARRAY = true ->
  reaches_array_branch rt opts obj = true ->
  call_method obj "tolist" = Ok (VList xs) ->
  jsanitize depth rt opts obj
  = VList <$> sequence (map (jsanitize depth rt opts) xs).
Proof.
  intros Hnp Ha Hreach Hl.
  unfold reaches_array_branch in Hreach.
  repeat (apply andb_prop in Hreach as [Hreach ?]).
  repeat match goal with
         | H : negb _ = true |- _ => apply negb_true_iff in H
         end.
  rewrite jsanitize_unfold. unfold jsanitize_body. use_tests. cbn [andb].
  destruct obj; try discriminate Hl. unfold array_elements_of.
  unfold call_method in Hl.
  rewrite (assoc_map
             (fun r : result PyVal =>
                match r with
                | Ok v => if is_list_or_tuple v then jsanitize depth rt opts v
                          else raise TypeError "object is not iterable"
                | Raise e => Raise e
                end)).
  destruct (assoc "tolist" methods) as [r|]; [|discriminate].
  subst r. cbn [fmap option_fmap option_map is_list_or_tuple snd].
  rewrite jsanitize_unfold. unfold jsanitize_body.
  assert (He : isinstance (VList xs) ENUM = false) by reflexivity.
  rewrite He. clear He.
  assert (Hb : (allow_bson opts &&
                (isinstance (VList xs) DATETIME || is_bytes (VList xs)
                 || bson_imported rt && isinstance (VList xs) OBJECTID)) = false).
  { change (isinstance (VList xs) DATETIME) with false.
    change (isinstance (VList xs) OBJECTID) with false.
    cbn [is_bytes orb]. rewrite ?andb_false_r. reflexivity. }
  rewrite Hb. reflexivity.
Qed.



Lemma jsanitize_array_as_list_witness :
  jsanitize 0 library_runtime default_options float_vector
  = Ok (VList [VFloat (fl "1.5"); VFloat (fl "2.5")]).
Proof.
  refine (jsanitize_array_as_list 0 library_runtime default_options float_vector
            [VFloat (fl "1.5"); VFloat (fl "2.5")] _ _ _ _); reflexivity.
Defined.

(** ** More on the content hash *)

Lemma insert_by_key_perm x l : insert_by_key x l ≡ₚ x :: l.
Proof.
  induction l as [|y l IH]; simpl; [reflexivity|].
  destruct (String.ltb x.1 y.1); [reflexivity|].
  rewrite IH. apply Permutation_swap.
Qed.

Lemma sorted_from_perm l acc :
  foldl (fun acc x => insert_by_key x acc) acc l ≡ₚ (acc ++ l)%list.
Proof.
  revert acc. induction l as [|x l IH]; intros acc; simpl.
  - rewrite app_nil_r. reflexivity.
  - rewrite IH, insert_by_key_perm. simpl. apply Permutation_middle.
Qed.

Lemma sorted_by_key_perm l : sorted_by_key l ≡ₚ l.
Proof. apply (sorted_from_perm l []). Qed.

Lemma sorted_from_sorted l acc :
  key_sorted acc -> key_sorted (foldl (fun acc x => insert_by_key x acc) acc l).
Proof.
  revert acc. induction l as [|x l IH]; intros acc H; simpl; [assumption|].
  apply IH, insert_by_key_sorted, H.
Qed.

Lemma sorted_by_key_sorted l : key_sorted (sorted_by_key l).
Proof. apply (sorted_from_sorted l []). exact I. Qed.

Lemma filter_key_sorted (p : string * PyVal -> bool) l :
  key_sorted l -> key_sorted (List.filter p l).
Proof.
  induction l as [|y l IH]; simpl; [auto|].
  intros [Hy Hl]. destruct (p y); simpl; [|auto].
  split; [|auto]. apply Forall_forall. intros z Hz.
  apply list_elem_of_In, filter_In in Hz as [Hz _].
  rewrite Forall_forall in Hy. apply Hy, list_elem_of_In, Hz.
Qed.

Lemma ltb_total x y :
  String.ltb x y = false -> String.ltb y x = false -> x = y.
Proof.
  unfold String.ltb. rewrite (String.compare_antisym y x).
  destruct (String.compare x y) eqn:E; simpl; try discriminate.
  intros _ _. apply String.compare_eq_iff. assumption.
Qed.

Lemma key_sorted_unique (l1 l2 : list (string * PyVal)) :
  key_sorted l1 -> key_sorted l2 -> NoDup (map fst l1) -> l1 ≡ₚ l2 -> l1 = l2.
Proof.
  revert l2. induction l1 as [|x l1 IH]; intros l2 H1 H2 Hn Hp.
  - apply Permutation_nil_l in Hp. congruence.
  - destruct l2 as [|y l2]; [apply Permutation_nil_r in Hp; discriminate|].
    destruct H1 as [Hx H1], H2 as [Hy H2].
    change (map fst (x :: l1)) with (x.1 :: map fst l1) in Hn.
    apply NoDup_cons in Hn as [Hxn Hn].
    assert (Hxy : x = y).
    { assert (Hin : x ∈ y :: l2) by (rewrite <- Hp; left).
      apply elem_of_cons in Hin as [Hin|Hin]; [assumption|].
      assert (Hin' : y ∈ x :: l1) by (rewrite Hp; left).
      apply elem_of_cons in Hin' as [Hin'|Hin']; [congruence|].
      rewrite Forall_forall in Hx, Hy.
      assert (Hk : x.1 = y.1).
      { apply ltb_total; [apply Hy, Hin|apply Hx, Hin']. }
      exfalso. apply Hxn. rewrite Hk.
      apply list_elem_of_In, in_map, list_elem_of_In. assumption. }
    subst y. f_equal. apply IH; try assumption.
    eapply Permutation_cons_inv. exact Hp.
Qed.

(** X23.  The list that [unsafe_hash] digests does not depend on the
    order of the flattened items: two lists of items with distinct keys
    that are permutations of each other are sorted and filtered to the
    same list. *)
Theorem hash_ignores_key_order (items1 items2 : list (string * PyVal)) :
  NoDup (map fst items1) -> items1 ≡ₚ items2 ->
  drop_tagged (sorted_by_key items1) = drop_tagged (sorted_by_key items2).
Proof.
  intros Hn Hp. f_equal. apply key_sorted_unique.
  - apply sorted_by_key_sorted.
  - apply sorted_by_key_sorted.
  - rewrite sorted_by_key_perm. assumption.
  - rewrite !sorted_by_key_perm. assumption.
Qed.

Lemma hash_ignores_key_order_witness :
  drop_tagged (sorted_by_key [("b", VInt 2); ("@class", VStr "Foo"); ("a", VInt 1)])
  = drop_tagged (sorted_by_key [("a", VInt 1); ("b", VInt 2); ("@class", VStr "Foo")]).
Proof.
  apply hash_ignores_key_order.
  - apply (bool_decide_unpack _). vm_compute. exact I.
  - change [("b", VInt 2); ("@class", VStr "Foo"); ("a", VInt 1)]
      with ([("b", VInt 2); ("@class", VStr "Foo")] ++ [("a", VInt 1)])%list.
    rewrite Permutation_app_comm. reflexivity.
Defined.

Lemma update_each_NoDup {A} (f : A -> result pydict) items acc flat :
  update_each f items acc = Ok flat ->
  NoDup (map fst acc) -> NoDup (map fst flat).
Proof.
  revert acc. induction items as [|x items IH]; intros acc; simpl.
  - intros [= <-]. auto.
  - destruct (f x) as [e|]; [simpl|discriminate].
    intros H Hn. apply (IH _ H). apply dict_update_NoDup. assumption.
Qed.

Lemma flatten_NoDup obj flat :
  flatten obj = Ok flat -> NoDup (map fst flat).
Proof.
  destruct obj; try discriminate. simpl. intros H.
  apply (update_each_NoDup _ _ _ _ H). constructor.
Qed.

Lemma text_keys_keys flat items :
  text_keys flat = Ok items -> map fst flat = map KStr (map fst items).
Proof.
  revert items. induction flat as [|[k v] flat IH]; intros items; simpl.
  - intros [= <-]. reflexivity.
  - destruct k as [s|z]; [|discriminate].
    destruct (text_keys flat) as [rest|]; [simpl|discriminate].
    intros [= <-]. simpl. f_equal. apply IH. reflexivity.
Qed.

(** X24.  The list of items that [unsafe_hash] digests is in
    non-decreasing key order, has every key once, and has no key that
    contains ["@"]. *)
Theorem ordered_keys_invariant (depth : nat) (rt : Runtime) (self : PyVal)
    (keys : list (string * PyVal)) :
  ordered_keys depth rt self = Ok keys ->
  key_sorted keys /\
  NoDup (map fst keys) /\
  Forall (fun kv : string * PyVal => contains "@" kv.1 = false) keys.
Proof.
  unfold ordered_keys.
  destruct (call_as_dict rt self) as [d|]; [simpl|discriminate].
  destruct (jsanitize depth rt default_options d) as [clean|]; [simpl|discriminate].
  destruct (flatten clean) as [flat|] eqn:Hflat; [simpl|discriminate].
  destruct (text_keys flat) as [items|] eqn:Hitems; [simpl|discriminate].
  intros [= <-]. split; [|split].
  - apply filter_key_sorted, sorted_by_key_sorted.
  - apply flatten_NoDup in Hflat. rewrite (text_keys_keys _ _ Hitems) in Hflat.
    apply NoDup_fmap_1 in Hflat.
    unfold drop_tagged.
    assert (Hs : NoDup (map fst (sorted_by_key items))).
    { rewrite sorted_by_key_perm. assumption. }
    revert Hs. generalize (sorted_by_key items). intros l.
    induction l as [|x l IH]; simpl; [auto|].
    intros Hn. apply NoDup_cons in Hn as [Hx Hn].
    destruct (negb (contains "@" x.1)); simpl; [|auto].
    apply NoDup_cons. split; [|auto].
    intros Hin. apply Hx.
    apply list_elem_of_In in Hin. apply in_map_iff in Hin as (y & Hy & Hin).
    apply filter_In in Hin as [Hin _].
    apply list_elem_of_In. apply in_map_iff. eauto.
  - apply Forall_forall. intros kv Hin.
    apply list_elem_of_In, filter_In in Hin as [_ Hin].
    apply negb_true_iff in Hin. assumption.
Qed.

Lemma ordered_keys_invariant_witness :
  key_sorted [("color.value", VInt 1)] /\
  NoDup (map fst [("color.value", VInt 1)]) /\
  Forall (fun kv : string * PyVal => contains "@" kv.1 = false)
    [("color.value", VInt 1)].
Proof.
  apply (ordered_keys_invariant 0 bare_runtime painted). reflexivity.
Defined.

Lemma prefix_app_l (n a b : string) :
  String.prefix n a = true -> String.prefix n (a ++ b) = true.
Proof.
  revert a. induction n as [|c n IH]; intros a;
    [intros _; destruct (a ++ b); reflexivity|].
  destruct a as [|c' a]; [discriminate|]. simpl.
  destruct (Ascii.ascii_dec c c'); [apply IH|discriminate].
Qed.

Lemma contains_app_l (n a b : string) :
  contains n a = true -> contains n (a ++ b) = true.
Proof.
  induction a as [|c a IH].
  - simpl. rewrite orb_false_r. intros H. destruct n; [|discriminate H].
    destruct b; reflexivity.
  - intros H. simpl in H. apply orb_true_iff in H as [H|H].
    + rewrite append_cons. simpl. apply orb_true_iff. left.
      change (String c (a ++ b)) with (String c a ++ b). 
      apply (prefix_app_l n (String c a) b). assumption.
    + rewrite append_cons. simpl. apply orb_true_iff. right. auto.
Qed.

Lemma flat_map_indexed_Forall {A B} (P : B -> Prop) (f : nat -> A -> list B) l :
  Forall (fun x => forall num, Forall P (f num x)) l ->
  forall num, Forall P (flat_map_indexed f num l).
Proof.
  induction 1 as [|x l Hx _ IH]; intros num; simpl; [constructor|].
  apply Forall_app. split; [apply Hx|apply IH].
Qed.

Lemma leaves_tagged (value : PyVal) :
  forall key, contains "@" key = true ->
    Forall (fun kv : string * PyVal => contains "@" kv.1 = true) (leaves key value).
Proof.
  induction value as [| | | | | | |xs IH|xs IH|d IH| | |] using PyVal_nested_ind;
    intros key Hk; try (repeat constructor; assumption).
  - simpl. apply flat_map_indexed_Forall.
    eapply Forall_impl; [exact IH|]. simpl. intros x Hx num.
    apply Hx. apply contains_app_l. assumption.
  - simpl. induction IH as [|[k v] d Hx _ IHd]; simpl; [constructor|].
    apply Forall_app. split; [|assumption].
    apply Hx. apply contains_app_l. assumption.
Qed.

Lemma drop_tagged_app l1 l2 :
  drop_tagged (l1 ++ l2)%list = (drop_tagged l1 ++ drop_tagged l2)%list.
Proof. apply List.filter_app. Qed.

Lemma drop_tagged_all l :
  Forall (fun kv : string * PyVal => contains "@" kv.1 = true) l ->
  drop_tagged l = [].
Proof.
  induction 1 as [|x l Hx _ IH]; [reflexivity|].
  simpl. rewrite Hx. simpl. assumption.
Qed.

Lemma drop_tagged_flat_leaves d :
  drop_tagged (flat_leaves d) = drop_tagged (flat_leaves (untagged_entries d)).
Proof.
  unfold flat_leaves. induction d as [|[k v] d IH]; [reflexivity|].
  simpl. unfold untagged_key at 1. simpl. rewrite drop_tagged_app, IH.
  destruct (contains "@" (key_str k)) eqn:E; simpl.
  - rewrite drop_tagged_all by (apply leaves_tagged; assumption). reflexivity.
  - rewrite drop_tagged_app. reflexivity.
Qed.

Lemma filter_dict_set k v (d : pydict) :
  List.filter untagged_key (dict_set k v d)
  = if untagged_key (k, v) then dict_set k v (List.filter untagged_key d)
    else List.filter untagged_key d.
Proof.
  induction d as [|[k' w] d IH]; simpl.
  - destruct (untagged_key (k, v)); reflexivity.
  - destruct (decide (k = k')) as [<-|Hne]; simpl.
    + change (untagged_key (k, w)) with (untagged_key (k, v)).
      destruct (untagged_key (k, v)); simpl; [|reflexivity].
      rewrite decide_True by reflexivity. reflexivity.
    + rewrite IH. destruct (untagged_key (k', w)) eqn:E'; simpl;
        destruct (untagged_key (k, v)); simpl; try reflexivity.
      rewrite decide_False by assumption. reflexivity.
Qed.

Lemma filter_dict_update (a e : pydict) :
  List.filter untagged_key (dict_update a e)
  = dict_update (List.filter untagged_key a) (List.filter untagged_key e).
Proof.
  revert a. induction e as [|[k v] e IH]; intros a; [reflexivity|].
  rewrite dict_update_cons, IH, filter_dict_set. simpl.
  destruct (untagged_key (k, v)); [rewrite dict_update_cons|]; reflexivity.
Qed.

Lemma filter_as_items l :
  List.filter untagged_key (as_items l) = as_items (drop_tagged l).
Proof.
  induction l as [|[k v] l IH]; [reflexivity|].
  simpl. unfold untagged_key at 1. simpl.
  destruct (contains "@" k); simpl; rewrite IH; reflexivity.
Qed.

Lemma text_keys_as_items (flat : pydict) :
  Forall (fun kv : dkey * PyVal => exists s, kv.1 = KStr s) flat ->
  exists items, text_keys flat = Ok items /\ as_items items = flat.
Proof.
  induction 1 as [|[k v] flat [s Hs] _ (items & Hi & Ha)]; simpl.
  - exists []. auto.
  - simpl in Hs. subst k. rewrite Hi. simpl. exists ((s, v) :: items).
    split; [reflexivity|]. simpl. rewrite Ha. reflexivity.
Qed.

Lemma as_items_inj l1 l2 : as_items l1 = as_items l2 -> l1 = l2.
Proof.
  revert l2. induction l1 as [|[k v] l1 IH]; intros [|[k' v'] l2]; simpl;
    try discriminate; [reflexivity|].
  intros [= -> -> H]. f_equal. auto.
Qed.

Lemma hash_keys_leaves d :
  text_keyed (VDict d) = true ->
  exists items,
    hash_keys (VDict d) = Ok (sorted_by_key items) /\
    as_items items
    = dict_of_items (as_items (drop_tagged (flat_leaves (untagged_entries d)))).
Proof.
  intros Ht. unfold hash_keys. rewrite flatten_leaves by assumption.
  cbn [mbind result_bind].
  destruct (text_keys_as_items (dict_of_items (as_items (flat_leaves d))))
    as (items & Hi & Ha).
  { apply dict_update_text_keys; [constructor|apply as_items_text_keys]. }
  rewrite Hi. cbn [mbind result_bind]. rewrite drop_tagged_sorted.
  exists (drop_tagged items). split; [reflexivity|].
  rewrite <- filter_as_items, Ha. unfold dict_of_items.
  rewrite filter_dict_update. simpl.
  rewrite filter_as_items, drop_tagged_flat_leaves. reflexivity.
Qed.

(** X25.  [unsafe_hash] does not see the entries of the sanitized form
    whose top-level key contains ["@"]: two objects whose sanitized forms
    have the same other entries have the same digested list and the same
    hash, whatever their class, module and version. *)
Theorem hash_ignores_tagged_entries (depth : nat) (rt : Runtime)
    (x x' a a' : PyVal) (d d' : pydict) :
  call_as_dict rt x = Ok a ->
  jsanitize depth rt default_options a = Ok (VDict d) ->
  call_as_dict rt x' = Ok a' ->
  jsanitize depth rt default_options a' = Ok (VDict d') ->
  text_keyed (VDict d) = true -> text_keyed (VDict d') = true ->
  untagged_entries d = untagged_entries d' ->
  ordered_keys depth rt x = ordered_keys depth rt x' /\
  unsafe_hash depth rt x = unsafe_hash depth rt x'.
Proof.
  intros Ha Hd Ha' Hd' Ht Ht' He.
  assert (Hk : hash_keys (VDict d) = hash_keys (VDict d')).
  { destruct (hash_keys_leaves d Ht) as (items & -> & Hi).
    destruct (hash_keys_leaves d' Ht') as (items' & -> & Hi').
    rewrite He in Hi. rewrite <- Hi' in Hi.
    apply as_items_inj in Hi. congruence. }
  assert (Ho : ordered_keys depth rt x = ordered_keys depth rt x').
  { unfold ordered_keys. rewrite Ha, Ha'. cbn [mbind result_bind].
    rewrite Hd, Hd'. cbn [mbind result_bind]. exact Hk. }
  split; [exact Ho|]. unfold unsafe_hash. rewrite Ho. reflexivity.
Qed.

Lemma hash_ignores_tagged_entries_witness :
  ordered_keys 0 package_runtime foo_stored
  = ordered_keys 0 package_runtime bar_stored /\
  unsafe_hash 0 package_runtime foo_stored
  = unsafe_hash 0 package_runtime bar_stored.
Proof.
  refine (hash_ignores_tagged_entries 0 package_runtime foo_stored bar_stored
            _ _ _ _ eq_refl eq_refl eq_refl eq_refl _ _ _); reflexivity.
Defined.

Example hash_of_two_classes :
  ordered_keys 0 package_runtime foo_stored
  = Ok [("b.0", VInt 2); ("b.1", VInt 3); ("zeta", VInt 1)] /\
  ordered_keys 0 package_runtime bar_stored
  = Ok [("b.0", VInt 2); ("b.1", VInt 3); ("zeta", VInt 1)].
Proof. split; reflexivity. Qed.

(** ** The pydantic hooks *)



Lemma dict_get_prefix (ks : list dkey) (d : pydict) k :
  ks `prefix_of` map fst d -> k ∈ ks -> dict_has k d = true.
Proof.
  intros [rest Hp] Hin. unfold dict_has. apply bool_decide_eq_true.
  destruct (dict_get k d) eqn:E; [eauto|].
  apply dict_get_None_keys in E. exfalso. apply E. rewrite Hp.
  apply elem_of_app. left. assumption.
Qed.

Lemma derive_args_get derived params (d d' : pydict) k :
  derive_args derived params d = Ok d' ->
  Forall (fun c => KStr c <> k) params ->
  dict_get k d' = dict_get k d.
Proof.
  revert d. induction params as [|c params IH]; intros d; simpl.
  - intros [= ->] _. reflexivity.
  - intros H Hall. inversion Hall as [|? ? Hc Hrest]; subst.
    destruct (String.eqb c "self"); [auto|].
    destruct (assoc c derived) as [[v|e]|].
    + simpl in H. rewrite (IH _ H Hrest). apply dict_get_set_ne. congruence.
    + discriminate.
    + destruct (assoc ("_" ++ c) derived) as [[v|e]|]; try discriminate.
      simpl in H. rewrite (IH _ H Hrest). apply dict_get_set_ne. congruence.
Qed.

(** X27.  Every key that the generic JSON schema of a class requires is
    present in every [as_dict] form of its instances; and for an object
    without [kwargs] and [_kwargs] bags the value under such a key is the
    one the schema allows. *)
Theorem derived_form_meets_schema (rt : Runtime) (ty : PyType) (text : string)
    (attrs : list (string * PyVal)) (methods : list (string * result PyVal))
    (d : pydict) :
  as_dict rt (VObj ty text attrs methods) = Ok (VDict d) ->
  let schema := _generic_json_schema (ty_module ty) (ty_name ty) in
  Forall (fun k => dict_has k d = true) (required_keys schema) /\
  (assoc "kwargs" attrs = None -> assoc "_kwargs" attrs = None ->
   ty_init_varargs ty = None ->
   Forall (fun c => String.prefix "@" c = false)
     (ty_init_args ty ++ ty_init_kwonly ty) ->
   forall name, KStr name ∈ required_keys schema ->
     exists v, dict_get (KStr name) d = Some v /\ v ∈ allowed_values schema name).
Proof.
  intros H schema. split.
  - destruct (as_dict_body_tags _ _ _ _ _ H) as (d' & [= <-] & Hp).
    repeat constructor; apply (dict_get_prefix TAG_KEYS); try assumption;
      unfold TAG_KEYS; set_solver.
  - intros Hk Hk' Hva Hid name Hin.
    unfold as_dict, as_dict_body in H.
    destruct (version_tag rt (ty_module ty)) as [version|];
      [simpl in H|discriminate].
    unfold update_from_bag in H. rewrite Hk, Hk', Hva in H.
    destruct (derive_args _ _ _) as [d1|] eqn:E1; [simpl in H|discriminate].
    assert (H1 : forall k, String.prefix "@" k = true ->
              dict_get (KStr k) d
              = dict_get (KStr k)
                  [(KStr "@module", VStr (ty_module ty));
                   (KStr "@class", VStr (ty_name ty));
                   (KStr "@version", version)]).
    { intros k Hpre. transitivity (dict_get (KStr k) d1).
      - destruct (bool_decide (ENUM ∈ ty_mro ty)).
        + destruct (assoc "value" attrs) as [w|]; [simpl in H|discriminate].
          injection H as <-. apply dict_get_set_ne. intros [= ->]. discriminate.
        + simpl in H. injection H as <-. reflexivity.
      - apply (derive_args_get _ _ _ _ _ E1).
        eapply Forall_impl; [exact Hid|]. simpl. intros c Hc [= ->]. congruence. }
    subst schema. unfold required_keys, _generic_json_schema in Hin. simpl in Hin.
    apply elem_of_cons in Hin as [[= ->]|Hin];
      [|apply list_elem_of_singleton in Hin as [= ->]];
      rewrite H1 by reflexivity; eexists; (split; [reflexivity|]);
      unfold allowed_values; simpl; left.
Qed.

Lemma derived_form_meets_schema_witness :
  Forall (fun k => dict_has k
                     [(KStr "@module", VStr "pkg.mod"); (KStr "@class", VStr "Foo");
                      (KStr "@version", VNone); (KStr "zeta", VInt 1);
                      (KStr "b", VList [VInt 2; VInt 3])] = true)
    [KStr "@class"; KStr "@module"] /\
  exists v,
    dict_get (KStr "@class")
      [(KStr "@module", VStr "pkg.mod"); (KStr "@class", VStr "Foo");
       (KStr "@version", VNone); (KStr "zeta", VInt 1);
       (KStr "b", VList [VInt 2; VInt 3])] = Some v /\
    v ∈ [VStr "Foo"].
Proof.
  pose proof (derived_form_meets_schema bare_runtime
                (plain_type "pkg.mod" "Foo" [MSONABLE] ["self"; "zeta"; "b"])
                "<Foo>" [("_zeta", VInt 1); ("b", VTuple [VInt 2; VInt 3])] []
                _ eq_refl) as [Hreq Hval].
  split; [exact Hreq|].
  apply (Hval eq_refl eq_refl eq_refl); [repeat constructor|].
  left.
Defined.

(** ** Timestamps through the codec *)

Lemma is_ascii_app (a b : string) :
  is_ascii (a ++ b) = is_ascii a && is_ascii b.
Proof.
  induction a as [|c a IH]; [reflexivity|].
  rewrite append_cons. cbn [is_ascii]. rewrite IH, andb_assoc. reflexivity.
Qed.

Lemma is_ascii_pad w n : is_ascii (pad w n) = true.
Proof.
  induction w as [|w IH]; [reflexivity|].
  cbn [pad is_ascii]. rewrite IH, andb_true_r. unfold digit_char.
  pose proof (mod_10_lt (n / 10 ^ N.of_nat w)).
  rewrite N_ascii_embedding by lia. apply N.ltb_lt. lia.
Qed.

(** [str(o)] of a timestamp is within ASCII *)
Lemma is_ascii_datetime_str dt : is_ascii (datetime_str dt) = true.
Proof.
  unfold datetime_str, tz_str.
  destruct (microsecond dt =? 0)%N, (tz_minutes dt) as [off|];
    [destruct (off <? 0)| |destruct (off <? 0)|];
    rewrite !is_ascii_app, !is_ascii_pad; reflexivity.
Qed.

(** X28.  A valid timestamp without time zone decodes from its encoding
    to itself, whatever its date and time and with or without
    microseconds, under a redirect table that does not rename
    [datetime.datetime]. *)
Theorem naive_timestamp_roundtrip (depth : nat) (rt : Runtime)
    (redirect : redirect_table) (dt : datetime) :
  valid_datetime dt = true ->
  tz_minutes dt = None ->
  redirect_get redirect "datetime" "datetime" = None ->
  MontyEncoder.default rt (mk_datetime dt)
  = Ok (tagged "datetime" "datetime" [(KStr "string", VStr (datetime_str dt))]) /\
  roundtrip depth rt redirect (mk_datetime dt) = Ok (mk_datetime dt).
Proof.
  intros Hv Ht Hred.
  assert (Henc : MontyEncoder.default rt (mk_datetime dt)
                 = Ok (tagged "datetime" "datetime"
                         [(KStr "string", VStr (datetime_str dt))])).
  { rewrite default_unfold. unfold default_with.
    change (isinstance (mk_datetime dt) DATETIME) with true. reflexivity. }
  split; [exact Henc|].
  unfold roundtrip. rewrite Henc. cbn [mbind result_bind]. unfold tagged.
  rewrite (process_decoded_tagged _ _ _ _ "datetime" "datetime")
    by (reflexivity || assumption || discriminate).
  rewrite reconstruct_datetime. unfold decode_datetime, strptime_text.
  change (dict_item "string" _) with (Ok (VStr (datetime_str dt))).
  cbn [mbind result_bind]. rewrite is_ascii_datetime_str.
  rewrite strptime_datetime_str by assumption. reflexivity.
Qed.

Lemma naive_timestamp_roundtrip_witness :
  roundtrip 0 bare_runtime ∅ (mk_datetime naive_stamp)
  = Ok (mk_datetime naive_stamp).
Proof.
  refine (proj2 (naive_timestamp_roundtrip 0 bare_runtime ∅ naive_stamp _ _ _));
    reflexivity.
Defined.
